(** * HorariosIPBejaMVC: the timetable allocation and LP-model builder

    A shallow embedding of [wwwroot/Scripts/geradorHorarios.py]
    ([generate_lp_file], [get_uc_id_from_var]) and the properties of its
    greedy allocation search and of the LP text it writes, followed by the
    reader of the solver's answer ([wwwroot/Scripts/solution_reader.py]) and
    the preparation of the input tables
    ([wwwroot/Scripts/process_data.py]).

    Conventions of the embedding
    - identifiers, semesters, labels and class types are Python integers,
      modelled as unbounded [Z]; a duration is a number of periods,
      modelled as [nat] (negative durations, for which Python slices count
      from the end of the list, missing values and non-integer ids are
      outside the model);
    - a pandas table is the list of its rows, in row order;
    - a Python [dict] is an insertion-ordered association list ([dict_set]
      updates in place or appends), a Python [set] of strings a
      duplicate-free list;
    - [list(set(...))] over integers is a parameter [list_of_set] of the
      whole development: Python leaves the iteration order of a set
      unspecified;
    - operations that can raise ([d[k]], [l[i]], [int(...)]) live in the
      [result] monad;
    - [lp_file.write(s)] appends [s] to the list [lp_file] of written chunks;
      the [logging.info] call that reports a placement appends to the ghost
      list [agendadas]; other log calls have no effect on the result;
    - a text is the list of its characters, each a code point below 256;
      [int(s)] accepts blanks at both ends, a sign and decimal digits (the
      separators 28 to 31 and the interpreter's limit on the number of
      digits are outside the model);
    - in [solution_reader.py] the solution file is the list of its
      [variable] elements, each with its [name] and with its [value] after
      [float(...)], a rational number (elements without these attributes
      and values that are not numbers are outside the model);
      [max_periods_per_day] is positive; the result of [create_timetable]
      is the table handed to [to_html];
    - in [process_data.py] a table is the list of its rows, by the columns
      that are read, without missing values; an exception is given by the
      data of its message. *)

From Stdlib Require Import ZArith List Bool Lia String Ascii Permutation.
From Stdlib Require Import Sorting.Sorted DecimalString DecimalZ.
From Stdlib Require Import QArith.
Import ListNotations.

Open Scope Z_scope.

Infix "+++" := String.append (right associativity, at level 60).

(** ** Python runtime: exceptions *)

Inductive exn : Type := KeyError | IndexError | ValueError | TypeError.

Inductive result (A : Type) : Type :=
| Ok (a : A)
| Raise (e : exn).

Arguments Ok {A} a.
Arguments Raise {A} e.

Definition bind {A B : Type} (m : result A) (f : A -> result B) : result B :=
  match m with
  | Ok a => f a
  | Raise e => Raise e
  end.

Notation "x <- m ;; k" := (bind m (fun x => k))
  (at level 61, m at next level, right associativity).

(** [all(f(x) for x in l)]: stops at the first false element. *)
Fixpoint all_m {A : Type} (f : A -> result bool) (l : list A) : result bool :=
  match l with
  | [] => Ok true
  | x :: l' => b <- f x ;; if b then all_m f l' else Ok false
  end.

(** A loop whose body may raise. *)
Fixpoint fold_m {A S : Type} (f : S -> A -> result S) (l : list A) (s : S)
  : result S :=
  match l with
  | [] => Ok s
  | x :: l' => s' <- f s x ;; fold_m f l' s'
  end.

(** ** Python runtime: keys, dicts, lists *)

Class Key (K : Type) : Type := {
  keqb : K -> K -> bool;
  keqb_spec : forall x y, reflect (x = y) (keqb x y)
}.

#[export] Instance Key_Z : Key Z := {| keqb := Z.eqb; keqb_spec := Z.eqb_spec |}.

Definition pair_eqb (a b : Z * Z) : bool :=
  (fst a =? fst b) && (snd a =? snd b).

Lemma pair_eqb_spec (a b : Z * Z) : reflect (a = b) (pair_eqb a b).
Proof.
  destruct a as [a1 a2], b as [b1 b2]; unfold pair_eqb; simpl.
  destruct (Z.eqb_spec a1 b1), (Z.eqb_spec a2 b2); simpl;
    constructor; congruence.
Qed.

#[export] Instance Key_ZZ : Key (Z * Z) :=
  {| keqb := pair_eqb; keqb_spec := pair_eqb_spec |}.

#[export] Instance Key_string : Key string :=
  {| keqb := String.eqb; keqb_spec := String.eqb_spec |}.

Definition dict (K V : Type) : Type := list (K * V).

Section Dict.
Context {K V : Type} `{Key K}.

(** [d.get(k)] *)
Fixpoint dict_get (d : dict K V) (k : K) : option V :=
  match d with
  | [] => None
  | (k', v) :: d' => if keqb k' k then Some v else dict_get d' k
  end.

(** [k in d] *)
Definition dict_in (k : K) (d : dict K V) : bool :=
  match dict_get d k with Some _ => true | None => false end.

(** [d[k]] *)
Definition dict_subscript (d : dict K V) (k : K) : result V :=
  match dict_get d k with Some v => Ok v | None => Raise KeyError end.

(** [d[k] = v]: an existing key keeps its position. *)
Fixpoint dict_set (d : dict K V) (k : K) (v : V) : dict K V :=
  match d with
  | [] => [(k, v)]
  | (k', v') :: d' =>
      if keqb k' k then (k', v) :: d' else (k', v') :: dict_set d' k v
  end.

(** [dict(zip(ks, vs))] *)
Definition dict_zip (kvs : list (K * V)) : dict K V :=
  fold_left (fun d kv => dict_set d (fst kv) (snd kv)) kvs [].
End Dict.

(** [d.setdefault(k, []).append(x)] *)
Definition dict_append {K A : Type} `{Key K} (d : dict K (list A)) (k : K)
  (x : A) : dict K (list A) :=
  match dict_get d k with
  | Some l => dict_set d k (l ++ [x])
  | None => dict_set d k [x]
  end.

(** [x in l] *)
Definition py_in {K : Type} `{Key K} (x : K) (l : list K) : bool :=
  existsb (keqb x) l.

(** [s.add(x)] on a set kept as a duplicate-free list. *)
Definition set_add {K : Type} `{Key K} (s : list K) (x : K) : list K :=
  if py_in x s then s else s ++ [x].

(** [Series.unique()]: the values in order of first appearance. *)
Definition unique {K : Type} `{Key K} (l : list K) : list K :=
  fold_left set_add l [].

(** [l[i]] for a non-negative index. *)
Definition subscript {A : Type} (l : list A) (i : nat) : result A :=
  match nth_error l i with Some a => Ok a | None => Raise IndexError end.

(** [l[i:j]] for non-negative [i <= j]. *)
Definition slice {A : Type} (l : list A) (i j : nat) : list A :=
  firstn (j - i) (skipn i l).

(** [range(n)] *)
Definition py_range (n : Z) : list nat := seq 0 (Z.to_nat n).

(** [sorted(l)] for a total order [leb]. *)
Fixpoint insert_sorted {A : Type} (leb : A -> A -> bool) (x : A) (l : list A)
  : list A :=
  match l with
  | [] => [x]
  | y :: l' => if leb x y then x :: l else y :: insert_sorted leb x l'
  end.

Definition py_sorted {A : Type} (leb : A -> A -> bool) (l : list A) : list A :=
  fold_right (insert_sorted leb) [] l.

(** ** Python runtime: text *)

(** [str(z)] / the f-string rendering [{int(z)}] *)
Definition str (z : Z) : string := NilZero.string_of_int (Z.to_int z).

(** [sep.join(l)] *)
Definition join (sep : string) (l : list string) : string :=
  String.concat sep l.

(** [s.split(c)] for a one-character separator. *)
Fixpoint split (c : ascii) (s : string) : list string :=
  match s with
  | EmptyString => [EmptyString]
  | String a s' =>
      if Ascii.eqb a c then EmptyString :: split c s'
      else match split c s' with
           | [] => [String a EmptyString]
           | w :: ws => String a w :: ws
           end
  end.

(** [s[1:]] *)
Definition tail_str (s : string) : string :=
  match s with EmptyString => EmptyString | String _ s' => s' end.

(** [int(s)] on the decimal renderings this program produces. *)
Definition int_of_str (s : string) : result Z :=
  match NilZero.int_of_string s with
  | Some d => Ok (Z.of_int d)
  | None => Raise ValueError
  end.

(** ** Python runtime: the iteration order of a set of integers in CPython

    [list(set(l))] depends on the hash table of CPython's [setobject.c]:
    open addressing over a table of [mask + 1] slots (initially 8), a short
    linear scan followed by the perturbed jump [i = 5 i + 1 + perturb],
    growth to at least four times the number of keys once the table is 3/5
    full, and iteration by slot index.  The rest of the development takes
    the order as a parameter; this model gives the concrete order used in
    examples. *)

(** [hash(z)] of an integer, as an unsigned 64-bit word. *)
Definition py_hash (z : Z) : Z :=
  let m := 2 ^ 61 - 1 in
  let h := if z <? 0 then - ((- z) mod m) else z mod m in
  (if h =? -1 then -2 else h) mod 2 ^ 64.

Inductive sondagem : Type := Livre (i : Z) | Presente | Seguir.

(** The scan of the slots [i .. i + n]; [compara] is false when the key is
    known to be new ([set_insert_clean]). *)
Fixpoint scan (table : list (option Z)) (compara : bool) (key i : Z)
  (n : nat) : sondagem :=
  match nth_error table (Z.to_nat i) with
  | Some None => Livre i
  | Some (Some k) =>
      if compara && (k =? key) then Presente
      else match n with
           | O => Seguir
           | S n' => scan table compara key (i + 1) n'
           end
  | None => Seguir
  end.

Fixpoint probe (fuel : nat) (table : list (option Z)) (compara : bool)
  (mask key i perturb : Z) : sondagem :=
  match fuel with
  | O => Seguir
  | S fuel' =>
      match scan table compara key i (if i + 9 <=? mask then 9 else 0) with
      | Seguir =>
          let perturb := Z.shiftr perturb 5 in
          probe fuel' table compara mask key
                (Z.land (i * 5 + 1 + perturb) mask) perturb
      | r => r
      end
  end.

Fixpoint set_slot (table : list (option Z)) (i : nat) (key : Z)
  : list (option Z) :=
  match table, i with
  | [], _ => []
  | _ :: t, O => Some key :: t
  | e :: t, S i' => e :: set_slot t i' key
  end.

(** The slot search visits every slot within this many jumps. *)
Definition probe_fuel (table : list (option Z)) : nat :=
  (List.length table + 14)%nat.

Definition insert_key (compara : bool) (table : list (option Z)) (key : Z)
  : list (option Z) * bool :=
  let mask := Z.of_nat (List.length table) - 1 in
  let h := py_hash key in
  match probe (probe_fuel table) table compara mask key (Z.land h mask) h with
  | Livre i => (set_slot table (Z.to_nat i) key, true)
  | _ => (table, false)
  end.

Definition keys_of (table : list (option Z)) : list Z :=
  flat_map (fun e => match e with Some k => [k] | None => [] end) table.

Fixpoint new_size (fuel : nat) (size minused : Z) : Z :=
  match fuel with
  | O => size
  | S fuel' =>
      if size <=? minused then new_size fuel' (2 * size) minused else size
  end.

(** [set_table_resize] *)
Definition set_table_resize (table : list (option Z)) (minused : Z)
  : list (option Z) :=
  let size := new_size 64 8 minused in
  fold_left (fun t k => fst (insert_key false t k)) (keys_of table)
            (repeat None (Z.to_nat size)).

(** [set_add_entry] *)
Definition set_add_entry (table : list (option Z)) (key : Z)
  : list (option Z) :=
  let '(table', novo) := insert_key true table key in
  if novo then
    let fill := Z.of_nat (List.length (keys_of table')) in
    let mask := Z.of_nat (List.length table') - 1 in
    if fill * 5 <? mask * 3 then table'
    else set_table_resize table'
           (if 50000 <? fill then fill * 2 else fill * 4)
  else table'.

Definition cpython_list_of_set (l : list Z) : list Z :=
  keys_of (fold_left set_add_entry l (repeat None 8)).

(** ** Input tables (the pickled data) *)

(** A row of [turmas]. *)
Record turma_row : Type := {
  id : Z;
  unidade_curricular_id : Z;
  docente_id : Z;
  tipo_aula_id : Z;
  duracao : nat;
  turma_label_id : Z
}.

(** [salas] and [periodos] are read through their ['id'] column only;
    [uc_sala] rows are (unidade_curricular_id, sala_id);
    [indisponibilidade_docente] rows are (docente_id, periodo_horario_id);
    [unidades_curriculares] rows are (id, semestre), and [None] stands for a
    missing table or a missing ['semestre'] column. *)
Record dados : Type := {
  turmas : list turma_row;
  salas : list Z;
  periodos : list Z;
  uc_sala : list (Z * Z);
  indisponibilidade_docente : list (Z * Z);
  unidades_curriculares : option (list (Z * Z))
}.

(** The label table of [process_data.preparar_dados]: the column
    [turma_label_id] of [turmas] is the image of [turma_label] under it. *)
Definition turma_label_to_id : dict string Z :=
  [ ("TT"%string, 1); ("A"%string, 2); ("B"%string, 3); ("C"%string, 4);
    ("D"%string, 5) ].

(** The inline table of curricular units that must not overlap. *)
Definition restricoes_entre_ucs : dict Z (list Z) :=
  [ (3, [5]); (5, [3]); (11, [13; 14; 15]); (13, [11]); (14, [11]);
    (15, [11]); (22, [23]); (23, [22]) ].

(** ** The state of the builder *)

Record estado : Type := {
  lp_file : list string;
  docente_periodo_vars : dict (Z * Z) (list string);
  sala_periodo_vars : dict (Z * Z) (list string);
  variables : list string;
  written_constraints : list string;
  sala_periodos_ocupados : dict (Z * Z) Z;
  docente_periodos_ocupados : dict (Z * Z) Z;
  agendadas : list (Z * Z * list Z)
}.

(** ** Text of variables and constraints *)

Definition var_name (turma sala periodo : Z) : string :=
  "x" +++ str turma +++ "_" +++ str sala +++ "_" +++ str periodo.

Definition z_name (sala : Z) : string := "z_" +++ str sala.

Definition nl : string := String (ascii_of_nat 10) EmptyString.

Definition cont_constraint (var_start var : string) : string :=
  "cont_" +++ var_start +++ "_" +++ var +++ ": " +++ var_start +++ " - "
  +++ var +++ " = 0" +++ nl.

Definition allocation_constraint (turma : Z) (uc_variables : list string)
  (dur : nat) : string :=
  "turma_" +++ str turma +++ "_agendada: " +++ join " + " uc_variables
  +++ " = " +++ str (Z.of_nat dur) +++ nl.

Definition sala_constraint (sala turma : Z) (uc_variables : list string)
  (dur : nat) : string :=
  "sala_" +++ str sala +++ "_uso_para_turma_" +++ str turma +++ ": "
  +++ join " + " uc_variables +++ " - " +++ str (Z.of_nat dur) +++ " z_"
  +++ str sala +++ " <= 0" +++ nl.

Definition restricao_uc_constraint (a b periodo : Z) (vars : list string)
  : string :=
  ("restricao_UC" +++ str a +++ "_UC" +++ str b +++ "_periodo_"
   +++ str periodo) +++ ": " +++ join " + " vars +++ " <= 1" +++ nl.

Definition ordem_constraint (uc early late : Z) : string :=
  "ordem_uc_" +++ str uc +++ "_turma_" +++ str early +++ "_" +++ str late
  +++ ": end_" +++ str early +++ " - start_" +++ str late +++ " <= -1" +++ nl.

Definition docente_conflito_constraint (docente periodo : Z)
  (vars : list string) : string :=
  "docente_" +++ str docente +++ "_periodo_" +++ str periodo +++ "_conflito: "
  +++ join " + " vars +++ " <= 1" +++ nl.

Definition sala_conflito_constraint (sala periodo : Z) (vars : list string)
  : string :=
  "sala_" +++ str sala +++ "_periodo_" +++ str periodo +++ "_conflito: "
  +++ join " + " vars +++ " <= 1" +++ nl.

Definition objective (salas_id : list Z) : string :=
  "Minimize" +++ nl +++ " obj: " +++ join " + " (map z_name salas_id) +++ nl.

Definition subject_to : string := nl +++ "Subject To" +++ nl.
Definition binary_header : string := nl +++ "Binary" +++ nl.
Definition declaration (var : string) : string := " " +++ var +++ nl.
Definition end_marker : string := "End" +++ nl.

(** ** The builder *)

Section Builder.

(** [list(set(l))] for a list of room ids. *)
Variable list_of_set : list Z -> list Z.

(** The loaded tables; [ucs] is [unidades_curriculares] once it is known
    to be present with its ['semestre'] column. *)
Variable d : dados.
Variable ucs : list (Z * Z).

Definition uc_semestre : dict Z Z := dict_zip ucs.

Definition turma_set : list Z :=
  py_sorted Z.leb (unique (map id (turmas d))).

Definition turma_docente : dict Z Z :=
  dict_zip (map (fun r => (id r, docente_id r)) (turmas d)).
Definition turma_duracao : dict Z nat :=
  dict_zip (map (fun r => (id r, duracao r)) (turmas d)).
Definition turma_tipo : dict Z Z :=
  dict_zip (map (fun r => (id r, tipo_aula_id r)) (turmas d)).
Definition turma_uc : dict Z Z :=
  dict_zip (map (fun r => (id r, unidade_curricular_id r)) (turmas d)).
Definition turma_label : dict Z Z :=
  dict_zip (map (fun r => (id r, turma_label_id r)) (turmas d)).

(** [uc_sala[uc_sala['unidade_curricular_id'] == uc]['sala_id']] *)
Definition salas_da_uc (uc : Z) : list Z :=
  map snd (filter (fun r => fst r =? uc) (uc_sala d)).

(** The dict comprehension [turma_sala]. *)
Definition turma_sala : result (dict Z (list Z)) :=
  fold_m (fun acc turma_id =>
            uc <- dict_subscript turma_uc turma_id ;;
            Ok (dict_set acc turma_id (list_of_set (salas_da_uc uc))))
         turma_set [].

Definition indisponiveis (docente : Z) : list Z :=
  map snd (filter (fun r => fst r =? docente) (indisponibilidade_docente d)).

(** The dict comprehension [I_d_turma]. *)
Definition I_d_turma : result (dict Z (list Z)) :=
  fold_m (fun acc turma_id =>
            docente <- dict_subscript turma_docente turma_id ;;
            Ok (dict_set acc turma_id (indisponiveis docente)))
         turma_set [].

(** [uc_groups]: per curricular unit, its 'early' and 'late' sections. *)
Definition uc_groups : result (dict Z (list Z * list Z)) :=
  fold_m (fun acc kv =>
            let '(turma_id, uc_id) := kv in
            tipo_aula <- dict_subscript turma_tipo turma_id ;;
            let acc := match dict_get acc uc_id with
                       | Some _ => acc
                       | None => dict_set acc uc_id ([], [])
                       end in
            let '(early, late) :=
              match dict_get acc uc_id with
              | Some g => g
              | None => ([], [])
              end in
            if py_in tipo_aula [1; 2]
            then Ok (dict_set acc uc_id (early ++ [turma_id], late))
            else Ok (dict_set acc uc_id (early, late ++ [turma_id])))
         turma_uc [].

Definition periodos_ordenados : list Z :=
  py_sorted Z.leb (unique (periodos d)).

Definition estado_inicial : estado :=
  {| lp_file := [objective (salas d); subject_to];
     docente_periodo_vars := [];
     sala_periodo_vars := [];
     variables := [];
     written_constraints := [];
     sala_periodos_ocupados := [];
     docente_periodos_ocupados := [];
     agendadas := [] |}.

(** *** The checks on a candidate block *)

(** [all(seq[i] + 1 == seq[i + 1] for i in range(duracao - 1))] *)
Definition consecutivos (seq : list Z) (dur : nat) : result bool :=
  all_m (fun i =>
           a <- subscript seq i ;;
           b <- subscript seq (i + 1) ;;
           Ok (a + 1 =? b))
        (py_range (Z.of_nat dur - 1)).

(** The room is taken, the teacher is unavailable or the teacher is taken,
    at some period of the block. *)
Definition conflito_sala_docente (st : estado) (indisp : list Z)
  (sala_id docente : Z) (seq : list Z) : bool :=
  existsb (fun p => dict_in (sala_id, p) (sala_periodos_ocupados st)) seq
  || existsb (fun p => py_in p indisp) seq
  || existsb (fun p => dict_in (docente, p) (docente_periodos_ocupados st))
             seq.

(** [[t for (s, per), t in sala_periodos_ocupados.items() if per == p]] *)
Definition turmas_no_periodo (st : estado) (p : Z) : list Z :=
  map snd (filter (fun e => snd (fst e) =? p) (sala_periodos_ocupados st)).

(** [uc_semestre.get(turma_uc.get(t), None) == semestre_atual] *)
Definition mesmo_semestre (semestre_atual turma_alocada : Z) : bool :=
  match dict_get turma_uc turma_alocada with
  | Some uc_alocada =>
      match dict_get uc_semestre uc_alocada with
      | Some semestre_alocada => semestre_alocada =? semestre_atual
      | None => false
      end
  | None => false
  end.

(** The flag [conflito_semestre] after the loop over the block. *)
Definition conflito_semestre (st : estado) (semestre_atual : Z)
  (seq : list Z) : bool :=
  existsb (fun p => existsb (mesmo_semestre semestre_atual)
                            (turmas_no_periodo st p)) seq.

(** [turmas[turmas['unidade_curricular_id'] == uc]['id'].tolist()] *)
Definition turmas_da_uc (uc : Z) : list Z :=
  map id (filter (fun r => unidade_curricular_id r =? uc) (turmas d)).

(** [(sala, p) in ocupados and ocupados[(sala, p)] == turma] *)
Definition ocupada_por (st : estado) (sala_id p turma_id : Z) : bool :=
  match dict_get (sala_periodos_ocupados st) (sala_id, p) with
  | Some t => t =? turma_id
  | None => false
  end.

(** The flag [conflito_entre_ucs] after the loops over the restricted
    units, their sections, the block and the rooms of [salas]. *)
Definition conflito_entre_ucs (st : estado) (uc_id : Z) (seq : list Z)
  : bool :=
  match dict_get restricoes_entre_ucs uc_id with
  | None => false
  | Some ucs_restritas =>
      existsb (fun uc_restrita =>
        existsb (fun turma_restrita_id =>
          existsb (fun p =>
            existsb (fun sala_restrita_id =>
                       ocupada_por st sala_restrita_id p turma_restrita_id)
                    (salas d))
            seq)
          (turmas_da_uc uc_restrita))
        ucs_restritas
  end.

(** *** Committing a block *)

(** One turn of the loop over the periods of the accepted block: the
    variable is created, the room and the teacher are marked as taken. *)
Definition reservar (turma_id sala_id docente : Z)
  (acc : estado * list string) (period_id : Z) : estado * list string :=
  let '(st, uc_variables) := acc in
  let var := var_name turma_id sala_id period_id in
  ({| lp_file := lp_file st;
      docente_periodo_vars :=
        dict_append (docente_periodo_vars st) (docente, period_id) var;
      sala_periodo_vars :=
        dict_append (sala_periodo_vars st) (sala_id, period_id) var;
      variables := set_add (variables st) var;
      written_constraints := written_constraints st;
      sala_periodos_ocupados :=
        dict_set (sala_periodos_ocupados st) (sala_id, period_id) turma_id;
      docente_periodos_ocupados :=
        dict_set (docente_periodos_ocupados st) (docente, period_id)
                 turma_id;
      agendadas := agendadas st |},
   uc_variables ++ [var]).

(** [if c not in written_constraints: lp_file.write(c);
    written_constraints.add(c)] *)
Definition write_once (st : estado) (c : string) : estado :=
  if py_in c (written_constraints st) then st
  else {| lp_file := lp_file st ++ [c];
          docente_periodo_vars := docente_periodo_vars st;
          sala_periodo_vars := sala_periodo_vars st;
          variables := variables st;
          written_constraints := set_add (written_constraints st) c;
          sala_periodos_ocupados := sala_periodos_ocupados st;
          docente_periodos_ocupados := docente_periodos_ocupados st;
          agendadas := agendadas st |}.

(** The three families of constraints of a committed block. *)
Definition escrever_restricoes (st : estado) (turma_id sala_id : Z)
  (dur : nat) (uc_variables : list string) : estado :=
  match uc_variables with
  | [] => st
  | var_start :: resto =>
      let st := fold_left (fun st var =>
                             write_once st (cont_constraint var_start var))
                          resto st in
      let st := write_once st
                  (allocation_constraint turma_id uc_variables dur) in
      write_once st (sala_constraint sala_id turma_id uc_variables dur)
  end.

(** The [logging.info] call reporting the placement. *)
Definition registar (st : estado) (turma_id sala_id : Z) (seq : list Z)
  : estado :=
  {| lp_file := lp_file st;
     docente_periodo_vars := docente_periodo_vars st;
     sala_periodo_vars := sala_periodo_vars st;
     variables := variables st;
     written_constraints := written_constraints st;
     sala_periodos_ocupados := sala_periodos_ocupados st;
     docente_periodos_ocupados := docente_periodos_ocupados st;
     agendadas := agendadas st ++ [(turma_id, sala_id, seq)] |}.

Definition alocar (st : estado) (turma_id sala_id docente : Z) (dur : nat)
  (seq : list Z) : estado :=
  let '(st, uc_variables) :=
    fold_left (reservar turma_id sala_id docente) seq (st, []) in
  let st := escrever_restricoes st turma_id sala_id dur uc_variables in
  registar st turma_id sala_id seq.

(** *** The search *)

(** The attributes of the section being processed. *)
Record turma_atual : Type := {
  ta_id : Z;
  ta_docente : Z;
  ta_duracao : nat;
  ta_label : Z;
  ta_uc : Z;
  ta_semestre : Z;
  ta_indisponiveis : list Z
}.

(** The loop over the start indices, for one room.  [Some st'] is the
    state at the [break] after a commitment; [None] means the loop ran to
    its end with [turma_agendada] still false. *)
Fixpoint loop_periodos (st : estado) (ta : turma_atual) (sala_id : Z)
  (starts : list nat) : result (option estado) :=
  match starts with
  | [] => Ok None
  | start_period_index :: starts' =>
      let sequencia_periodos :=
        slice periodos_ordenados start_period_index
              (start_period_index + ta_duracao ta) in
      c <- consecutivos sequencia_periodos (ta_duracao ta) ;;
      if negb c then loop_periodos st ta sala_id starts'
      else if conflito_sala_docente st (ta_indisponiveis ta) sala_id
                (ta_docente ta) sequencia_periodos
      then loop_periodos st ta sala_id starts'
      else if (ta_label ta =? 1)
              && conflito_semestre st (ta_semestre ta) sequencia_periodos
      then loop_periodos st ta sala_id starts'
      else if conflito_entre_ucs st (ta_uc ta) sequencia_periodos
      then loop_periodos st ta sala_id starts'
      else Ok (Some (alocar st (ta_id ta) sala_id (ta_docente ta)
                            (ta_duracao ta) sequencia_periodos))
  end.

(** [range(len(periodos_ordenados) - duracao + 1)] *)
Definition indices_iniciais (dur : nat) : list nat :=
  py_range (Z.of_nat (List.length periodos_ordenados) - Z.of_nat dur + 1).

(** The loop over the permitted rooms. *)
Fixpoint loop_salas (st : estado) (ta : turma_atual)
  (salas_permitidas : list Z) : result (option estado) :=
  match salas_permitidas with
  | [] => Ok None
  | sala_id :: resto =>
      r <- loop_periodos st ta sala_id (indices_iniciais (ta_duracao ta)) ;;
      match r with
      | Some st' => Ok (Some st')
      | None => loop_salas st ta resto
      end
  end.

Definition get_default {K V : Type} `{Key K} (dt : dict K V) (k : K)
  (default : V) : V :=
  match dict_get dt k with Some v => v | None => default end.

(** [int(x)] for a value read with [d.get(k)]: [None] is a [TypeError]. *)
Definition int_of {A : Type} (x : option A) : result A :=
  match x with Some a => Ok a | None => Raise TypeError end.

(** The body of the loop over [turma_set].  The values read with [.get]
    are unwrapped where the source first passes them to [int(...)]; the
    teacher, which the source first converts inside the room/teacher check,
    is unwrapped before the loop over the rooms.  For a section of
    [turma_set] none of them is ever [None] ([process_turma_passo]). *)
Definition process_turma (tsala idt : dict Z (list Z)) (st : estado)
  (turma_id : Z) : result estado :=
  let docente_id := dict_get turma_docente turma_id in
  let dur := dict_get turma_duracao turma_id in
  let salas_permitidas := get_default tsala turma_id [] in
  let label_id := get_default turma_label turma_id 0 in
  uc_id <- int_of (dict_get turma_uc turma_id) ;;
  match dict_get uc_semestre uc_id with
  | None => Ok st
  | Some semestre_atual =>
      dur <- int_of dur ;;
      match salas_permitidas with
      | [] => Ok st
      | _ =>
          docente <- int_of docente_id ;;
          let ta := {| ta_id := turma_id;
                       ta_docente := docente;
                       ta_duracao := dur;
                       ta_label := label_id;
                       ta_uc := uc_id;
                       ta_semestre := semestre_atual;
                       ta_indisponiveis := get_default idt turma_id [] |} in
          r <- loop_salas st ta salas_permitidas ;;
          match r with
          | Some st' => Ok st'
          | None => Ok st
          end
      end
  end.

(** The loop over [turma_set]. *)
Definition alocar_turmas (tsala idt : dict Z (list Z)) (st : estado)
  : result estado :=
  fold_m (process_turma tsala idt) turma_set st.

(** *** The global constraints *)

(** [[f"x{turma_id}_{sala_id}_{int(p)}" for turma_id in turmas_ucN
      for sala_id in salas['id']]] *)
Definition vars_uc_p (uc p : Z) : list string :=
  flat_map (fun turma_id => map (fun sala_id => var_name turma_id sala_id p)
                                (salas d))
           (turmas_da_uc uc).

(** One guarded [lp_file.write] of the exclusion of units [a] and [b]. *)
Definition restricao_par (a b p : Z) : list string :=
  match vars_uc_p a p, vars_uc_p b p with
  | [], [] => []
  | vars_a, vars_b => [restricao_uc_constraint a b p (vars_a ++ vars_b)]
  end.

Definition restricoes_do_periodo (p : Z) : list string :=
  restricao_par 3 5 p ++ restricao_par 11 13 p ++ restricao_par 11 14 p
  ++ restricao_par 11 15 p ++ restricao_par 22 23 p.

Definition restricoes_globais : list string :=
  flat_map restricoes_do_periodo (unique (periodos d)).

Definition restricoes_ordem (groups : dict Z (list Z * list Z))
  : list string :=
  flat_map (fun g =>
              let '(uc_id, (early, late)) := g in
              flat_map (fun early_turma_id =>
                          map (ordem_constraint uc_id early_turma_id) late)
                       early)
           groups.

(** [turma_uc[int(var.split('_')[0][1:])] not in [24, 25]] *)
Definition fora_de_24_25 (var : string) : result bool :=
  cabeca <- subscript (split "_" var) 0 ;;
  turma_id <- int_of_str (tail_str cabeca) ;;
  uc <- dict_subscript turma_uc turma_id ;;
  Ok (negb (py_in uc [24; 25])).

Fixpoint filter_m {A : Type} (f : A -> result bool) (l : list A)
  : result (list A) :=
  match l with
  | [] => Ok []
  | x :: l' =>
      b <- f x ;;
      r <- filter_m f l' ;;
      Ok (if b then x :: r else r)
  end.

(** The loop over [docente_periodo_vars.items()], and likewise over
    [sala_periodo_vars.items()], with the constraint text as a parameter. *)
Fixpoint restricoes_conflito (texto : Z -> Z -> list string -> string)
  (vars : dict (Z * Z) (list string)) : result (list string) :=
  match vars with
  | [] => Ok []
  | (key, vars_in_period) :: resto =>
      linha <-
        (if (1 <? Z.of_nat (List.length vars_in_period))
         then vars_filtered <- filter_m fora_de_24_25 vars_in_period ;;
              if (1 <? Z.of_nat (List.length vars_filtered))
              then Ok [texto (fst key) (snd key) vars_filtered]
              else Ok []
         else Ok []) ;;
      r <- restricoes_conflito texto resto ;;
      Ok (linha ++ r)
  end.

Definition z_variables : list string := unique (map z_name (salas d)).

Definition declaracoes (st : estado) : list string :=
  [binary_header]
  ++ map declaration (py_sorted String.leb (variables st))
  ++ map declaration (py_sorted String.leb z_variables)
  ++ [end_marker].

(** Everything [generate_lp_file] does once the semester table is known:
    the result is the final state of the search and the chunks written to
    the output file, in order. *)
Definition gerar : result (estado * list string) :=
  tsala <- turma_sala ;;
  idt <- I_d_turma ;;
  groups <- uc_groups ;;
  st <- alocar_turmas tsala idt estado_inicial ;;
  conf_docente <- restricoes_conflito docente_conflito_constraint
                                      (docente_periodo_vars st) ;;
  conf_sala <- restricoes_conflito sala_conflito_constraint
                                   (sala_periodo_vars st) ;;
  Ok (st, lp_file st ++ restricoes_globais ++ restricoes_ordem groups
          ++ conf_docente ++ conf_sala ++ declaracoes st).

End Builder.

(** [generate_lp_file]: [Ok None] when the function returns before opening
    the output file, [Ok (Some chunks)] when the file is written. *)
Definition generate_lp_file (list_of_set : list Z -> list Z) (d : dados)
  : result (option (list string)) :=
  match unidades_curriculares d with
  | None => Ok None
  | Some ucs =>
      r <- gerar list_of_set d ucs ;;
      Ok (Some (snd r))
  end.

(** The text of the output file. *)
Definition texto_lp (chunks : list string) : string := join "" chunks.

(** ** Python runtime: [int(s)] on arbitrary text, negative list indices *)

(** The blanks [int] skips at both ends of its argument: tab to carriage
    return, the space, the next-line control and the no-break space. *)
Definition py_isspace (c : ascii) : bool :=
  let n := nat_of_ascii c in
  ((9 <=? n) && (n <=? 13) || (n =? 32) || (n =? 133) || (n =? 160))%nat.

Definition decimal (c : ascii) : bool :=
  let n := nat_of_ascii c in ((48 <=? n) && (n <=? 57))%nat.

Fixpoint lstrip (s : string) : string :=
  match s with
  | EmptyString => EmptyString
  | String c s' => if py_isspace c then lstrip s' else s
  end.

Fixpoint rstrip (s : string) : string :=
  match s with
  | EmptyString => EmptyString
  | String c s' =>
      match rstrip s' with
      | EmptyString => if py_isspace c then EmptyString
                       else String c EmptyString
      | r => String c r
      end
  end.

(** The digits of a literal, without its underscores: an underscore is
    accepted between two digits only.  [antes] tells whether the previous
    character was a digit. *)
Fixpoint agrupados (antes : bool) (s : string) : option string :=
  match s with
  | EmptyString => Some EmptyString
  | String c s' =>
      if Ascii.eqb c "_" then
        match s' with
        | String c' _ =>
            if antes && decimal c' then agrupados false s' else None
        | EmptyString => None
        end
      else if decimal c then option_map (String c) (agrupados true s')
      else None
  end.

(** [int(s)]: blanks at both ends, an optional sign, decimal digits. *)
Definition py_int (s : string) : result Z :=
  let t := rstrip (lstrip s) in
  let '(negativo, corpo) :=
    match t with
    | String c r =>
        if Ascii.eqb c "-" then (true, r)
        else if Ascii.eqb c "+" then (false, r)
        else (false, t)
    | EmptyString => (false, t)
    end in
  match agrupados false corpo with
  | Some ds =>
      match NilZero.uint_of_string ds with
      | Some u => Ok (if negativo then - Z.of_uint u else Z.of_uint u)
      | None => Raise ValueError
      end
  | None => Raise ValueError
  end.

(** [s.startswith(p)] *)
Fixpoint startswith (s p : string) {struct p} : bool :=
  match p with
  | EmptyString => true
  | String a p' =>
      match s with
      | EmptyString => false
      | String b s' => Ascii.eqb b a && startswith s' p'
      end
  end.

(** [l[i]] for any integer index: a negative index counts from the end. *)
Definition subscript_z {A : Type} (l : list A) (i : Z) : result A :=
  if 0 <=? i then subscript l (Z.to_nat i)
  else if - Z.of_nat (List.length l) <=? i
       then subscript l (Z.to_nat (Z.of_nat (List.length l) + i))
       else Raise IndexError.

(** ** [geradorHorarios.get_uc_id_from_var] *)

(** The [try] block: [IndexError] and [ValueError] are caught and turned
    into [None]; any other exception would propagate. *)
Definition get_uc_id_from_var (var_name : string) (turma_uc_map : dict Z Z)
  : result (option Z) :=
  match (parts0 <- subscript (split "_" var_name) 0 ;;
         py_int (tail_str parts0)) with
  | Ok turma_id => Ok (dict_get turma_uc_map turma_id)
  | Raise IndexError => Ok None
  | Raise ValueError => Ok None
  | Raise e => Raise e
  end.

(** ** [solution_reader.py] *)

(** A [variable] element of the solution file: its [name] attribute and
    its [value] attribute after [float(...)]. *)
Record variavel : Type := {
  name : string;
  value : Q
}.

(** An entry of [scheduled_classes]. *)
Record classe : Type := {
  cl_turma_id : string;
  cl_unidade_curricular_id : Z;
  cl_tipo_aula_id : Z;
  cl_turma_label_id : Z;
  cl_sala_id : string;
  cl_periodo_id : Z
}.

(** [int(s)] inside [try: ... except ValueError: continue]. *)
Definition int_ou_continue {A : Type} (s : string) (continue : A)
  (k : Z -> result A) : result A :=
  match py_int s with
  | Ok z => k z
  | Raise ValueError => Ok continue
  | Raise e => Raise e
  end.

(** The body of the loop over the [variable] elements. *)
Definition ler_variavel (turmas_df : list turma_row)
  (acc : list classe * list string) (variable : variavel)
  : result (list classe * list string) :=
  let '(scheduled_classes, used_rooms) := acc in
  if startswith (name variable) "x" && Qeq_bool (value variable) 1 then
    match split "_" (name variable) with
    | [x_turma_id; sala_id; periodo_id] =>
        let turma_id := tail_str x_turma_id in
        int_ou_continue periodo_id acc (fun periodo_id =>
        int_ou_continue turma_id acc (fun turma_id_int =>
        match find (fun r => id r =? turma_id_int) turmas_df with
        | None => Ok acc
        | Some turma_info =>
            Ok (scheduled_classes ++
                  [{| cl_turma_id := turma_id;
                      cl_unidade_curricular_id :=
                        unidade_curricular_id turma_info;
                      cl_tipo_aula_id := tipo_aula_id turma_info;
                      cl_turma_label_id := turma_label_id turma_info;
                      cl_sala_id := sala_id;
                      cl_periodo_id := periodo_id |}],
                used_rooms)
        end))
    | _ => Ok acc
    end
  else if startswith (name variable) "z_"
          && Qeq_bool (value variable) 1 then
    match split "_" (name variable) with
    | _ :: sala_id :: _ => Ok (scheduled_classes, set_add used_rooms sala_id)
    | _ => Ok acc
    end
  else Ok acc.

(** [parse_solution]: [None] for the solution file stands for a missing or
    malformed file, [None] for the pickle for a file that cannot be loaded
    or has no ['turmas'] table. *)
Definition parse_solution (solucao : option (list variavel))
  (pickle : option (list turma_row)) : result (list classe * list string) :=
  match solucao with
  | None => Ok ([], [])
  | Some variaveis =>
      match pickle with
      | None => Ok ([], [])
      | Some turmas_df => fold_m (ler_variavel turmas_df) variaveis ([], [])
      end
  end.

(** [f'{8 + i}:30 - {8 + i + 1}:30'] *)
Definition horario (i : nat) : string :=
  str (8 + Z.of_nat i) +++ ":30 - " +++ str (8 + Z.of_nat i + 1) +++ ":30".

Definition days : list string :=
  [ "Segunda-feira"; "Ter" +++ String (ascii_of_nat 231) "a-feira";
    "Quarta-feira"; "Quinta-feira"; "Sexta-feira" ]%string.

Definition allocation (cls : classe) : string :=
  "UC: " +++ str (cl_unidade_curricular_id cls) +++ " | "
  +++ "Tipo: " +++ str (cl_tipo_aula_id cls) +++ " | "
  +++ "Label: " +++ str (cl_turma_label_id cls) +++ " | "
  +++ "Sala: " +++ cl_sala_id cls.

Definition string_pair_eqb (a b : string * string) : bool :=
  String.eqb (fst a) (fst b) && String.eqb (snd a) (snd b).

Lemma string_pair_eqb_spec (a b : string * string) :
  reflect (a = b) (string_pair_eqb a b).
Proof.
  destruct a as [a1 a2], b as [b1 b2]; unfold string_pair_eqb; simpl.
  destruct (String.eqb_spec a1 b1), (String.eqb_spec a2 b2); simpl;
    constructor; congruence.
Qed.

#[export] Instance Key_string_string : Key (string * string) :=
  {| keqb := string_pair_eqb; keqb_spec := string_pair_eqb_spec |}.

(** The table [timetable]: its cells by (row label, column label). *)
Definition grelha : Type := dict (string * string) string.

(** [pd.DataFrame(index=horarios, columns=days)] after [fillna("")]. *)
Definition grelha_vazia (horarios : list string) : grelha :=
  dict_zip (flat_map (fun h => map (fun dia => ((h, dia), EmptyString)) days)
                     horarios).

(** The body of the loop over [scheduled_classes]. *)
Definition colocar_aula (max_periods_per_day : positive)
  (horarios : list string) (timetable : grelha) (cls : classe)
  : result grelha :=
  let period_id := cl_periodo_id cls in
  let day_idx := (period_id - 1) / Z.pos max_periods_per_day in
  let time_idx := (period_id - 1) mod Z.pos max_periods_per_day in
  if (day_idx <? Z.of_nat (List.length days))
     && (time_idx <? Z.of_nat (List.length horarios)) then
    day <- subscript_z days day_idx ;;
    time_slot <- subscript_z horarios time_idx ;;
    celula <- dict_subscript timetable (time_slot, day) ;;
    if String.eqb celula EmptyString
    then Ok (dict_set timetable (time_slot, day) (allocation cls))
    else Ok (dict_set timetable (time_slot, day)
                      (celula +++ "<br>" +++ allocation cls))
  else Ok timetable.

(** [create_timetable], up to the rendering of the table: the result is
    the table that [to_html] receives. *)
Definition create_timetable (scheduled_classes : list classe)
  (max_periods_per_day : positive) : result grelha :=
  let horarios :=
    map horario (py_range (Z.pos max_periods_per_day)) in
  fold_m (colocar_aula max_periods_per_day horarios) scheduled_classes
         (grelha_vazia horarios).

(** ** [process_data.py] *)

(** The exceptions [process_data] raises, by the data of their messages. *)
Inductive excecao : Type :=
| TabelaNaoEncontrada (tabela : string)
| ColunaNaoEncontrada (coluna tabela : string)
| LabelsNaoMapeados (labels : list string).

Inductive saida (A : Type) : Type :=
| Normal (a : A)
| Exception (e : excecao).

Arguments Normal {A} a.
Arguments Exception {A} e.

Definition a_cedilha : string := String (ascii_of_nat 231) EmptyString.
Definition a_agudo : string := String (ascii_of_nat 225) EmptyString.

Definition required_columns : list (string * list string) :=
  [ ("unidades_curriculares",
     ["id"; "nome"; "curso_id"; "semestre"; "carga_horaria_teorica";
      "carga_horaria_pratica"; "numero_turmas_teoricas";
      "numero_turmas_praticas"]);
    ("uc_sala", ["unidade_curricular_id"; "sala_id"]);
    ("turmas", ["id"; "unidade_curricular_id"; "docente_id"; "tipo_aula_id";
                "duracao"; "turma_label"]);
    ("docentes", ["id"; "Nome"]);
    ("salas", ["id"; "nome"; "capacidade"]);
    ("periodos", ["id"; "descricao"; "dia_semana"; "hora_inicio";
                  "hora_fim"]);
    ("tipo_aula", ["id"; "descricao"]);
    ("uc_turma_label", ["unidade_curricular_id"; "turma_label"]);
    ("uc_duracao", ["unidade_curricular_id"; "duracao"]);
    ("uc_docente", ["unidade_curricular_id"; "docente_id"]);
    ("indisponibilidade_docente", ["docente_id"; "periodo_horario_id"]);
    ("indisponibilidade_sala", ["sala_id"; "periodo_horario_id"]) ]%string.

(** The loop over the columns required of one table; [columns] is
    [dados[tabela].columns]. *)
Fixpoint verificar_tabela (tabela : string) (columns colunas : list string)
  : saida unit :=
  match colunas with
  | [] => Normal tt
  | coluna :: resto =>
      if py_in coluna columns then verificar_tabela tabela columns resto
      else Exception (ColunaNaoEncontrada coluna tabela)
  end.

Fixpoint verificar_tabelas (dados : dict string (list string))
  (required : list (string * list string)) : saida unit :=
  match required with
  | [] => Normal tt
  | (tabela, colunas) :: resto =>
      match dict_get dados tabela with
      | None => Exception (TabelaNaoEncontrada tabela)
      | Some columns =>
          match verificar_tabela tabela columns colunas with
          | Normal _ => verificar_tabelas dados resto
          | Exception e => Exception e
          end
      end
  end.

(** [verificar_colunas]: the imported tables are given by the names of
    their columns. *)
Definition verificar_colunas (dados : dict string (list string))
  : saida unit :=
  verificar_tabelas dados required_columns.

(** A row of the imported [turmas]. *)
Record turma_importada : Type := {
  ti_id : Z;
  ti_unidade_curricular_id : Z;
  ti_docente_id : Z;
  ti_tipo_aula_id : Z;
  ti_duracao : nat;
  ti_turma_label : string
}.

(** A time of day ([datetime.time]). *)
Record hora : Type := {
  hour : Z;
  minute : Z;
  second : Z;
  microsecond : Z
}.

(** [a <= b] on times of day. *)
Definition hora_leb (a b : hora) : bool :=
  (hour a <? hour b)
  || (hour a =? hour b)
     && ((minute a <? minute b)
         || (minute a =? minute b)
            && ((second a <? second b)
                || (second a =? second b)
                   && (microsecond a <=? microsecond b))).

(** A row of the imported [periodos], its hours converted to times of
    day. *)
Record periodo_importado : Type := {
  pi_id : Z;
  pi_dia_semana : string;
  pi_hora_inicio : hora;
  pi_hora_fim : hora
}.

(** The imported tables, by the columns [preparar_dados] and the builder
    read: [uc_turma_label] rows are (unidade_curricular_id, turma_label),
    [uc_duracao] rows (unidade_curricular_id, duracao), [uc_docente] rows
    (unidade_curricular_id, docente_id), [unidades_curriculares] rows
    (id, semestre). *)
Record tabelas : Type := {
  t_turmas : list turma_importada;
  t_uc_turma_label : list (Z * string);
  t_uc_duracao : list (Z * Z);
  t_uc_docente : list (Z * Z);
  t_unidades_curriculares : list (Z * Z);
  t_periodos : list periodo_importado;
  t_salas : list Z;
  t_uc_sala : list (Z * Z);
  t_indisponibilidade_docente : list (Z * Z)
}.

(** [esq.merge(dir, how='left')] on an integer key: the rows of [esq] in
    order, each with its matching rows of [dir] in order, or once with no
    match. *)
Definition merge_left {A B : Type} (chave_esq : A -> Z) (chave_dir : B -> Z)
  (esq : list A) (dir : list B) : list (A * option B) :=
  flat_map (fun a =>
              match filter (fun b => chave_dir b =? chave_esq a) dir with
              | [] => [(a, None)]
              | bs => map (fun b => (a, Some b)) bs
              end)
           esq.

(** The columns of [drop_duplicates(subset=...)]. *)
Definition subconjunto : Type := Z * Z * Z * Z * string.

Definition subconjunto_eqb (a b : subconjunto) : bool :=
  let '(a1, a2, a3, a4, a5) := a in
  let '(b1, b2, b3, b4, b5) := b in
  (a1 =? b1) && (a2 =? b2) && (a3 =? b3) && (a4 =? b4) && String.eqb a5 b5.

Lemma subconjunto_eqb_spec (a b : subconjunto) :
  reflect (a = b) (subconjunto_eqb a b).
Proof.
  destruct a as [[[[a1 a2] a3] a4] a5], b as [[[[b1 b2] b3] b4] b5].
  unfold subconjunto_eqb.
  destruct (Z.eqb_spec a1 b1), (Z.eqb_spec a2 b2), (Z.eqb_spec a3 b3),
    (Z.eqb_spec a4 b4), (String.eqb_spec a5 b5); cbn;
    constructor; congruence.
Qed.

#[export] Instance Key_subconjunto : Key subconjunto :=
  {| keqb := subconjunto_eqb; keqb_spec := subconjunto_eqb_spec |}.

(** [df.drop_duplicates(subset=...)]: the first row of each key is kept;
    [vistos] holds the keys met so far. *)
Fixpoint drop_duplicates {A : Type} (chave : A -> subconjunto)
  (vistos : list subconjunto) (l : list A) : list A :=
  match l with
  | [] => []
  | a :: l' =>
      if py_in (chave a) vistos then drop_duplicates chave vistos l'
      else a :: drop_duplicates chave (chave a :: vistos) l'
  end.

(** A row of [turmas] after the four joins: the imported row, the joined
    rows of [uc_turma_label], [uc_duracao], [uc_docente] and
    [unidades_curriculares]. *)
Definition turma_junta : Type :=
  turma_importada * option (Z * string) * option (Z * Z) * option (Z * Z)
  * option (Z * Z).

Definition importada (r : turma_junta) : turma_importada :=
  fst (fst (fst (fst r))).

(** The column ['semestre'] of a joined row: missing without a match. *)
Definition semestre (r : turma_junta) : option Z := option_map snd (snd r).

Definition chave_importada (a : turma_importada) : subconjunto :=
  (ti_id a, ti_unidade_curricular_id a, ti_docente_id a, ti_tipo_aula_id a,
   ti_turma_label a).

Definition dias_semana_to_int : dict string Z :=
  [ ("Segunda", 1); ("Ter" +++ a_cedilha +++ "a", 2); ("Quarta", 3);
    ("Quinta", 4); ("Sexta", 5); ("S" +++ a_agudo +++ "bado", 6);
    ("Domingo", 7) ]%string.

Definition hora_inicio_min : hora :=
  {| hour := 8; minute := 30; second := 0; microsecond := 0 |}.
Definition hora_fim_max : hora :=
  {| hour := 18; minute := 30; second := 0; microsecond := 0 |}.

(** The two filters on [periodos]. *)
Definition periodo_valido (p : periodo_importado) : bool :=
  match dict_get dias_semana_to_int (pi_dia_semana p) with
  | Some dia_semana_num => py_in dia_semana_num [1; 2; 3; 4; 5]
  | None => false
  end
  && (hora_leb hora_inicio_min (pi_hora_inicio p)
      && hora_leb (pi_hora_fim p) hora_fim_max).

(** [semestre % 2 == resto] on a column with missing values. *)
Definition semestre_mod_2 (resto : Z) (r : turma_junta * option Z) : bool :=
  match semestre (fst r) with
  | Some s => s mod 2 =? resto
  | None => false
  end.

(** The filter [turma_label_id.isin(turma_label_ids_validos)] followed by
    the selection of the six columns of the prepared [turmas]. *)
Definition selecionar (r : turma_junta * option Z) : list turma_row :=
  match snd r with
  | Some label_id =>
      if py_in label_id (map snd turma_label_to_id)
      then [{| id := ti_id (importada (fst r));
               unidade_curricular_id :=
                 ti_unidade_curricular_id (importada (fst r));
               docente_id := ti_docente_id (importada (fst r));
               tipo_aula_id := ti_tipo_aula_id (importada (fst r));
               duracao := ti_duracao (importada (fst r));
               turma_label_id := label_id |}]
      else []
  | None => []
  end.

Definition dados_preparados (t : tabelas) (turmas_semestre : list turma_row)
  (periodos_validos : list periodo_importado) : dados :=
  {| turmas := turmas_semestre;
     salas := t_salas t;
     periodos := map pi_id periodos_validos;
     uc_sala := t_uc_sala t;
     indisponibilidade_docente := t_indisponibilidade_docente t;
     unidades_curriculares := Some (t_unidades_curriculares t) |}.

(** [preparar_dados]: the prepared data of the odd and of the even
    semesters, as the builder reads them. *)
Definition preparar_dados (t : tabelas) : saida (dados * dados) :=
  let turmas :=
    merge_left ti_unidade_curricular_id fst (t_turmas t)
               (t_uc_turma_label t) in
  let turmas :=
    merge_left (fun r => ti_unidade_curricular_id (fst r)) fst turmas
               (t_uc_duracao t) in
  let turmas :=
    merge_left (fun r => ti_unidade_curricular_id (fst (fst r))) fst turmas
               (t_uc_docente t) in
  let turmas : list turma_junta :=
    merge_left (fun r => ti_unidade_curricular_id (fst (fst (fst r)))) fst
               turmas (t_unidades_curriculares t) in
  let turmas :=
    drop_duplicates (fun r => chave_importada (importada r)) [] turmas in
  let labels_unicos :=
    unique (map (fun r => ti_turma_label (importada r)) turmas) in
  let labels_nao_mapeados :=
    filter (fun l => negb (dict_in l turma_label_to_id)) labels_unicos in
  match labels_nao_mapeados with
  | _ :: _ => Exception (LabelsNaoMapeados labels_nao_mapeados)
  | [] =>
      let turmas :=
        map (fun r => (r, dict_get turma_label_to_id
                                   (ti_turma_label (importada r))))
            turmas in
      let periodos_validos := filter periodo_valido (t_periodos t) in
      let turmas_impares := filter (semestre_mod_2 1) turmas in
      let turmas_pares := filter (semestre_mod_2 0) turmas in
      Normal (dados_preparados t (flat_map selecionar turmas_impares)
                               periodos_validos,
              dados_preparados t (flat_map selecionar turmas_pares)
                               periodos_validos)
  end.

(** * Properties *)

(** ** Lemmas on the runtime model *)

Section DictFacts.
Context {K V : Type} `{Key K}.

Lemma keqb_refl (k : K) : keqb k k = true.
Proof. destruct (keqb_spec k k); congruence. Qed.

Lemma keqb_neq (k k' : K) : k <> k' -> keqb k k' = false.
Proof. destruct (keqb_spec k k'); congruence. Qed.

Lemma dict_get_set_eq (dt : dict K V) k v :
  dict_get (dict_set dt k v) k = Some v.
Proof.
  induction dt as [|[k' v'] dt IH]; simpl.
  - now rewrite keqb_refl.
  - destruct (keqb_spec k' k) as [->|Hne]; simpl.
    + now rewrite keqb_refl.
    + now rewrite (keqb_neq _ _ Hne).
Qed.

Lemma dict_get_set_neq (dt : dict K V) k k' v :
  k <> k' -> dict_get (dict_set dt k v) k' = dict_get dt k'.
Proof.
  intros Hne. induction dt as [|[k0 v0] dt IH]; simpl.
  - now rewrite (keqb_neq _ _ Hne).
  - destruct (keqb_spec k0 k) as [->|Hne0]; simpl.
    + now rewrite (keqb_neq _ _ Hne).
    + destruct (keqb k0 k'); auto.
Qed.

Lemma dict_get_set (dt : dict K V) k k' v :
  dict_get (dict_set dt k v) k' =
  if keqb k k' then Some v else dict_get dt k'.
Proof.
  destruct (keqb_spec k k') as [->|Hne].
  - apply dict_get_set_eq.
  - now apply dict_get_set_neq.
Qed.

Lemma dict_get_In (dt : dict K V) k v :
  dict_get dt k = Some v -> In (k, v) dt.
Proof.
  induction dt as [|[k' v'] dt IH]; simpl; [discriminate|].
  destruct (keqb_spec k' k) as [->|Hne].
  - intros [= ->]. now left.
  - intros Hg. right. now apply IH.
Qed.

Lemma dict_get_None (dt : dict K V) k :
  dict_get dt k = None <-> ~ In k (map fst dt).
Proof.
  induction dt as [|[k' v'] dt IH]; simpl.
  - tauto.
  - destruct (keqb_spec k' k) as [->|Hne].
    + split; [discriminate | intros Hn; exfalso; apply Hn; now left].
    + rewrite IH. tauto.
Qed.

Lemma dict_in_true (dt : dict K V) k :
  dict_in k dt = true <-> exists v, dict_get dt k = Some v.
Proof.
  unfold dict_in. destruct (dict_get dt k) as [v|].
  - split; eauto.
  - split; [discriminate | intros [v Hv]; discriminate].
Qed.

Lemma dict_in_false (dt : dict K V) k :
  dict_in k dt = false <-> dict_get dt k = None.
Proof.
  unfold dict_in. destruct (dict_get dt k); split; congruence.
Qed.

Lemma dict_set_keys (dt : dict K V) k v k' :
  In k' (map fst (dict_set dt k v)) <-> In k' (map fst dt) \/ k' = k.
Proof.
  induction dt as [|[k0 v0] dt IH]; simpl.
  - intuition.
  - destruct (keqb_spec k0 k) as [->|Hne]; simpl.
    + intuition.
    + rewrite IH. intuition.
Qed.

Lemma dict_set_NoDup (dt : dict K V) k v :
  NoDup (map fst dt) -> NoDup (map fst (dict_set dt k v)).
Proof.
  induction dt as [|[k0 v0] dt IH]; simpl; intros Hnd.
  - constructor; [intros [] | constructor].
  - inversion Hnd as [|? ? Hni Hnd']; subst.
    destruct (keqb_spec k0 k) as [->|Hne]; simpl.
    + now constructor.
    + constructor; [|now apply IH].
      rewrite dict_set_keys. intros [Hin| ->]; [easy | congruence].
Qed.

(** What [dict(zip(...))] holds: a value comes from a row, and every key
    of a row is bound. *)
Lemma dict_zip_acc_get (kvs : list (K * V)) (acc : dict K V) k v :
  dict_get (fold_left (fun a kv => dict_set a (fst kv) (snd kv)) kvs acc) k
  = Some v ->
  In (k, v) kvs \/ dict_get acc k = Some v.
Proof.
  revert acc. induction kvs as [|[k0 v0] kvs IH]; simpl; intros acc Hg.
  - now right.
  - apply IH in Hg. destruct Hg as [Hin|Hg]; [left; now right|].
    rewrite dict_get_set in Hg. simpl in Hg.
    destruct (keqb_spec k0 k) as [->|Hne].
    + injection Hg as ->. left. now left.
    + now right.
Qed.

Lemma dict_zip_get (kvs : list (K * V)) k v :
  dict_get (dict_zip kvs) k = Some v -> In (k, v) kvs.
Proof.
  intros Hg. apply dict_zip_acc_get in Hg. destruct Hg as [Hin|Hg]; auto.
  discriminate.
Qed.

Lemma dict_zip_acc_bound (kvs : list (K * V)) (acc : dict K V) k :
  In k (map fst kvs) \/ In k (map fst acc) ->
  exists v,
    dict_get (fold_left (fun a kv => dict_set a (fst kv) (snd kv)) kvs acc) k
    = Some v.
Proof.
  revert acc. induction kvs as [|[k0 v0] kvs IH]; simpl; intros acc Hin.
  - destruct Hin as [[]|Hin].
    destruct (dict_get acc k) as [v|] eqn:Hg; eauto.
    apply dict_get_None in Hg. contradiction.
  - apply IH. rewrite dict_set_keys. simpl. intuition.
Qed.

Lemma dict_zip_bound (kvs : list (K * V)) k :
  In k (map fst kvs) -> exists v, dict_get (dict_zip kvs) k = Some v.
Proof. intros Hin. apply dict_zip_acc_bound. now left. Qed.

Lemma dict_zip_acc_NoDup (kvs : list (K * V)) (acc : dict K V) :
  NoDup (map fst acc) ->
  NoDup (map fst (fold_left (fun a kv => dict_set a (fst kv) (snd kv))
                            kvs acc)).
Proof.
  revert acc. induction kvs as [|kv kvs IH]; simpl; intros acc Hnd; auto.
  apply IH. now apply dict_set_NoDup.
Qed.

Lemma dict_zip_NoDup (kvs : list (K * V)) : NoDup (map fst (dict_zip kvs)).
Proof. apply dict_zip_acc_NoDup. constructor. Qed.
End DictFacts.

Section SetFacts.
Context {K : Type} `{Key K}.

Lemma py_in_true (x : K) l : py_in x l = true <-> In x l.
Proof.
  unfold py_in. rewrite existsb_exists. split.
  - intros [y [Hin Heq]]. destruct (keqb_spec x y); congruence.
  - intros Hin. exists x. split; [assumption | apply keqb_refl].
Qed.

Lemma py_in_false (x : K) l : py_in x l = false <-> ~ In x l.
Proof.
  rewrite <- py_in_true. destruct (py_in x l); split; congruence.
Qed.

Lemma set_add_In (s : list K) x y : In y (set_add s x) <-> In y s \/ y = x.
Proof.
  unfold set_add. destruct (py_in x s) eqn:Hx.
  - apply py_in_true in Hx. split; [auto | intros [?| ->]; auto].
  - rewrite in_app_iff. simpl. intuition.
Qed.

Lemma set_add_NoDup (s : list K) x : NoDup s -> NoDup (set_add s x).
Proof.
  intros Hnd. unfold set_add. destruct (py_in x s) eqn:Hx; auto.
  apply py_in_false in Hx.
  apply NoDup_app; auto.
  - constructor; [intros [] | constructor].
  - intros a Ha [<-|[]]. contradiction.
Qed.

Lemma unique_acc_In (l acc : list K) x :
  In x (fold_left set_add l acc) <-> In x acc \/ In x l.
Proof.
  revert acc. induction l as [|a l IH]; simpl; intros acc.
  - tauto.
  - rewrite IH, set_add_In. intuition.
Qed.

Lemma unique_In (l : list K) x : In x (unique l) <-> In x l.
Proof. unfold unique. rewrite unique_acc_In. simpl. tauto. Qed.

Lemma unique_acc_NoDup (l acc : list K) :
  NoDup acc -> NoDup (fold_left set_add l acc).
Proof.
  revert acc. induction l as [|a l IH]; simpl; intros acc Hnd; auto.
  apply IH. now apply set_add_NoDup.
Qed.

Lemma unique_NoDup (l : list K) : NoDup (unique l).
Proof. apply unique_acc_NoDup. constructor. Qed.
End SetFacts.

Lemma insert_sorted_In {A : Type} (leb : A -> A -> bool) x y l :
  In y (insert_sorted leb x l) <-> y = x \/ In y l.
Proof.
  induction l as [|a l IH]; simpl.
  - intuition.
  - destruct (leb x a); simpl; [|rewrite IH]; intuition.
Qed.

Lemma py_sorted_In {A : Type} (leb : A -> A -> bool) x l :
  In x (py_sorted leb l) <-> In x l.
Proof.
  induction l as [|a l IH]; simpl; [tauto|].
  rewrite insert_sorted_In, IH. intuition.
Qed.

Lemma insert_sorted_perm {A : Type} (leb : A -> A -> bool) x l :
  Permutation (insert_sorted leb x l) (x :: l).
Proof.
  induction l as [|a l IH]; simpl; auto.
  destruct (leb x a); auto.
  rewrite IH. apply perm_swap.
Qed.

Lemma py_sorted_perm {A : Type} (leb : A -> A -> bool) l :
  Permutation (py_sorted leb l) l.
Proof.
  induction l as [|a l IH]; simpl; auto.
  rewrite insert_sorted_perm. now constructor.
Qed.

Lemma py_sorted_NoDup {A : Type} (leb : A -> A -> bool) l :
  NoDup l -> NoDup (py_sorted leb l).
Proof.
  intros Hnd. eapply Permutation_NoDup; [|exact Hnd].
  symmetry. apply py_sorted_perm.
Qed.

Lemma insert_sorted_strict x l :
  StronglySorted Z.lt l -> ~ In x l ->
  StronglySorted Z.lt (insert_sorted Z.leb x l).
Proof.
  induction l as [|a l IH]; simpl; intros Hs Hni.
  - constructor; constructor.
  - inversion Hs as [|? ? Hs' Hall]; subst.
    destruct (Z.leb_spec x a) as [Hle|Hgt].
    + assert (x < a) by (assert (x <> a) by intuition; lia).
      constructor; [assumption|].
      constructor; [assumption|].
      eapply Forall_impl; [|exact Hall]. simpl. intros; lia.
    + constructor; [apply IH; intuition|].
      apply Forall_forall. intros y Hy.
      apply insert_sorted_In in Hy. destruct Hy as [->|Hy]; [lia|].
      rewrite Forall_forall in Hall. now apply Hall.
Qed.

Lemma py_sorted_strict l :
  NoDup l -> StronglySorted Z.lt (py_sorted Z.leb l).
Proof.
  induction l as [|a l IH]; simpl; intros Hnd.
  - constructor.
  - inversion Hnd; subst. apply insert_sorted_strict; auto.
    now rewrite py_sorted_In.
Qed.

(** A block is contiguous when each period is the successor of the one
    before it. *)
Fixpoint contiguo (seq : list Z) : bool :=
  match seq with
  | a :: ((b :: _) as resto) => (a + 1 =? b) && contiguo resto
  | _ => true
  end.

Lemma all_m_map {A B : Type} (g : A -> B) (f : B -> result bool) l :
  all_m f (map g l) = all_m (fun x => f (g x)) l.
Proof.
  induction l as [|a l IH]; simpl; auto.
  destruct (f (g a)) as [[|]|]; simpl; auto.
Qed.

Lemma consecutivos_length (seq : list Z) :
  consecutivos seq (List.length seq) = Ok (contiguo seq).
Proof.
  unfold consecutivos, py_range.
  replace (Z.to_nat (Z.of_nat (List.length seq) - 1))
    with (List.length seq - 1)%nat by lia.
  induction seq as [|a seq IH]; [reflexivity|].
  destruct seq as [|b seq]; [reflexivity|].
  change (List.length (a :: b :: seq) - 1)%nat with (S (List.length seq)).
  rewrite <- cons_seq, <- seq_shift.
  change (contiguo (a :: b :: seq))
    with ((a + 1 =? b) && contiguo (b :: seq)).
  cbn [all_m bind subscript nth_error Nat.add].
  destruct (a + 1 =? b); cbn [andb]; [|reflexivity].
  rewrite all_m_map, <- IH.
  replace (List.length (b :: seq) - 1)%nat with (List.length seq)
    by (cbn [List.length]; lia).
  reflexivity.
Qed.

Lemma py_range_In (n : Z) (i : nat) : In i (py_range n) <-> Z.of_nat i < n.
Proof. unfold py_range. rewrite in_seq. lia. Qed.

Lemma slice_length {A : Type} (l : list A) (i n : nat) :
  (i + n <= List.length l)%nat -> List.length (slice l i (i + n)) = n.
Proof.
  intros Hle. unfold slice.
  rewrite length_firstn, length_skipn. lia.
Qed.

Lemma find_app {A : Type} (f : A -> bool) l1 l2 :
  find f (l1 ++ l2) =
  match find f l1 with Some x => Some x | None => find f l2 end.
Proof.
  induction l1 as [|a l1 IH]; simpl; auto.
  destruct (f a); auto.
Qed.

Lemma find_map {A B : Type} (f : B -> bool) (g : A -> B) l :
  find f (map g l) = option_map g (find (fun x => f (g x)) l).
Proof.
  induction l as [|a l IH]; simpl; auto.
  destruct (f (g a)); auto.
Qed.

(** ** The search as a first-fit over an ordered list of candidates *)

Section Busca.
Variable d : dados.
Variable ucs : list (Z * Z).

(** A candidate block survives when it passes the four checks. *)
Definition sobrevive (st : estado) (ta : turma_atual) (sala_id : Z)
  (seq : list Z) : bool :=
  contiguo seq
  && negb (conflito_sala_docente st (ta_indisponiveis ta) sala_id
                                 (ta_docente ta) seq)
  && negb ((ta_label ta =? 1)
           && conflito_semestre d ucs st (ta_semestre ta) seq)
  && negb (conflito_entre_ucs d st (ta_uc ta) seq).

(** The windows of [dur] periods, by ascending start index. *)
Definition blocos (dur : nat) : list (list Z) :=
  map (fun i => slice (periodos_ordenados d) i (i + dur))
      (indices_iniciais d dur).

(** The candidates in the order the loops visit them: room by room, and
    in each room window by window. *)
Definition candidatos (dur : nat) (salas_permitidas : list Z)
  : list (Z * list Z) :=
  flat_map (fun sala_id => map (pair sala_id) (blocos dur)) salas_permitidas.

Definition alocar_candidato (st : estado) (ta : turma_atual)
  (c : Z * list Z) : estado :=
  alocar st (ta_id ta) (fst c) (ta_docente ta) (ta_duracao ta) (snd c).

Lemma indices_iniciais_bound dur i :
  In i (indices_iniciais d dur) ->
  (i + dur <= List.length (periodos_ordenados d))%nat.
Proof. unfold indices_iniciais. rewrite py_range_In. lia. Qed.

Lemma blocos_length dur seq :
  In seq (blocos dur) -> List.length seq = dur.
Proof.
  unfold blocos. rewrite in_map_iff. intros [i [<- Hi]].
  apply slice_length. now apply indices_iniciais_bound.
Qed.

Lemma loop_periodos_find st ta sala_id starts :
  (forall i, In i starts ->
             (i + ta_duracao ta <= List.length (periodos_ordenados d))%nat) ->
  loop_periodos d ucs st ta sala_id starts =
  Ok (option_map
        (fun seq => alocar_candidato st ta (sala_id, seq))
        (find (sobrevive st ta sala_id)
              (map (fun i => slice (periodos_ordenados d) i
                                   (i + ta_duracao ta)) starts))).
Proof.
  induction starts as [|i starts IH]; intros Hb; [reflexivity|].
  cbn [loop_periodos map find].
  set (seq := slice (periodos_ordenados d) i (i + ta_duracao ta)).
  assert (Hlen : List.length seq = ta_duracao ta).
  { apply slice_length. apply Hb. now left. }
  rewrite <- Hlen at 1. rewrite consecutivos_length. cbn [bind].
  specialize (IH (fun j Hj => Hb j (or_intror Hj))).
  unfold sobrevive.
  destruct (contiguo seq); cbn [negb andb]; [|exact IH].
  destruct (conflito_sala_docente _ _ _ _ _); cbn [negb andb]; [exact IH|].
  destruct ((ta_label ta =? 1) && conflito_semestre _ _ _ _ _);
    cbn [negb andb]; [exact IH|].
  destruct (conflito_entre_ucs _ _ _ _); cbn [negb andb]; [exact IH|].
  reflexivity.
Qed.

Lemma loop_salas_find st ta salas_permitidas :
  loop_salas d ucs st ta salas_permitidas =
  Ok (option_map
        (alocar_candidato st ta)
        (find (fun c => sobrevive st ta (fst c) (snd c))
              (candidatos (ta_duracao ta) salas_permitidas))).
Proof.
  induction salas_permitidas as [|s resto IH]; [reflexivity|].
  cbn [loop_salas candidatos flat_map].
  rewrite loop_periodos_find by apply indices_iniciais_bound.
  cbn [bind]. fold (candidatos (ta_duracao ta) resto).
  rewrite find_app. unfold blocos at 1. rewrite !find_map. cbn [fst snd].
  destruct (find _ (indices_iniciais d (ta_duracao ta))) as [i|];
    cbn [option_map]; [reflexivity|].
  exact IH.
Qed.
End Busca.

(** ** The attribute dictionaries of the sections *)

Section Atributos.
Variable d : dados.
Variable ucs : list (Z * Z).

(** The row that [dict(zip(turmas['id'], ...))] keeps for a section id:
    the last one with that id. *)
Definition linha (turma_id : Z) : option turma_row :=
  dict_get (dict_zip (map (fun r => (id r, r)) (turmas d))) turma_id.

Lemma dict_get_map_values {A B : Type} (f : A -> B) (dt : dict Z A) k :
  dict_get (map (fun kv => (fst kv, f (snd kv))) dt) k
  = option_map f (dict_get dt k).
Proof.
  induction dt as [|[k0 v0] dt IH]; simpl; auto.
  destruct (k0 =? k); auto.
Qed.

Lemma dict_set_map_values {A B : Type} (f : A -> B) (dt : dict Z A) k v :
  dict_set (map (fun kv => (fst kv, f (snd kv))) dt) k (f v)
  = map (fun kv => (fst kv, f (snd kv))) (dict_set dt k v).
Proof.
  induction dt as [|[k0 v0] dt IH]; simpl; auto.
  destruct (k0 =? k); simpl; auto. now rewrite IH.
Qed.

Lemma dict_zip_coluna {B : Type} (f : turma_row -> B) (l : list turma_row) :
  dict_zip (map (fun r => (id r, f r)) l)
  = map (fun kv => (fst kv, f (snd kv)))
        (dict_zip (map (fun r => (id r, r)) l)).
Proof.
  unfold dict_zip.
  change (@nil (Z * B)) with
    (map (fun kv : Z * turma_row => (fst kv, f (snd kv))) []).
  generalize (@nil (Z * turma_row)) as acc.
  induction l as [|r l IH]; intros acc; simpl; auto.
  rewrite dict_set_map_values. apply IH.
Qed.

Lemma coluna_get {B : Type} (f : turma_row -> B) turma_id :
  dict_get (dict_zip (map (fun r => (id r, f r)) (turmas d))) turma_id
  = option_map f (linha turma_id).
Proof.
  rewrite dict_zip_coluna, dict_get_map_values. reflexivity.
Qed.

Lemma turma_set_In turma_id :
  In turma_id (turma_set d) <-> In turma_id (map id (turmas d)).
Proof. unfold turma_set. now rewrite py_sorted_In, unique_In. Qed.

Lemma turma_set_sorted : StronglySorted Z.lt (turma_set d).
Proof. apply py_sorted_strict, unique_NoDup. Qed.

Lemma turma_set_NoDup : NoDup (turma_set d).
Proof. apply py_sorted_NoDup, unique_NoDup. Qed.

Lemma linha_Some turma_id row :
  linha turma_id = Some row -> In row (turmas d) /\ id row = turma_id.
Proof.
  unfold linha. intros Hg. apply dict_zip_get in Hg.
  apply in_map_iff in Hg. destruct Hg as [r [[= <- <-] Hin]]. auto.
Qed.

Lemma linha_turma_set turma_id :
  In turma_id (turma_set d) -> exists row, linha turma_id = Some row.
Proof.
  rewrite turma_set_In. intros Hin. apply dict_zip_bound.
  rewrite map_map. exact Hin.
Qed.

Lemma linha_In_turma_set turma_id row :
  linha turma_id = Some row -> In turma_id (turma_set d).
Proof.
  intros Hl. apply linha_Some in Hl. destruct Hl as [Hin <-].
  apply turma_set_In. now apply in_map.
Qed.

(** The attributes of a section as the body of the main loop reads
    them. *)
Definition atual (idt : dict Z (list Z)) (row : turma_row) (semestre : Z)
  : turma_atual :=
  {| ta_id := id row;
     ta_docente := docente_id row;
     ta_duracao := duracao row;
     ta_label := turma_label_id row;
     ta_uc := unidade_curricular_id row;
     ta_semestre := semestre;
     ta_indisponiveis := get_default idt (id row) [] |}.

(** The candidate the search commits for a section, if any. *)
Definition escolha (tsala idt : dict Z (list Z)) (st : estado)
  (row : turma_row) : option (turma_atual * (Z * list Z)) :=
  match dict_get (uc_semestre ucs) (unidade_curricular_id row) with
  | None => None
  | Some semestre =>
      let ta := atual idt row semestre in
      option_map (pair ta)
        (find (fun c => sobrevive d ucs st ta (fst c) (snd c))
              (candidatos d (duracao row) (get_default tsala (id row) [])))
  end.

Definition passo (tsala idt : dict Z (list Z)) (st : estado)
  (row : turma_row) : estado :=
  match escolha tsala idt st row with
  | Some (ta, c) => alocar_candidato st ta c
  | None => st
  end.

(** The body of the main loop never raises on a section of [turma_set],
    and it is the first-fit step [passo]. *)
Lemma process_turma_passo tsala idt st turma_id row :
  linha turma_id = Some row ->
  process_turma d ucs tsala idt st turma_id = Ok (passo tsala idt st row).
Proof.
  intros Hl. pose proof (linha_Some _ _ Hl) as [_ Hid].
  unfold process_turma, passo, escolha, turma_uc, turma_duracao,
    turma_docente, turma_label, get_default.
  rewrite !coluna_get, Hl. cbn [option_map int_of bind].
  destruct (dict_get (uc_semestre ucs) (unidade_curricular_id row))
    as [sem|]; [|reflexivity].
  unfold get_default. rewrite Hid.
  destruct (dict_get tsala turma_id) as [[|s resto]|] eqn:Hts;
    try reflexivity.
  cbn [int_of bind]. rewrite loop_salas_find. cbn [bind].
  unfold atual, get_default. rewrite Hid. cbn [ta_duracao].
  destruct (find _ _) as [c|]; reflexivity.
Qed.
End Atributos.

(** ** What a commitment changes in the state *)

Lemma fold_m_fold_left {A S : Type} (f : S -> A -> result S)
  (g : S -> A -> S) (l : list A) :
  (forall s x, In x l -> f s x = Ok (g s x)) ->
  forall s, fold_m f l s = Ok (fold_left g l s).
Proof.
  induction l as [|a l IH]; intros Hf s; [reflexivity|].
  cbn [fold_m fold_left]. rewrite Hf by now left. cbn [bind].
  apply IH. intros s' x Hx. apply Hf. now right.
Qed.

Lemma contiguo_cons a seq :
  contiguo (a :: seq) = true -> contiguo seq = true /\ Forall (Z.lt a) seq.
Proof.
  revert a. induction seq as [|b seq IH]; intros a Hc.
  - split; [reflexivity | constructor].
  - change (contiguo (a :: b :: seq))
      with ((a + 1 =? b) && contiguo (b :: seq)) in Hc.
    apply andb_prop in Hc. destruct Hc as [Hab Hc].
    apply Z.eqb_eq in Hab. split; [assumption|].
    destruct (IH b Hc) as [_ Hall].
    constructor; [lia|].
    eapply Forall_impl; [|exact Hall]. simpl. intros; lia.
Qed.

Lemma contiguo_NoDup seq : contiguo seq = true -> NoDup seq.
Proof.
  induction seq as [|a seq IH]; intros Hc; [constructor|].
  apply contiguo_cons in Hc. destruct Hc as [Hc Hall].
  constructor; [|auto].
  intros Hin. rewrite Forall_forall in Hall. specialize (Hall a Hin). lia.
Qed.

(** Consecutive ids, element by element. *)
Lemma contiguo_nth seq :
  contiguo seq = true <->
  forall i a b, nth_error seq i = Some a -> nth_error seq (S i) = Some b ->
                b = a + 1.
Proof.
  induction seq as [|x seq IH].
  - split; [intros _ [|i] a b; discriminate | reflexivity].
  - destruct seq as [|y seq].
    + split; [intros _ [|[|i]] a b; discriminate | reflexivity].
    + change (contiguo (x :: y :: seq))
        with ((x + 1 =? y) && contiguo (y :: seq)).
      rewrite andb_true_iff, Z.eqb_eq, IH. split.
      * intros [Hxy Hrest] [|i] a b; cbn [nth_error].
        -- intros [= <-] [= <-]. lia.
        -- apply Hrest.
      * intros Hall. split.
        -- symmetry. apply (Hall 0%nat); reflexivity.
        -- intros i a b. apply (Hall (S i)).
Qed.

(** The occupancy and variable maps after the loop over the block. *)
Definition ocupar (k : Z) (turma_id : Z) (seq : list Z) (m : dict (Z * Z) Z)
  : dict (Z * Z) Z :=
  fold_left (fun m p => dict_set m (k, p) turma_id) seq m.

Definition anotar (k : Z) (nome : Z -> string) (seq : list Z)
  (m : dict (Z * Z) (list string)) : dict (Z * Z) (list string) :=
  fold_left (fun m p => dict_append m (k, p) (nome p)) seq m.

Lemma fold_reservar turma_id sala_id docente seq st acc :
  fold_left (reservar turma_id sala_id docente) seq (st, acc) =
  ({| lp_file := lp_file st;
      docente_periodo_vars :=
        anotar docente (var_name turma_id sala_id) seq
               (docente_periodo_vars st);
      sala_periodo_vars :=
        anotar sala_id (var_name turma_id sala_id) seq (sala_periodo_vars st);
      variables :=
        fold_left set_add (map (var_name turma_id sala_id) seq) (variables st);
      written_constraints := written_constraints st;
      sala_periodos_ocupados :=
        ocupar sala_id turma_id seq (sala_periodos_ocupados st);
      docente_periodos_ocupados :=
        ocupar docente turma_id seq (docente_periodos_ocupados st);
      agendadas := agendadas st |},
   acc ++ map (var_name turma_id sala_id) seq).
Proof.
  revert st acc. induction seq as [|p seq IH]; intros st acc.
  - destruct st. cbn. now rewrite app_nil_r.
  - cbn [fold_left]. unfold reservar at 2. rewrite IH. cbn.
    now rewrite <- app_assoc.
Qed.

Ltac write_once_field :=
  intros; unfold write_once;
  match goal with |- context [py_in ?c ?w] => destruct (py_in c w) end;
  reflexivity.

Lemma write_once_sala st c :
  sala_periodos_ocupados (write_once st c) = sala_periodos_ocupados st.
Proof. write_once_field. Qed.
Lemma write_once_docente st c :
  docente_periodos_ocupados (write_once st c) = docente_periodos_ocupados st.
Proof. write_once_field. Qed.
Lemma write_once_spv st c :
  sala_periodo_vars (write_once st c) = sala_periodo_vars st.
Proof. write_once_field. Qed.
Lemma write_once_dpv st c :
  docente_periodo_vars (write_once st c) = docente_periodo_vars st.
Proof. write_once_field. Qed.
Lemma write_once_variables st c :
  variables (write_once st c) = variables st.
Proof. write_once_field. Qed.
Lemma write_once_agendadas st c : agendadas (write_once st c) = agendadas st.
Proof. write_once_field. Qed.

(** A projection that [write_once] leaves alone is left alone by the whole
    emission of a block. *)
Lemma escrever_restricoes_field {A : Type} (proj : estado -> A) :
  (forall st c, proj (write_once st c) = proj st) ->
  forall st turma_id sala_id dur uc_variables,
    proj (escrever_restricoes st turma_id sala_id dur uc_variables) = proj st.
Proof.
  intros Hw st turma_id sala_id dur [|v0 resto]; [reflexivity|].
  unfold escrever_restricoes. rewrite !Hw.
  revert st. induction resto as [|v resto IH]; intros st; [reflexivity|].
  cbn [fold_left]. rewrite IH. apply Hw.
Qed.

Section Alocar.
Variables (st : estado) (turma_id sala_id docente : Z) (dur : nat)
          (seq : list Z).

Let st' := alocar st turma_id sala_id docente dur seq.

Lemma alocar_sala :
  sala_periodos_ocupados st'
  = ocupar sala_id turma_id seq (sala_periodos_ocupados st).
Proof.
  unfold st', alocar. rewrite fold_reservar. cbn [registar sala_periodos_ocupados].
  now rewrite (escrever_restricoes_field _ write_once_sala).
Qed.

Lemma alocar_docente :
  docente_periodos_ocupados st'
  = ocupar docente turma_id seq (docente_periodos_ocupados st).
Proof.
  unfold st', alocar. rewrite fold_reservar.
  cbn [registar docente_periodos_ocupados].
  now rewrite (escrever_restricoes_field _ write_once_docente).
Qed.

Lemma alocar_spv :
  sala_periodo_vars st'
  = anotar sala_id (var_name turma_id sala_id) seq (sala_periodo_vars st).
Proof.
  unfold st', alocar. rewrite fold_reservar.
  cbn [registar sala_periodo_vars].
  now rewrite (escrever_restricoes_field _ write_once_spv).
Qed.

Lemma alocar_dpv :
  docente_periodo_vars st'
  = anotar docente (var_name turma_id sala_id) seq (docente_periodo_vars st).
Proof.
  unfold st', alocar. rewrite fold_reservar.
  cbn [registar docente_periodo_vars].
  now rewrite (escrever_restricoes_field _ write_once_dpv).
Qed.

Lemma alocar_variables :
  variables st'
  = fold_left set_add (map (var_name turma_id sala_id) seq) (variables st).
Proof.
  unfold st', alocar. rewrite fold_reservar. cbn [registar variables].
  now rewrite (escrever_restricoes_field _ write_once_variables).
Qed.

Lemma alocar_agendadas :
  agendadas st' = agendadas st ++ [(turma_id, sala_id, seq)].
Proof.
  unfold st', alocar. rewrite fold_reservar. cbn [registar agendadas].
  now rewrite (escrever_restricoes_field _ write_once_agendadas).
Qed.
End Alocar.

(** ** Occupancy after a commitment *)

Lemma keqb_pair (a b c e : Z) :
  keqb (a, b) (c, e) = (a =? c) && (b =? e).
Proof. reflexivity. Qed.

Lemma ocupar_get k turma_id seq m k' p' :
  dict_get (ocupar k turma_id seq m) (k', p') =
  if (k =? k') && py_in p' seq then Some turma_id else dict_get m (k', p').
Proof.
  revert m. induction seq as [|p seq IH]; intros m.
  - cbn. now rewrite andb_false_r.
  - cbn [ocupar fold_left]. fold (ocupar k turma_id seq (dict_set m (k, p) turma_id)).
    rewrite IH, dict_get_set. unfold py_in. cbn [existsb].
    change (keqb (k, p) (k', p')) with ((k =? k') && (p =? p')).
    change (keqb p' p) with (p' =? p).
    rewrite (Z.eqb_sym p' p).
    destruct (k =? k'), (p =? p'), (existsb (keqb p') seq); reflexivity.
Qed.

Lemma ocupar_get_in k turma_id seq m p :
  In p seq -> dict_get (ocupar k turma_id seq m) (k, p) = Some turma_id.
Proof.
  intros Hin. rewrite ocupar_get, Z.eqb_refl.
  apply py_in_true in Hin. now rewrite Hin.
Qed.

Lemma ocupar_get_out k turma_id seq m k' p' :
  k' <> k \/ ~ In p' seq ->
  dict_get (ocupar k turma_id seq m) (k', p') = dict_get m (k', p').
Proof.
  intros Hout. rewrite ocupar_get.
  destruct (Z.eqb_spec k k') as [->|Hne]; [|reflexivity].
  destruct Hout as [Hne|Hni]; [congruence|].
  apply py_in_false in Hni. now rewrite Hni.
Qed.

Lemma ocupar_get_Some k turma_id seq m k' p' t :
  dict_get (ocupar k turma_id seq m) (k', p') = Some t ->
  (k' = k /\ In p' seq /\ t = turma_id) \/ dict_get m (k', p') = Some t.
Proof.
  rewrite ocupar_get.
  destruct (Z.eqb_spec k k') as [->|Hne]; cbn [andb]; [|now right].
  destruct (py_in p' seq) eqn:Hin; [|now right].
  apply py_in_true in Hin. intros [= <-]. now left.
Qed.

Lemma dict_append_get {A : Type} (m : dict (Z * Z) (list A)) k x k' :
  dict_get (dict_append m k x) k' =
  if keqb k k'
  then Some (match dict_get m k with Some l => l | None => [] end ++ [x])
  else dict_get m k'.
Proof.
  unfold dict_append. destruct (dict_get m k); now rewrite dict_get_set.
Qed.

Lemma anotar_get_out k nome seq m k' p' :
  k' <> k \/ ~ In p' seq ->
  dict_get (anotar k nome seq m) (k', p') = dict_get m (k', p').
Proof.
  revert m. induction seq as [|p seq IH]; intros m Hout; [reflexivity|].
  cbn [anotar fold_left]. fold (anotar k nome seq (dict_append m (k, p) (nome p))).
  rewrite IH by (cbn [In] in Hout; tauto).
  rewrite dict_append_get, keqb_pair.
  destruct (Z.eqb_spec k k') as [->|Hne]; [|reflexivity].
  destruct (Z.eqb_spec p p') as [->|Hne']; [|reflexivity].
  exfalso. destruct Hout as [Hne|Hni]; [congruence|]. apply Hni. now left.
Qed.

Lemma anotar_get_in k nome seq m p :
  NoDup seq -> In p seq -> dict_get m (k, p) = None ->
  dict_get (anotar k nome seq m) (k, p) = Some [nome p].
Proof.
  revert m. induction seq as [|q seq IH]; intros m Hnd Hin Hfree; [easy|].
  inversion Hnd as [|? ? Hq Hnd']; subst.
  cbn [anotar fold_left]. fold (anotar k nome seq (dict_append m (k, q) (nome q))).
  destruct (Z.eq_dec q p) as [->|Hne].
  - rewrite anotar_get_out by tauto.
    rewrite dict_append_get, keqb_refl, Hfree. reflexivity.
  - destruct Hin as [->|Hin]; [congruence|].
    apply IH; auto.
    rewrite dict_append_get, keqb_pair.
    rewrite Z.eqb_refl. cbn [andb].
    destruct (Z.eqb_spec q p); [congruence | assumption].
Qed.

Lemma anotar_get_Some k nome seq m k' p' l :
  NoDup seq -> (forall p, In p seq -> dict_get m (k, p) = None) ->
  dict_get (anotar k nome seq m) (k', p') = Some l ->
  (k' = k /\ In p' seq /\ l = [nome p']) \/ dict_get m (k', p') = Some l.
Proof.
  intros Hnd Hfree Hg.
  destruct (Z.eq_dec k' k) as [->|Hne].
  - destruct (in_dec Z.eq_dec p' seq) as [Hin|Hni].
    + rewrite anotar_get_in in Hg by auto. injection Hg as <-. now left.
    + rewrite anotar_get_out in Hg by tauto. now right.
  - rewrite anotar_get_out in Hg by tauto. now right.
Qed.

Lemma ocupar_NoDup k turma_id seq m :
  NoDup (map fst m) -> NoDup (map fst (ocupar k turma_id seq m)).
Proof.
  revert m. induction seq as [|p seq IH]; intros m Hnd; [assumption|].
  cbn [ocupar fold_left]. apply IH. now apply dict_set_NoDup.
Qed.

Lemma dict_append_NoDup {A : Type} (m : dict (Z * Z) (list A)) k x :
  NoDup (map fst m) -> NoDup (map fst (dict_append m k x)).
Proof.
  intros Hnd. unfold dict_append.
  destruct (dict_get m k); now apply dict_set_NoDup.
Qed.

Lemma anotar_NoDup k nome seq m :
  NoDup (map fst m) -> NoDup (map fst (anotar k nome seq m)).
Proof.
  revert m. induction seq as [|p seq IH]; intros m Hnd; [assumption|].
  cbn [anotar fold_left]. apply IH. now apply dict_append_NoDup.
Qed.

Lemma dict_In_get {K V : Type} `{Key K} (m : dict K V) k v :
  NoDup (map fst m) -> In (k, v) m -> dict_get m k = Some v.
Proof.
  induction m as [|[k0 v0] m IH]; cbn; intros Hnd Hin; [easy|].
  inversion Hnd as [|? ? Hni Hnd']; subst.
  destruct Hin as [[= -> ->]|Hin].
  - now rewrite keqb_refl.
  - destruct (keqb_spec k0 k) as [->|Hne]; [|auto].
    exfalso. apply Hni. apply in_map_iff. exists (k, v). auto.
Qed.

(** What the room/teacher check establishes for an accepted block. *)
Lemma conflito_sala_docente_false st indisp sala_id docente seq :
  conflito_sala_docente st indisp sala_id docente seq = false ->
  forall p, In p seq ->
    dict_get (sala_periodos_ocupados st) (sala_id, p) = None
    /\ ~ In p indisp
    /\ dict_get (docente_periodos_ocupados st) (docente, p) = None.
Proof.
  unfold conflito_sala_docente. intros Hc p Hp.
  apply orb_false_elim in Hc. destruct Hc as [Hc Hd].
  apply orb_false_elim in Hc. destruct Hc as [Hs Hi].
  assert (Hex : forall (f : Z -> bool), existsb f seq = false -> f p = false).
  { intros f Hf. destruct (f p) eqn:Hfp; auto.
    assert (existsb f seq = true) by (apply existsb_exists; eauto).
    congruence. }
  apply Hex in Hs, Hi, Hd.
  rewrite dict_in_false in Hs, Hd. apply py_in_false in Hi. auto.
Qed.

(** ** The invariant of the search *)

Definition turma_de (a : Z * Z * list Z) : Z := fst (fst a).
Definition sala_de (a : Z * Z * list Z) : Z := snd (fst a).
Definition periodos_de (a : Z * Z * list Z) : list Z := snd a.

Definition disjuntos (l1 l2 : list Z) : Prop :=
  forall p, In p l1 -> In p l2 -> False.

Lemma ForallOrdPairs_snoc {A : Type} (R : A -> A -> Prop) l x :
  ForallOrdPairs R l -> Forall (fun a => R a x) l ->
  ForallOrdPairs R (l ++ [x]).
Proof.
  induction 1 as [|a l Hal Hl IH]; intros Hx; cbn.
  - constructor; constructor.
  - inversion Hx; subst. constructor; [|auto].
    apply Forall_app. split; [assumption|]. constructor; auto.
Qed.

Lemma ForallOrdPairs_nth {A : Type} (R : A -> A -> Prop) l :
  ForallOrdPairs R l ->
  forall i j a b, (i < j)%nat -> nth_error l i = Some a ->
                  nth_error l j = Some b -> R a b.
Proof.
  induction 1 as [|x l Hal Hl IH]; intros i j a b Hij Hi Hj.
  - destruct i; discriminate.
  - destruct j as [|j]; [lia|]. cbn in Hj.
    destruct i as [|i]; cbn in Hi.
    + injection Hi as <-. rewrite Forall_forall in Hal.
      apply Hal. eapply nth_error_In; eauto.
    + apply (IH i j); auto. lia.
Qed.

(** [b] is listed among the units that must not overlap with [a]. *)
Definition excluem (a b : Z) : Prop :=
  exists l, dict_get restricoes_entre_ucs a = Some l /\ In b l.

Definition excluemb (a b : Z) : bool :=
  match dict_get restricoes_entre_ucs a with
  | Some l => py_in b l
  | None => false
  end.

Lemma excluemb_true a b : excluemb a b = true <-> excluem a b.
Proof.
  unfold excluemb, excluem. split.
  - destruct (dict_get restricoes_entre_ucs a) as [l|]; [|discriminate].
    intros Hin. apply py_in_true in Hin. eauto.
  - intros (l & -> & Hin). now apply py_in_true.
Qed.

Ltac casos_da_tabela x :=
  repeat match goal with
         | |- context [?a =? x] => destruct (Z.eqb_spec a x); subst
         end.

(** The inline table is symmetric. *)
Lemma excluemb_sym a b : excluemb a b = true -> excluemb b a = true.
Proof.
  unfold excluemb at 1, restricoes_entre_ucs. cbn [dict_get keqb Key_Z].
  casos_da_tabela a; try discriminate;
    intros Hin; apply py_in_true in Hin; cbn [In] in Hin;
    repeat (destruct Hin as [<-|Hin]; [reflexivity|]); destruct Hin.
Qed.

Lemma excluem_sym a b : excluem a b -> excluem b a.
Proof. rewrite <- !excluemb_true. apply excluemb_sym. Qed.

Lemma existsb_false_In {A : Type} (f : A -> bool) l x :
  existsb f l = false -> In x l -> f x = false.
Proof.
  intros Hf Hx. destruct (f x) eqn:Hfx; [|reflexivity].
  assert (existsb f l = true) by (apply existsb_exists; eauto). congruence.
Qed.

Section Invariante.
Variable d : dados.

(** The unit check raises its flag exactly when some period of the block is
    taken, in a room of [salas], by a section that [turmas] lists under a
    unit of the exclusion group of [uc]. *)
Lemma conflito_entre_ucs_true st uc seq :
  conflito_entre_ucs d st uc seq = true <->
  exists uc_restrita t p s,
    excluem uc uc_restrita /\ In t (turmas_da_uc d uc_restrita)
    /\ In p seq /\ In s (salas d)
    /\ dict_get (sala_periodos_ocupados st) (s, p) = Some t.
Proof.
  unfold conflito_entre_ucs, excluem, ocupada_por. split.
  - destruct (dict_get restricoes_entre_ucs uc) as [l|]; [|discriminate].
    intros Hex. apply existsb_exists in Hex. destruct Hex as (ur & Hur & Hex).
    apply existsb_exists in Hex. destruct Hex as (t & Ht & Hex).
    apply existsb_exists in Hex. destruct Hex as (p & Hp & Hex).
    apply existsb_exists in Hex. destruct Hex as (s & Hs & Hex).
    exists ur, t, p, s.
    destruct (dict_get (sala_periodos_ocupados st) (s, p)) as [t'|];
      [|discriminate].
    apply Z.eqb_eq in Hex. subst t'. eauto 10.
  - intros (ur & t & p & s & (l & -> & Hur) & Ht & Hp & Hs & Hg).
    apply existsb_exists. exists ur. split; [assumption|].
    apply existsb_exists. exists t. split; [assumption|].
    apply existsb_exists. exists p. split; [assumption|].
    apply existsb_exists. exists s. split; [assumption|].
    rewrite Hg. apply Z.eqb_refl.
Qed.

(** The unit of a section. *)
Definition uc_da (turma_id : Z) : option Z :=
  option_map unidade_curricular_id (linha d turma_id).

(** Two placements respect the exclusion of units when, their rooms being
    listed in [salas] and one unit excluding the other, they share no
    period. *)
Definition respeitam (a b : Z * Z * list Z) : Prop :=
  forall ua ub,
    uc_da (turma_de a) = Some ua -> uc_da (turma_de b) = Some ub ->
    excluem ua ub ->
    In (sala_de a) (salas d) -> In (sala_de b) (salas d) ->
    disjuntos (periodos_de a) (periodos_de b).

Definition docente_de (turma_id : Z) : option Z :=
  option_map docente_id (linha d turma_id).

(** Two placements are compatible when they share no (room, period) pair
    and, if their sections have the same teacher, no period. *)
Definition compativeis (a b : Z * Z * list Z) : Prop :=
  (sala_de a = sala_de b -> disjuntos (periodos_de a) (periodos_de b))
  /\ (docente_de (turma_de a) = docente_de (turma_de b) ->
      disjuntos (periodos_de a) (periodos_de b)).

Record Inv (st : estado) : Prop := {
  inv_forma : forall t s seq,
    In (t, s, seq) (agendadas st) ->
    contiguo seq = true
    /\ exists row, linha d t = Some row /\ List.length seq = duracao row;
  inv_sala : forall t s seq p,
    In (t, s, seq) (agendadas st) -> In p seq ->
    dict_get (sala_periodos_ocupados st) (s, p) = Some t;
  inv_docente : forall t s seq p row,
    In (t, s, seq) (agendadas st) -> In p seq -> linha d t = Some row ->
    dict_get (docente_periodos_ocupados st) (docente_id row, p) = Some t;
  inv_sala_back : forall s p t,
    dict_get (sala_periodos_ocupados st) (s, p) = Some t ->
    exists seq, In (t, s, seq) (agendadas st) /\ In p seq;
  inv_docente_back : forall doc p t,
    dict_get (docente_periodos_ocupados st) (doc, p) = Some t ->
    exists s seq row, In (t, s, seq) (agendadas st) /\ In p seq
                      /\ linha d t = Some row /\ docente_id row = doc;
  inv_spv : forall s p l,
    dict_get (sala_periodo_vars st) (s, p) = Some l ->
    exists t, l = [var_name t s p]
              /\ dict_get (sala_periodos_ocupados st) (s, p) = Some t;
  inv_dpv : forall doc p l,
    dict_get (docente_periodo_vars st) (doc, p) = Some l ->
    exists t s, l = [var_name t s p]
                /\ dict_get (docente_periodos_ocupados st) (doc, p) = Some t;
  inv_vars : forall v,
    In v (variables st) <->
    exists t s seq p, In (t, s, seq) (agendadas st) /\ In p seq
                      /\ v = var_name t s p;
  inv_vars_nodup : NoDup (variables st);
  inv_pares : ForallOrdPairs compativeis (agendadas st);
  inv_excl : ForallOrdPairs respeitam (agendadas st);
  inv_chaves_sala : NoDup (map fst (sala_periodos_ocupados st));
  inv_chaves_docente : NoDup (map fst (docente_periodos_ocupados st));
  inv_chaves_spv : NoDup (map fst (sala_periodo_vars st));
  inv_chaves_dpv : NoDup (map fst (docente_periodo_vars st))
}.

Lemma Inv_inicial : Inv (estado_inicial d).
Proof.
  constructor; cbn; try easy.
  - intros v. split; [easy | intros (t & s & seq & p & [] & _)].
  - constructor.
  - constructor.
  - constructor.
  - constructor.
  - constructor.
  - constructor.
  - constructor.
Qed.

Lemma Inv_alocar st row sala_id seq :
  Inv st ->
  linha d (id row) = Some row ->
  contiguo seq = true ->
  List.length seq = duracao row ->
  (forall p, In p seq ->
     dict_get (sala_periodos_ocupados st) (sala_id, p) = None
     /\ dict_get (docente_periodos_ocupados st) (docente_id row, p) = None) ->
  conflito_entre_ucs d st (unidade_curricular_id row) seq = false ->
  Inv (alocar st (id row) sala_id (docente_id row) (duracao row) seq).
Proof.
  intros HI Hl Hc Hlen Hfree Huc.
  pose proof (contiguo_NoDup _ Hc) as Hnd.
  assert (Hfs : forall p, In p seq ->
              dict_get (sala_periodos_ocupados st) (sala_id, p) = None)
    by (intros p Hp; now apply Hfree).
  assert (Hfd : forall p, In p seq ->
              dict_get (docente_periodos_ocupados st) (docente_id row, p)
              = None)
    by (intros p Hp; now apply Hfree).
  assert (Hkeep_s : forall s p t,
             dict_get (sala_periodos_ocupados st) (s, p) = Some t ->
             dict_get (ocupar sala_id (id row) seq
                              (sala_periodos_ocupados st)) (s, p) = Some t).
  { intros s p t Hg. rewrite ocupar_get_out; [assumption|].
    destruct (Z.eq_dec s sala_id) as [->|]; [right|now left].
    intros Hin. rewrite Hfs in Hg by assumption. discriminate. }
  assert (Hkeep_d : forall k p t,
             dict_get (docente_periodos_ocupados st) (k, p) = Some t ->
             dict_get (ocupar (docente_id row) (id row) seq
                              (docente_periodos_ocupados st)) (k, p)
             = Some t).
  { intros k p t Hg. rewrite ocupar_get_out; [assumption|].
    destruct (Z.eq_dec k (docente_id row)) as [->|]; [right|now left].
    intros Hin. rewrite Hfd in Hg by assumption. discriminate. }
  constructor.
  - intros t s sq. rewrite alocar_agendadas, in_app_iff.
    intros [Hin|[[= <- <- <-]|[]]]; [now apply (inv_forma _ HI t s)|].
    split; [assumption|]. eauto.
  - intros t s sq p. rewrite alocar_agendadas, alocar_sala, in_app_iff.
    intros [Hin|[[= <- <- <-]|[]]] Hp.
    + apply Hkeep_s. now apply (inv_sala _ HI t s sq).
    + now apply ocupar_get_in.
  - intros t s sq p r. rewrite alocar_agendadas, alocar_docente, in_app_iff.
    intros [Hin|[[= <- <- <-]|[]]] Hp Hr.
    + apply Hkeep_d. now apply (inv_docente _ HI t s sq).
    + rewrite Hl in Hr. injection Hr as <-. now apply ocupar_get_in.
  - intros s p t. rewrite alocar_agendadas, alocar_sala. intros Hg.
    apply ocupar_get_Some in Hg. destruct Hg as [(-> & Hp & ->)|Hg].
    + exists seq. rewrite in_app_iff. split; [right; now left | assumption].
    + apply (inv_sala_back _ HI) in Hg. destruct Hg as [sq [Hin Hp]].
      exists sq. rewrite in_app_iff. auto.
  - intros k p t. rewrite alocar_agendadas, alocar_docente. intros Hg.
    apply ocupar_get_Some in Hg. destruct Hg as [(-> & Hp & ->)|Hg].
    + exists sala_id, seq, row. rewrite in_app_iff.
      repeat split; auto. right; now left.
    + apply (inv_docente_back _ HI) in Hg.
      destruct Hg as (s & sq & r & Hin & Hp & Hr & Hk).
      exists s, sq, r. rewrite in_app_iff. auto.
  - intros s p l. rewrite alocar_spv, alocar_sala. intros Hg.
    apply anotar_get_Some in Hg; [|assumption|].
    + destruct Hg as [(-> & Hp & ->)|Hg].
      * exists (id row). split; [reflexivity | now apply ocupar_get_in].
      * apply (inv_spv _ HI) in Hg. destruct Hg as [t [-> Hg]].
        exists t. split; [reflexivity | now apply Hkeep_s].
    + intros q Hq.
      destruct (dict_get (sala_periodo_vars st) (sala_id, q)) as [l'|] eqn:E;
        [|reflexivity].
      apply (inv_spv _ HI) in E. destruct E as [t [_ E]].
      rewrite Hfs in E by assumption. discriminate.
  - intros k p l. rewrite alocar_dpv, alocar_docente. intros Hg.
    apply anotar_get_Some in Hg; [|assumption|].
    + destruct Hg as [(-> & Hp & ->)|Hg].
      * exists (id row), sala_id.
        split; [reflexivity | now apply ocupar_get_in].
      * apply (inv_dpv _ HI) in Hg. destruct Hg as (t & s & -> & Hg).
        exists t, s. split; [reflexivity | now apply Hkeep_d].
    + intros q Hq.
      destruct (dict_get (docente_periodo_vars st) (docente_id row, q))
        as [l'|] eqn:E; [|reflexivity].
      apply (inv_dpv _ HI) in E. destruct E as (t & s & _ & E).
      rewrite Hfd in E by assumption. discriminate.
  - intros v. rewrite alocar_variables, alocar_agendadas, unique_acc_In.
    rewrite (inv_vars _ HI), in_map_iff. split.
    + intros [(t & s & sq & p & Hin & Hp & ->)|(p & <- & Hp)].
      * exists t, s, sq, p. rewrite in_app_iff. auto.
      * exists (id row), sala_id, seq, p. rewrite in_app_iff.
        repeat split; auto. right; now left.
    + intros (t & s & sq & p & Hin & Hp & ->).
      apply in_app_iff in Hin.
      destruct Hin as [Hin|[[= <- <- <-]|[]]].
      * left. exists t, s, sq, p. auto.
      * right. exists p. auto.
  - rewrite alocar_variables. apply unique_acc_NoDup, (inv_vars_nodup _ HI).
  - rewrite alocar_agendadas. apply ForallOrdPairs_snoc.
    + apply (inv_pares _ HI).
    + apply Forall_forall. intros [[t s] sq] Hin.
      unfold compativeis, sala_de, turma_de, periodos_de, disjuntos.
      cbn [fst snd]. split.
      * intros -> p Hp Hq.
        pose proof (inv_sala _ HI _ _ _ _ Hin Hp) as Hg.
        rewrite Hfs in Hg by assumption. discriminate.
      * intros Hdoc p Hp Hq.
        destruct (inv_forma _ HI _ _ _ Hin) as [_ [r [Hr _]]].
        pose proof (inv_docente _ HI _ _ _ _ _ Hin Hp Hr) as Hg.
        unfold docente_de in Hdoc. rewrite Hr, Hl in Hdoc.
        injection Hdoc as Hdoc. rewrite Hdoc, Hfd in Hg by assumption.
        discriminate.
  - rewrite alocar_agendadas. apply ForallOrdPairs_snoc.
    + apply (inv_excl _ HI).
    + apply Forall_forall. intros [[t s] sq] Hin.
      unfold respeitam, sala_de, turma_de, periodos_de, disjuntos, uc_da.
      cbn [fst snd]. rewrite Hl. cbn [option_map].
      intros ua ub Hua [= <-] Hex Hs _ p Hp Hq.
      destruct (linha d t) as [r|] eqn:Hr; [|discriminate].
      cbn [option_map] in Hua. injection Hua as <-.
      apply excluem_sym in Hex.
      assert (Hflag : conflito_entre_ucs d st (unidade_curricular_id row) seq
                      = true).
      { apply conflito_entre_ucs_true.
        exists (unidade_curricular_id r), t, p, s.
        split; [assumption|]. split.
        - apply linha_Some in Hr. destruct Hr as [Hin_r <-].
          unfold turmas_da_uc. apply in_map, filter_In.
          split; [assumption | apply Z.eqb_refl].
        - repeat split; auto. now apply (inv_sala _ HI t s sq). }
      congruence.
  - rewrite alocar_sala. apply ocupar_NoDup, (inv_chaves_sala _ HI).
  - rewrite alocar_docente. apply ocupar_NoDup, (inv_chaves_docente _ HI).
  - rewrite alocar_spv. apply anotar_NoDup, (inv_chaves_spv _ HI).
  - rewrite alocar_dpv. apply anotar_NoDup, (inv_chaves_dpv _ HI).
Qed.
End Invariante.

(** ** The run over [turma_set] *)

Lemma fold_m_dict {V : Type} (f : dict Z V -> Z -> result (dict Z V))
  (g : Z -> V) (l : list Z) :
  (forall acc t, In t l -> f acc t = Ok (dict_set acc t (g t))) ->
  forall acc, exists dt,
    fold_m f l acc = Ok dt
    /\ (forall t, In t l -> dict_get dt t = Some (g t))
    /\ (forall t, ~ In t l -> dict_get dt t = dict_get acc t).
Proof.
  induction l as [|a l IH]; intros Hf acc.
  - exists acc. split; [reflexivity|]. split; [intros t [] | reflexivity].
  - cbn [fold_m]. rewrite Hf by now left. cbn [bind].
    destruct (IH (fun acc t Ht => Hf acc t (or_intror Ht))
                 (dict_set acc a (g a))) as (dt & Hdt & Hin & Hout).
    exists dt. split; [assumption|]. split.
    + intros t Ht. destruct (in_dec Z.eq_dec t l) as [Hl|Hl]; [auto|].
      destruct Ht as [->|Ht]; [|contradiction].
      rewrite Hout by assumption. apply dict_get_set_eq.
    + intros t Ht. cbn [In] in Ht. rewrite Hout by tauto.
      apply dict_get_set_neq. intros ->. tauto.
Qed.

Section Execucao.
Variable d : dados.
Variable ucs : list (Z * Z).

Definition uc_de (turma_id : Z) : Z :=
  match linha d turma_id with
  | Some row => unidade_curricular_id row
  | None => 0
  end.

Definition docente_da (turma_id : Z) : Z :=
  match linha d turma_id with
  | Some row => docente_id row
  | None => 0
  end.

Lemma turma_sala_ok (list_of_set : list Z -> list Z) :
  exists tsala,
    turma_sala list_of_set d = Ok tsala
    /\ (forall t, In t (turma_set d) ->
          dict_get tsala t = Some (list_of_set (salas_da_uc d (uc_de t))))
    /\ (forall t, ~ In t (turma_set d) -> dict_get tsala t = None).
Proof.
  unfold turma_sala.
  apply (fold_m_dict _ (fun t => list_of_set (salas_da_uc d (uc_de t)))).
  intros acc t Ht. apply linha_turma_set in Ht. destruct Ht as [row Hr].
  unfold dict_subscript, turma_uc, uc_de. rewrite coluna_get, Hr.
  reflexivity.
Qed.

Lemma I_d_turma_ok :
  exists idt,
    I_d_turma d = Ok idt
    /\ (forall t, In t (turma_set d) ->
          dict_get idt t = Some (indisponiveis d (docente_da t)))
    /\ (forall t, ~ In t (turma_set d) -> dict_get idt t = None).
Proof.
  unfold I_d_turma.
  apply (fold_m_dict _ (fun t => indisponiveis d (docente_da t))).
  intros acc t Ht. apply linha_turma_set in Ht. destruct Ht as [row Hr].
  unfold dict_subscript, turma_docente, docente_da. rewrite coluna_get, Hr.
  reflexivity.
Qed.

Variables tsala idt : dict Z (list Z).

Definition passo_id (st : estado) (turma_id : Z) : estado :=
  match linha d turma_id with
  | Some row => passo d ucs tsala idt st row
  | None => st
  end.

(** The state after the sections [ts] have been processed in order. *)
Definition executar (ts : list Z) (st : estado) : estado :=
  fold_left passo_id ts st.

Lemma process_turma_ok st t :
  In t (turma_set d) ->
  process_turma d ucs tsala idt st t = Ok (passo_id st t).
Proof.
  intros Ht. apply linha_turma_set in Ht. destruct Ht as [row Hr].
  unfold passo_id. rewrite Hr. now apply process_turma_passo.
Qed.

Lemma fold_process_turma ts st :
  incl ts (turma_set d) ->
  fold_m (process_turma d ucs tsala idt) ts st = Ok (executar ts st).
Proof.
  intros Hts. apply fold_m_fold_left.
  intros s x Hx. apply process_turma_ok. now apply Hts.
Qed.

Lemma alocar_turmas_ok st :
  alocar_turmas d ucs tsala idt st = Ok (executar (turma_set d) st).
Proof. apply fold_process_turma, incl_refl. Qed.

Lemma candidatos_In dur salas_permitidas s seq :
  In (s, seq) (candidatos d dur salas_permitidas) <->
  In s salas_permitidas /\ In seq (blocos d dur).
Proof.
  unfold candidatos. rewrite in_flat_map. split.
  - intros [s' [Hs Hin]]. apply in_map_iff in Hin.
    destruct Hin as [sq [[= <- <-] Hsq]]. auto.
  - intros [Hs Hsq]. exists s. split; [assumption|]. now apply in_map.
Qed.

Lemma escolha_Some st row ta c :
  escolha d ucs tsala idt st row = Some (ta, c) ->
  exists sem,
    dict_get (uc_semestre ucs) (unidade_curricular_id row) = Some sem
    /\ ta = atual idt row sem
    /\ In (fst c) (get_default tsala (id row) [])
    /\ In (snd c) (blocos d (duracao row))
    /\ sobrevive d ucs st ta (fst c) (snd c) = true.
Proof.
  unfold escolha.
  destruct (dict_get (uc_semestre ucs) (unidade_curricular_id row))
    as [sem|]; [|discriminate].
  destruct (find _ _) as [c'|] eqn:Hf; [|discriminate].
  cbn [option_map]. intros [= <- <-].
  apply find_some in Hf. destruct Hf as [Hin Hs].
  destruct c' as [s seq]. apply candidatos_In in Hin.
  exists sem. cbn [fst snd] in *. tauto.
Qed.

Lemma sobrevive_true st ta s seq :
  sobrevive d ucs st ta s seq = true ->
  contiguo seq = true
  /\ conflito_sala_docente st (ta_indisponiveis ta) s (ta_docente ta) seq
     = false
  /\ (ta_label ta =? 1) && conflito_semestre d ucs st (ta_semestre ta) seq
     = false
  /\ conflito_entre_ucs d st (ta_uc ta) seq = false.
Proof.
  unfold sobrevive. rewrite !andb_true_iff, !negb_true_iff. tauto.
Qed.

Lemma Inv_passo st row :
  Inv d st -> linha d (id row) = Some row ->
  Inv d (passo d ucs tsala idt st row).
Proof.
  intros HI Hl. unfold passo.
  destruct (escolha d ucs tsala idt st row) as [[ta [s seq]]|] eqn:He;
    [|assumption].
  apply escolha_Some in He.
  destruct He as (sem & _ & -> & _ & Hb & Hs). cbn [fst snd] in *.
  apply sobrevive_true in Hs. destruct Hs as (Hc & Hsd & _ & Huc).
  unfold alocar_candidato. cbn [atual ta_id ta_docente ta_duracao fst snd].
  apply Inv_alocar; auto.
  - now apply (blocos_length d).
  - intros p Hp.
    destruct (conflito_sala_docente_false _ _ _ _ _ Hsd p Hp)
      as (H1 & _ & H2).
    auto.
Qed.

Lemma Inv_passo_id st t : Inv d st -> Inv d (passo_id st t).
Proof.
  intros HI. unfold passo_id.
  destruct (linha d t) as [row|] eqn:Hl; [|assumption].
  apply Inv_passo; [assumption|].
  pose proof (linha_Some _ _ _ Hl) as [_ Hid]. now rewrite Hid.
Qed.

Lemma Inv_executar ts st : Inv d st -> Inv d (executar ts st).
Proof.
  revert st. induction ts as [|t ts IH]; intros st HI; [assumption|].
  cbn [executar fold_left]. apply IH. now apply Inv_passo_id.
Qed.
End Execucao.

(** ** First fit, spelled out *)

Lemma find_first {A : Type} (f : A -> bool) l x :
  find f l = Some x ->
  exists l1 l2, l = l1 ++ x :: l2 /\ f x = true
                /\ forall y, In y l1 -> f y = false.
Proof.
  induction l as [|a l IH]; [discriminate|].
  cbn [find]. destruct (f a) eqn:Hfa.
  - intros [= <-]. exists [], l. repeat split; [assumption | intros y []].
  - intros Hf. destruct (IH Hf) as (l1 & l2 & -> & Hx & Hl1).
    exists (a :: l1), l2. repeat split; [assumption|].
    intros y [<-|Hy]; auto.
Qed.

Section PrimeiroAjuste.
Variable d : dados.
Variable ucs : list (Z * Z).
Variables tsala idt : dict Z (list Z).

(** The outcome of the first-fit step for a section: either nothing
    survives and the state is unchanged, or the state is the commitment of
    the first surviving candidate. *)
Lemma passo_first_fit st row :
  (passo d ucs tsala idt st row = st
   /\ (dict_get (uc_semestre ucs) (unidade_curricular_id row) = None
       \/ exists sem,
           dict_get (uc_semestre ucs) (unidade_curricular_id row) = Some sem
           /\ forall c,
               In c (candidatos d (duracao row)
                                (get_default tsala (id row) [])) ->
               sobrevive d ucs st (atual idt row sem) (fst c) (snd c) = false))
  \/ exists sem l1 s seq l2,
      dict_get (uc_semestre ucs) (unidade_curricular_id row) = Some sem
      /\ candidatos d (duracao row) (get_default tsala (id row) [])
         = l1 ++ (s, seq) :: l2
      /\ (forall c, In c l1 ->
            sobrevive d ucs st (atual idt row sem) (fst c) (snd c) = false)
      /\ sobrevive d ucs st (atual idt row sem) s seq = true
      /\ passo d ucs tsala idt st row
         = alocar st (id row) s (docente_id row) (duracao row) seq.
Proof.
  unfold passo, escolha.
  destruct (dict_get (uc_semestre ucs) (unidade_curricular_id row))
    as [sem|]; [|left; auto].
  destruct (find _ _) as [[s seq]|] eqn:Hf; cbn [option_map].
  - right. apply find_first in Hf. destruct Hf as (l1 & l2 & Hl & Hs & Hl1).
    exists sem, l1, s, seq, l2. cbn [fst snd] in Hs. auto.
  - left. split; [reflexivity|]. right. exists sem. split; [reflexivity|].
    intros c Hc. apply (find_none _ _ Hf c Hc).
Qed.
End PrimeiroAjuste.

Lemma incl_firstn {A : Type} (k : nat) (l : list A) : incl (firstn k l) l.
Proof.
  revert k. induction l as [|a l IH]; intros [|k]; cbn; try easy.
  intros x [<-|Hx]; [now left | right; now apply (IH k)].
Qed.

Lemma compativeis_sym d a b : compativeis d a b -> compativeis d b a.
Proof.
  unfold compativeis, disjuntos. intros [H1 H2]. split.
  - intros Hs p Hp Hq. symmetry in Hs. eauto.
  - intros Hs p Hp Hq. symmetry in Hs. eauto.
Qed.

(** The state after the first [k] sections is reached without an exception
    and satisfies the invariant. *)
Lemma prefixo_Inv d ucs tsala idt (k : nat) :
  exists st,
    fold_m (process_turma d ucs tsala idt) (firstn k (turma_set d))
           (estado_inicial d) = Ok st
    /\ st = executar d ucs tsala idt (firstn k (turma_set d))
                     (estado_inicial d)
    /\ Inv d st.
Proof.
  exists (executar d ucs tsala idt (firstn k (turma_set d))
                   (estado_inicial d)).
  split; [apply fold_process_turma, incl_firstn|].
  split; [reflexivity|]. apply Inv_executar, Inv_inicial.
Qed.

(** ** The semester check *)

Section Semestre.
Variable d : dados.
Variable ucs : list (Z * Z).

(** The semester of the curricular unit of a section. *)
Definition semestre_da_turma (turma_id : Z) : option Z :=
  match dict_get (turma_uc d) turma_id with
  | Some uc => dict_get (uc_semestre ucs) uc
  | None => None
  end.

Lemma mesmo_semestre_true sem t :
  mesmo_semestre d ucs sem t = true <-> semestre_da_turma t = Some sem.
Proof.
  unfold mesmo_semestre, semestre_da_turma.
  destruct (dict_get (turma_uc d) t) as [uc|]; [|easy].
  destruct (dict_get (uc_semestre ucs) uc) as [s|]; [|easy].
  rewrite Z.eqb_eq. split; congruence.
Qed.

Lemma conflito_semestre_true st sem seq :
  conflito_semestre d ucs st sem seq = true <->
  exists p s t, In p seq /\ In ((s, p), t) (sala_periodos_ocupados st)
                /\ semestre_da_turma t = Some sem.
Proof.
  unfold conflito_semestre, turmas_no_periodo.
  rewrite existsb_exists. split.
  - intros (p & Hp & Hex). apply existsb_exists in Hex.
    destruct Hex as (t & Ht & Hm). apply in_map_iff in Ht.
    destruct Ht as ([[s per] t'] & Heq & Hin). cbn in Heq. subst t'.
    apply filter_In in Hin. destruct Hin as [Hin Hper].
    cbn in Hper. apply Z.eqb_eq in Hper. subst per.
    exists p, s, t. rewrite <- mesmo_semestre_true. auto.
  - intros (p & s & t & Hp & Hin & Hm).
    exists p. split; [assumption|]. apply existsb_exists.
    exists t. rewrite mesmo_semestre_true. split; [|assumption].
    apply in_map_iff. exists ((s, p), t). split; [reflexivity|].
    apply filter_In. split; [assumption|]. cbn. apply Z.eqb_refl.
Qed.

(** Some period of the block is taken, in some room, by a logged placement
    of a section of the semester [sem]. *)
Definition semestre_ocupado (st : estado) (sem : Z) (seq : list Z) : Prop :=
  exists t s seq' p,
    In (t, s, seq') (agendadas st) /\ In p seq' /\ In p seq
    /\ semestre_da_turma t = Some sem.

Lemma conflito_semestre_Inv st sem seq :
  Inv d st ->
  conflito_semestre d ucs st sem seq = true <-> semestre_ocupado st sem seq.
Proof.
  intros HI. rewrite conflito_semestre_true. unfold semestre_ocupado. split.
  - intros (p & s & t & Hp & Hin & Hm).
    apply dict_In_get in Hin; [|apply (inv_chaves_sala _ _ HI)].
    apply (inv_sala_back _ _ HI) in Hin. destruct Hin as (seq' & Hin & Hp').
    exists t, s, seq', p. auto.
  - intros (t & s & seq' & p & Hin & Hp' & Hp & Hm).
    exists p, s, t. split; [assumption|]. split; [|assumption].
    apply dict_get_In. now apply (inv_sala _ _ HI t s seq').
Qed.
End Semestre.

Lemma respeitam_sym d a b : respeitam d a b -> respeitam d b a.
Proof.
  unfold respeitam, disjuntos. intros H ub ua Hub Hua Hex Hsb Hsa p Hp Hq.
  apply excluem_sym in Hex. eauto.
Qed.

(** The exclusion of units between the logged placements, with and without
    the restriction to rooms listed in [salas]. *)
Definition exclusao_respeitada (d : dados) (st : estado) : Prop :=
  forall i j a b ua ub,
    i <> j ->
    nth_error (agendadas st) i = Some a ->
    nth_error (agendadas st) j = Some b ->
    dict_get (turma_uc d) (turma_de a) = Some ua ->
    dict_get (turma_uc d) (turma_de b) = Some ub ->
    excluem ua ub ->
    forall p, In p (periodos_de a) -> ~ In p (periodos_de b).

Definition exclusao_respeitada_em_salas (d : dados) (st : estado) : Prop :=
  forall i j a b ua ub,
    i <> j ->
    nth_error (agendadas st) i = Some a ->
    nth_error (agendadas st) j = Some b ->
    dict_get (turma_uc d) (turma_de a) = Some ua ->
    dict_get (turma_uc d) (turma_de b) = Some ub ->
    excluem ua ub ->
    In (sala_de a) (salas d) -> In (sala_de b) (salas d) ->
    forall p, In p (periodos_de a) -> ~ In p (periodos_de b).

Lemma Inv_exclusao d st : Inv d st -> exclusao_respeitada_em_salas d st.
Proof.
  intros HI i j a b ua ub Hij Ha Hb Hua Hub Hex Hsa Hsb p Hp Hq.
  unfold turma_uc in Hua, Hub. rewrite coluna_get in Hua, Hub.
  assert (Hr : respeitam d a b).
  { destruct (Nat.lt_total i j) as [Hlt|[Heq|Hgt]]; [|contradiction|].
    - exact (ForallOrdPairs_nth _ _ (inv_excl _ _ HI) i j a b Hlt Ha Hb).
    - apply respeitam_sym.
      exact (ForallOrdPairs_nth _ _ (inv_excl _ _ HI) j i b a Hgt Hb Ha). }
  exact (Hr ua ub Hua Hub Hex Hsa Hsb p Hp Hq).
Qed.

(** ** The order of the rooms *)

Lemma find_flat_map_first {A B : Type} (f : B -> bool) (g : A -> list B)
  (l : list A) (x : B) :
  find f (flat_map g l) = Some x ->
  exists l1 a l2,
    l = l1 ++ a :: l2 /\ In x (g a) /\ f x = true
    /\ forall a', In a' l1 -> forall y, In y (g a') -> f y = false.
Proof.
  induction l as [|a l IH]; [discriminate|].
  cbn [flat_map]. rewrite find_app.
  destruct (find f (g a)) as [y|] eqn:Hga.
  - intros [= <-]. apply find_some in Hga. destruct Hga as [Hin Hf].
    exists [], a, l. repeat split; auto. intros a' [].
  - intros Hf. destruct (IH Hf) as (l1 & a0 & l2 & -> & Hin & Hx & Hl1).
    exists (a :: l1), a0, l2. repeat split; auto.
    intros a' [<-|Ha'] y Hy; [|eauto].
    apply (find_none _ _ Hga y Hy).
Qed.

(** The rooms a section may use, as the main loop reads them. *)
Definition salas_permitidas_de (list_of_set : list Z -> list Z) (d : dados)
  (turma_id : Z) : list Z :=
  match turma_sala list_of_set d with
  | Ok tsala => get_default tsala turma_id []
  | Raise _ => []
  end.

(** The claim that the rooms of every section are visited by ascending
    id. *)
Definition salas_por_id_crescente (list_of_set : list Z -> list Z)
  (d : dados) : Prop :=
  forall t, In t (turma_set d) ->
            StronglySorted Z.le (salas_permitidas_de list_of_set d t).

(** ** Text: characters, cuts and decimal renderings *)

(** [c in s] for a character. *)
Fixpoint ocorre (c : ascii) (s : string) : bool :=
  match s with
  | EmptyString => false
  | String a s' => Ascii.eqb a c || ocorre c s'
  end.

Lemma ocorre_append c a b : ocorre c (a +++ b) = ocorre c a || ocorre c b.
Proof.
  induction a as [|x a IH]; cbn; [reflexivity|].
  now rewrite IH, orb_assoc.
Qed.

Lemma append_assoc a b c : (a +++ b) +++ c = a +++ (b +++ c).
Proof. induction a as [|x a IH]; cbn; [reflexivity | now rewrite IH]. Qed.

Lemma append_nil_r a : a +++ EmptyString = a.
Proof. induction a as [|x a IH]; cbn; [reflexivity | now rewrite IH]. Qed.

Lemma String_inj a s s' : String a s = String a s' -> s = s'.
Proof. now intros [= ->]. Qed.

(** A text is cut in one way only at the first occurrence of a
    character. *)
Lemma corte_unico c s1 s2 r1 r2 :
  ocorre c s1 = false -> ocorre c s2 = false ->
  s1 +++ String c r1 = s2 +++ String c r2 -> s1 = s2 /\ r1 = r2.
Proof.
  revert s2. induction s1 as [|a s1 IH]; intros [|b s2]; cbn.
  - intros _ _ [= ->]. auto.
  - intros _ Hb [= <- _]. rewrite Ascii.eqb_refl in Hb. discriminate.
  - intros Ha _ [= -> _]. rewrite Ascii.eqb_refl in Ha. discriminate.
  - intros Ha Hb [= -> He].
    apply orb_false_elim in Ha, Hb.
    destruct (IH s2 (proj2 Ha) (proj2 Hb) He) as [-> ->]. auto.
Qed.

(** The text before the first colon: the name of a constraint. *)
Fixpoint nome_de (s : string) : string :=
  match s with
  | EmptyString => EmptyString
  | String a s' => if Ascii.eqb a ":" then EmptyString
                   else String a (nome_de s')
  end.

Lemma nome_de_append a r :
  ocorre ":" a = false -> nome_de (a +++ r) = a +++ nome_de r.
Proof.
  induction a as [|x a IH]; cbn; [reflexivity|].
  intros Hx. apply orb_false_elim in Hx. destruct Hx as [Hx Ha].
  rewrite Hx, IH by assumption. reflexivity.
Qed.

Definition digito (c : ascii) : bool :=
  existsb (Ascii.eqb c)
          ["0"; "1"; "2"; "3"; "4"; "5"; "6"; "7"; "8"; "9"; "-"]%char.

Lemma uint_digitos d c :
  ocorre c (NilEmpty.string_of_uint d) = true -> digito c = true.
Proof.
  induction d as [|d IH|d IH|d IH|d IH|d IH|d IH|d IH|d IH|d IH|d IH];
    cbn [NilEmpty.string_of_uint ocorre]; [discriminate|..];
    (intros H; apply orb_prop in H; destruct H as [H|H]; [|now apply IH];
     apply Ascii.eqb_eq in H; subst c; reflexivity).
Qed.

Lemma str_digitos z c : ocorre c (str z) = true -> digito c = true.
Proof.
  unfold str, NilZero.string_of_int, NilZero.string_of_uint.
  assert (Hu : forall d, ocorre c match d with
                                  | Decimal.Nil => "0"%string
                                  | _ => NilEmpty.string_of_uint d
                                  end = true -> digito c = true).
  { intros d. destruct d; try apply uint_digitos.
    cbn [ocorre]. rewrite orb_false_r. intros H. apply Ascii.eqb_eq in H.
    subst c. reflexivity. }
  destruct (Z.to_int z) as [d|d]; [apply Hu|].
  cbn [ocorre]. intros H. apply orb_prop in H. destruct H as [H|H];
    [|now apply (Hu d)].
  apply Ascii.eqb_eq in H. subst c. reflexivity.
Qed.

(** A character that is neither a digit nor the sign does not occur in the
    rendering of an integer. *)
Lemma str_sem c z : digito c = false -> ocorre c (str z) = false.
Proof.
  intros Hc. destruct (ocorre c (str z)) eqn:Ho; [|reflexivity].
  apply str_digitos in Ho. congruence.
Qed.

Lemma str_inj a b : str a = str b -> a = b.
Proof.
  unfold str. intros H.
  assert (Hi : forall z, NilZero.int_of_string
                           (NilZero.string_of_int (Z.to_int z))
                         = Some (Z.to_int z)).
  { intros z. apply NilZero.isi; destruct z; cbn; try discriminate;
      intros [= E]; now apply DecimalPos.Unsigned.to_uint_nonnil in E. }
  apply DecimalZ.to_int_inj.
  pose proof (Hi a) as Ha. rewrite H, Hi in Ha. congruence.
Qed.

Ltac descascar H :=
  repeat first [discriminate H | apply String_inj in H].

Ltac cortar H c :=
  apply (corte_unico c) in H;
  [destruct H as [?H H] | apply str_sem; reflexivity
                        | apply str_sem; reflexivity].

Lemma var_name_inj t s p t' s' p' :
  var_name t s p = var_name t' s' p' -> t = t' /\ s = s' /\ p = p'.
Proof.
  unfold var_name. cbn [String.append]. intros H.
  descascar H. cortar H "_"%char. cortar H "_"%char.
  repeat split; now apply str_inj.
Qed.

Lemma var_name_sem c t s p :
  digito c = false -> Ascii.eqb "x" c = false -> Ascii.eqb "_" c = false ->
  ocorre c (var_name t s p) = false.
Proof.
  intros Hd Hx Hu. unfold var_name. cbn [String.append ocorre].
  rewrite !ocorre_append. cbn [ocorre].
  rewrite !ocorre_append. cbn [ocorre].
  rewrite !(str_sem c) by assumption. rewrite Hx, Hu. reflexivity.
Qed.

(** ** Names of constraints *)

(** What identifies a constraint of the model. *)
Inductive etiqueta : Type :=
| ECont (t s p0 p : Z)
| EAgendada (t : Z)
| EUso (s t : Z)
| ERestricao (a b p : Z)
| EOrdem (uc e l : Z).

Definition cont_nome (var_start var : string) : string :=
  "cont_" +++ var_start +++ "_" +++ var.
Definition agendada_nome (t : Z) : string :=
  "turma_" +++ str t +++ "_agendada".
Definition uso_nome (s t : Z) : string :=
  "sala_" +++ str s +++ "_uso_para_turma_" +++ str t.
Definition restricao_nome (a b p : Z) : string :=
  "restricao_UC" +++ str a +++ "_UC" +++ str b +++ "_periodo_" +++ str p.
Definition ordem_nome (uc e l : Z) : string :=
  "ordem_uc_" +++ str uc +++ "_turma_" +++ str e +++ "_" +++ str l.

Definition nome_etiqueta (e : etiqueta) : string :=
  match e with
  | ECont t s p0 p => cont_nome (var_name t s p0) (var_name t s p)
  | EAgendada t => agendada_nome t
  | EUso s t => uso_nome s t
  | ERestricao a b p => restricao_nome a b p
  | EOrdem uc e l => ordem_nome uc e l
  end.

Lemma var_name_sem_colon t s p : ocorre ":" (var_name t s p) = false.
Proof. now apply var_name_sem. Qed.

Ltac nome_passo :=
  rewrite nome_de_append
    by first [ reflexivity | assumption | apply var_name_sem_colon
             | apply str_sem; reflexivity ].

Lemma nome_cont v0 v :
  ocorre ":" v0 = false -> ocorre ":" v = false ->
  nome_de (cont_constraint v0 v) = cont_nome v0 v.
Proof.
  intros H0 H. unfold cont_constraint, cont_nome.
  do 4 nome_passo. now rewrite append_nil_r.
Qed.

Lemma nome_agendada t vars dur :
  nome_de (allocation_constraint t vars dur) = agendada_nome t.
Proof.
  unfold allocation_constraint, agendada_nome.
  do 2 nome_passo. reflexivity.
Qed.

Lemma nome_uso s t vars dur :
  nome_de (sala_constraint s t vars dur) = uso_nome s t.
Proof.
  unfold sala_constraint, uso_nome.
  do 4 nome_passo. now rewrite append_nil_r.
Qed.

Lemma nome_restricao a b p vars :
  nome_de (restricao_uc_constraint a b p vars) = restricao_nome a b p.
Proof.
  unfold restricao_uc_constraint, restricao_nome.
  rewrite !append_assoc.
  do 6 nome_passo. now rewrite append_nil_r.
Qed.

Lemma nome_ordem uc e l :
  nome_de (ordem_constraint uc e l) = ordem_nome uc e l.
Proof.
  unfold ordem_constraint, ordem_nome.
  do 6 nome_passo. now rewrite append_nil_r.
Qed.

Ltac resolver_str :=
  repeat match goal with E : str _ = str _ |- _ => apply str_inj in E end;
  congruence.

Lemma nome_etiqueta_inj e1 e2 :
  nome_etiqueta e1 = nome_etiqueta e2 -> e1 = e2.
Proof.
  destruct e1, e2; intros H;
    unfold nome_etiqueta, cont_nome, agendada_nome, uso_nome,
      restricao_nome, ordem_nome, var_name in H;
    rewrite ?append_assoc in H; cbn [String.append] in H;
    try (descascar H; fail).
  - descascar H. cortar H "_"%char. cortar H "_"%char. cortar H "_"%char.
    descascar H. cortar H "_"%char. cortar H "_"%char.
    resolver_str.
  - descascar H. cortar H "_"%char.
    resolver_str.
  - descascar H. cortar H "_"%char. descascar H.
    resolver_str.
  - descascar H. cortar H "_"%char. descascar H. cortar H "_"%char.
    descascar H.
    resolver_str.
  - descascar H. cortar H "_"%char. descascar H. cortar H "_"%char.
    resolver_str.
Qed.

(** ** The constraints written for a placement *)

(** The three families in the order of the writes, for the variables of a
    block. *)
Definition linhas_de_vars (t s : Z) (dur : nat) (uc_variables : list string)
  : list string :=
  match uc_variables with
  | [] => []
  | var_start :: resto =>
      map (cont_constraint var_start) resto
      ++ [allocation_constraint t uc_variables dur;
          sala_constraint s t uc_variables dur]
  end.

Definition restricoes_da_colocacao (a : Z * Z * list Z) : list string :=
  linhas_de_vars (turma_de a) (sala_de a) (List.length (periodos_de a))
                 (map (var_name (turma_de a) (sala_de a)) (periodos_de a)).

Definition etiquetas_da_colocacao (a : Z * Z * list Z) : list etiqueta :=
  match periodos_de a with
  | [] => []
  | p0 :: resto =>
      map (ECont (turma_de a) (sala_de a) p0) resto
      ++ [EAgendada (turma_de a); EUso (sala_de a) (turma_de a)]
  end.

Definition turma_da_etiqueta (e : etiqueta) : option Z :=
  match e with
  | ECont t _ _ _ => Some t
  | EAgendada t => Some t
  | EUso _ t => Some t
  | _ => None
  end.

Lemma etiquetas_turma a e :
  In e (etiquetas_da_colocacao a) -> turma_da_etiqueta e = Some (turma_de a).
Proof.
  unfold etiquetas_da_colocacao. destruct (periodos_de a) as [|p0 resto];
    [intros []|].
  rewrite in_app_iff, in_map_iff.
  intros [(p & <- & _)|[<-|[<-|[]]]]; reflexivity.
Qed.

Lemma nomes_da_colocacao a :
  map nome_de (restricoes_da_colocacao a)
  = map nome_etiqueta (etiquetas_da_colocacao a).
Proof.
  unfold restricoes_da_colocacao, etiquetas_da_colocacao, linhas_de_vars.
  destruct (periodos_de a) as [|p0 resto]; [reflexivity|].
  cbn [map]. rewrite !map_app, !map_map. cbn [map].
  rewrite nome_agendada, nome_uso. f_equal.
  apply map_ext. intros p. apply nome_cont; apply var_name_sem_colon.
Qed.

Lemma etiquetas_NoDup a :
  NoDup (periodos_de a) -> NoDup (etiquetas_da_colocacao a).
Proof.
  unfold etiquetas_da_colocacao.
  destruct (periodos_de a) as [|p0 resto]; [constructor|].
  intros Hnd. inversion Hnd as [|? ? _ Hr]; subst.
  apply NoDup_app.
  - apply Finite.Injective_map_NoDup; [|assumption].
    intros x y [= ->]. reflexivity.
  - constructor; [intros [[=]|[]]|]. constructor; [intros []|constructor].
  - intros e He. apply in_map_iff in He. destruct He as (p & <- & _).
    intros [[=]|[[=]|[]]].
Qed.

(** The two fields that [write_once] touches. *)
Definition escrever (lw : list string * list string) (c : string)
  : list string * list string :=
  if py_in c (snd lw) then lw else (fst lw ++ [c], set_add (snd lw) c).

Lemma write_once_escrever st c :
  (lp_file (write_once st c), written_constraints (write_once st c))
  = escrever (lp_file st, written_constraints st) c.
Proof.
  unfold write_once, escrever. cbn [fst snd].
  destruct (py_in c (written_constraints st)); reflexivity.
Qed.

Lemma fold_write_once (f : string -> string) vars st :
  (lp_file (fold_left (fun st v => write_once st (f v)) vars st),
   written_constraints (fold_left (fun st v => write_once st (f v)) vars st))
  = fold_left escrever (map f vars) (lp_file st, written_constraints st).
Proof.
  revert st. induction vars as [|v vars IH]; intros st; [reflexivity|].
  cbn [fold_left map]. rewrite IH, write_once_escrever. reflexivity.
Qed.

Lemma escrever_restricoes_escrever st t s dur vars :
  (lp_file (escrever_restricoes st t s dur vars),
   written_constraints (escrever_restricoes st t s dur vars))
  = fold_left escrever (linhas_de_vars t s dur vars)
              (lp_file st, written_constraints st).
Proof.
  destruct vars as [|v0 resto]; [reflexivity|].
  unfold escrever_restricoes, linhas_de_vars.
  rewrite fold_left_app. cbn [fold_left].
  rewrite !write_once_escrever, fold_write_once. reflexivity.
Qed.

Lemma escrever_novos ls l w :
  NoDup ls -> (forall c, In c ls -> ~ In c w) ->
  fold_left escrever ls (l, w) = (l ++ ls, w ++ ls).
Proof.
  revert l w. induction ls as [|c ls IH]; intros l w Hnd Hfresh.
  - cbn. now rewrite !app_nil_r.
  - inversion Hnd as [|? ? Hc Hnd']; subst.
    cbn [fold_left]. unfold escrever at 2. cbn [fst snd].
    assert (Hcw : py_in c w = false)
      by (apply py_in_false, Hfresh; now left).
    rewrite Hcw. unfold set_add. rewrite Hcw.
    rewrite IH; [now rewrite <- !app_assoc | assumption |].
    intros c' Hc' Hin. apply in_app_iff in Hin.
    destruct Hin as [Hin|[<-|[]]]; [|contradiction].
    apply (Hfresh c'); [now right | assumption].
Qed.

Lemma alocar_lp_written st t s doc dur seq :
  (lp_file (alocar st t s doc dur seq),
   written_constraints (alocar st t s doc dur seq))
  = fold_left escrever (linhas_de_vars t s dur (map (var_name t s) seq))
              (lp_file st, written_constraints st).
Proof.
  unfold alocar. rewrite fold_reservar. cbn [registar lp_file written_constraints].
  rewrite escrever_restricoes_escrever. reflexivity.
Qed.

(** ** The invariant of the output file *)

Lemma em_nomes a c :
  In c (restricoes_da_colocacao a) ->
  exists e, In e (etiquetas_da_colocacao a) /\ nome_etiqueta e = nome_de c.
Proof.
  intros Hc. apply (in_map nome_de) in Hc.
  rewrite nomes_da_colocacao in Hc. apply in_map_iff in Hc.
  destruct Hc as (e & He & Hin). eauto.
Qed.

Lemma restricoes_da_colocacao_NoDup a :
  NoDup (periodos_de a) -> NoDup (restricoes_da_colocacao a).
Proof.
  intros Hnd. apply (NoDup_map_inv nome_de).
  rewrite nomes_da_colocacao.
  apply Finite.Injective_map_NoDup; [|now apply etiquetas_NoDup].
  intros x y. apply nome_etiqueta_inj.
Qed.

Section Ficheiro.
Variable d : dados.

Record InvL (st : estado) : Prop := {
  invl_lp :
    lp_file st = [objective (salas d); subject_to]
                 ++ flat_map restricoes_da_colocacao (agendadas st);
  invl_written :
    written_constraints st
    = flat_map restricoes_da_colocacao (agendadas st);
  invl_unica : NoDup (map turma_de (agendadas st))
}.

Lemma InvL_inicial : InvL (estado_inicial d).
Proof. constructor; cbn; try reflexivity. constructor. Qed.

(** A commitment for a section not yet placed appends exactly the
    constraints of the new placement. *)
Lemma InvL_alocar st t s doc seq :
  InvL st -> contiguo seq = true ->
  ~ In t (map turma_de (agendadas st)) ->
  let st' := alocar st t s doc (List.length seq) seq in
  InvL st'
  /\ lp_file st' = lp_file st ++ restricoes_da_colocacao (t, s, seq).
Proof.
  intros HL Hc Hnovo st'.
  pose proof (alocar_lp_written st t s doc (List.length seq) seq) as Hlw.
  fold st' in Hlw.
  change (linhas_de_vars t s (List.length seq) (map (var_name t s) seq))
    with (restricoes_da_colocacao (t, s, seq)) in Hlw.
  rewrite escrever_novos in Hlw.
  - injection Hlw as Hlp Hw.
    split; [|assumption]. constructor.
    + rewrite Hlp, (invl_lp _ HL). unfold st'. rewrite alocar_agendadas.
      rewrite flat_map_app. cbn [flat_map]. rewrite app_nil_r.
      now rewrite <- app_assoc.
    + rewrite Hw, (invl_written _ HL). unfold st'. rewrite alocar_agendadas.
      rewrite flat_map_app. cbn [flat_map]. now rewrite app_nil_r.
    + unfold st'. rewrite alocar_agendadas, map_app. cbn [map].
      apply NoDup_app; [apply (invl_unica _ HL) | |].
      * constructor; [intros []|constructor].
      * intros x Hx [<-|[]]. contradiction.
  - apply restricoes_da_colocacao_NoDup. now apply contiguo_NoDup.
  - intros c Hc_new Hc_old. rewrite (invl_written _ HL) in Hc_old.
    apply in_flat_map in Hc_old. destruct Hc_old as (a & Ha & Hca).
    apply em_nomes in Hc_new, Hca.
    destruct Hc_new as (e & He & Hne), Hca as (e' & He' & Hne').
    rewrite <- Hne' in Hne. apply nome_etiqueta_inj in Hne. subst e'.
    apply etiquetas_turma in He, He'. rewrite He in He'.
    injection He' as Ht. apply Hnovo. apply in_map_iff.
    exists a. split; [now symmetry | assumption].
Qed.
End Ficheiro.

Section ExecucaoFicheiro.
Variable d : dados.
Variable ucs : list (Z * Z).
Variables tsala idt : dict Z (list Z).

Lemma passo_casos st row :
  passo d ucs tsala idt st row = st
  \/ exists sem s seq,
      dict_get (uc_semestre ucs) (unidade_curricular_id row) = Some sem
      /\ In s (get_default tsala (id row) [])
      /\ In seq (blocos d (duracao row))
      /\ sobrevive d ucs st (atual idt row sem) s seq = true
      /\ escolha d ucs tsala idt st row = Some (atual idt row sem, (s, seq))
      /\ passo d ucs tsala idt st row
         = alocar st (id row) s (docente_id row) (duracao row) seq.
Proof.
  unfold passo.
  destruct (escolha d ucs tsala idt st row) as [[ta [s seq]]|] eqn:He;
    [right | now left].
  pose proof (escolha_Some _ _ _ _ _ _ _ _ He)
    as (sem & Hsem & -> & Hs & Hb & Hsv).
  exists sem, s, seq. cbn [fst snd] in *. repeat split; auto.
Qed.

Lemma InvL_passo_id st t :
  Inv d st -> InvL d st -> ~ In t (map turma_de (agendadas st)) ->
  InvL d (passo_id d ucs tsala idt st t)
  /\ incl (map turma_de (agendadas (passo_id d ucs tsala idt st t)))
          (map turma_de (agendadas st) ++ [t]).
Proof.
  intros HI HL Hnovo. unfold passo_id.
  destruct (linha d t) as [row|] eqn:Hl;
    [|split; [assumption | apply incl_appl, incl_refl]].
  pose proof (linha_Some _ _ _ Hl) as [_ Hid].
  destruct (passo_casos st row)
    as [->|(sem & s & seq & _ & _ & Hb & Hsv & _ & ->)];
    [split; [assumption | apply incl_appl, incl_refl]|].
  apply sobrevive_true in Hsv. destruct Hsv as (Hc & _).
  apply (blocos_length d) in Hb. rewrite <- Hb, Hid.
  destruct (InvL_alocar d st t s (docente_id row) seq HL Hc Hnovo)
    as [HL' _].
  split; [assumption|].
  rewrite alocar_agendadas, map_app. apply incl_refl.
Qed.

Lemma executar_InvL ts st :
  NoDup ts -> Inv d st -> InvL d st ->
  (forall t, In t ts -> ~ In t (map turma_de (agendadas st))) ->
  InvL d (executar d ucs tsala idt ts st)
  /\ incl (map turma_de (agendadas (executar d ucs tsala idt ts st)))
          (map turma_de (agendadas st) ++ ts).
Proof.
  revert st. induction ts as [|t ts IH]; intros st Hnd HI HL Hnovo.
  - split; [assumption|]. rewrite app_nil_r. apply incl_refl.
  - inversion Hnd as [|? ? Ht Hnd']; subst.
    cbn [executar fold_left].
    destruct (InvL_passo_id st t HI HL (Hnovo t (or_introl eq_refl)))
      as [HL' Hincl].
    destruct (IH (passo_id d ucs tsala idt st t) Hnd'
                 (Inv_passo_id _ _ _ _ _ _ HI) HL') as [HL'' Hincl''].
    + intros t' Ht' Hin. apply Hincl in Hin. apply in_app_iff in Hin.
      destruct Hin as [Hin|[<-|[]]]; [|contradiction].
      apply (Hnovo t'); [now right | assumption].
    + split; [assumption|].
      intros x Hx. apply Hincl'' in Hx. apply in_app_iff in Hx.
      destruct Hx as [Hx|Hx].
      * apply Hincl in Hx. apply in_app_iff in Hx. apply in_app_iff.
        destruct Hx as [Hx|[<-|[]]]; [now left | right; now left].
      * apply in_app_iff. right. now right.
Qed.

Lemma NoDup_firstn {A : Type} (k : nat) (l : list A) :
  NoDup l -> NoDup (firstn k l).
Proof.
  intros Hnd. rewrite <- (firstn_skipn k l) in Hnd.
  now apply NoDup_app_remove_r in Hnd.
Qed.

Lemma nth_fora_do_prefixo {A : Type} (k : nat) (l : list A) x :
  NoDup l -> nth_error l k = Some x -> ~ In x (firstn k l).
Proof.
  revert l. induction k as [|k IH]; intros [|a l] Hnd Hx; try easy.
  cbn in Hx. inversion Hnd as [|? ? Ha Hnd']; subst.
  cbn [firstn]. intros [->|Hin].
  - apply Ha. eapply nth_error_In; eauto.
  - now apply (IH l).
Qed.

(** The state after the first [k] sections: reached without an exception,
    and satisfying both invariants; only processed sections are placed. *)
Lemma prefixo_completo (k : nat) :
  exists st,
    fold_m (process_turma d ucs tsala idt) (firstn k (turma_set d))
           (estado_inicial d) = Ok st
    /\ Inv d st /\ InvL d st
    /\ incl (map turma_de (agendadas st)) (firstn k (turma_set d)).
Proof.
  destruct (prefixo_Inv d ucs tsala idt k) as (st & Hrun & -> & HI).
  eexists. split; [eassumption|]. split; [assumption|].
  apply executar_InvL.
  - apply NoDup_firstn, turma_set_NoDup.
  - apply Inv_inicial.
  - apply InvL_inicial.
  - intros t _ [].
Qed.
End ExecucaoFicheiro.

(** ** The groups of sections by unit, and the conflict loops *)

Lemma NoDup_app_disj {A : Type} (l1 l2 : list A) :
  NoDup (l1 ++ l2) -> forall x, In x l1 -> In x l2 -> False.
Proof.
  induction l1 as [|a l1 IH]; cbn; intros Hnd x Hx1 Hx2; [easy|].
  inversion Hnd as [|? ? Ha Hnd']; subst.
  destruct Hx1 as [->|Hx1]; [|eauto].
  apply Ha, in_app_iff. now right.
Qed.

Section Grupos.
Variable d : dados.

(** The table [dict(zip(turmas['id'], rows))] behind the attribute
    dictionaries. *)
Definition linhas : dict Z turma_row :=
  dict_zip (map (fun r => (id r, r)) (turmas d)).

Lemma turma_uc_linhas :
  turma_uc d = map (fun kv => (fst kv, unidade_curricular_id (snd kv))) linhas.
Proof. apply dict_zip_coluna. Qed.

(** The body of the loop that fills [uc_groups], once the class type is
    known. *)
Definition agrupar (acc : dict Z (list Z * list Z)) (turma_id uc_id tipo : Z)
  : dict Z (list Z * list Z) :=
  let acc := match dict_get acc uc_id with
             | Some _ => acc
             | None => dict_set acc uc_id ([], [])
             end in
  let '(early, late) := match dict_get acc uc_id with
                        | Some g => g
                        | None => ([], [])
                        end in
  if py_in tipo [1; 2]
  then dict_set acc uc_id (early ++ [turma_id], late)
  else dict_set acc uc_id (early, late ++ [turma_id]).

Definition grupos_ok (vistos : list Z) (acc : dict Z (list Z * list Z))
  : Prop :=
  NoDup (map fst acc)
  /\ forall uc E L, dict_get acc uc = Some (E, L) ->
                    NoDup (E ++ L) /\ incl (E ++ L) vistos.

Lemma agrupar_ok vistos acc t uc tipo :
  grupos_ok vistos acc -> ~ In t vistos ->
  grupos_ok (vistos ++ [t]) (agrupar acc t uc tipo).
Proof.
  intros [Hnd Hacc] Ht. unfold agrupar.
  set (acc1 := match dict_get acc uc with
               | Some _ => acc
               | None => dict_set acc uc ([], [])
               end).
  assert (Hnd1 : NoDup (map fst acc1)).
  { unfold acc1. destruct (dict_get acc uc); [assumption|].
    now apply dict_set_NoDup. }
  assert (Hacc1 : forall uc' E L, dict_get acc1 uc' = Some (E, L) ->
                                  NoDup (E ++ L) /\ incl (E ++ L) vistos).
  { intros uc' E L. unfold acc1.
    destruct (dict_get acc uc) eqn:Hg; [apply Hacc|].
    rewrite dict_get_set. destruct (keqb_spec uc uc') as [<-|Hne].
    - intros [= <- <-]. split; [constructor | intros x []].
    - apply Hacc. }
  destruct (match dict_get acc1 uc with Some g => g | None => ([], []) end)
    as [early late] eqn:Hg.
  assert (Hel : NoDup (early ++ late) /\ incl (early ++ late) vistos).
  { destruct (dict_get acc1 uc) as [g|] eqn:Hg1.
    - subst g. now apply (Hacc1 uc).
    - injection Hg as <- <-. split; [constructor | intros x []]. }
  destruct Hel as [Hnel Hincl].
  assert (Hnovo : ~ In t (early ++ late)) by (intros Hin; now apply Ht, Hincl).
  assert (Hfim : forall E L,
             NoDup (E ++ L) -> incl (E ++ L) (vistos ++ [t]) ->
             grupos_ok (vistos ++ [t]) (dict_set acc1 uc (E, L))).
  { intros E L HndEL HinclEL. split; [now apply dict_set_NoDup|].
    intros uc' E' L'. rewrite dict_get_set.
    destruct (keqb_spec uc uc') as [<-|Hne].
    - intros [= <- <-]. auto.
    - intros Hg'. destruct (Hacc1 _ _ _ Hg') as [H1 H2].
      split; [assumption | now apply incl_appl]. }
  destruct (py_in tipo [1; 2]); apply Hfim.
  - rewrite <- app_assoc. apply NoDup_app.
    + now apply NoDup_app_remove_r in Hnel.
    + apply NoDup_app_remove_l in Hnel. now constructor;
        [rewrite in_app_iff in Hnovo; tauto|].
    + intros x Hx [<-|Hl].
      * apply Hnovo, in_app_iff. now left.
      * exact (NoDup_app_disj _ _ Hnel x Hx Hl).
  - intros x Hx. rewrite <- app_assoc in Hx. apply in_app_iff in Hx.
    apply in_app_iff. destruct Hx as [Hx|[<-|Hx]].
    + left. apply Hincl, in_app_iff. now left.
    + right. now left.
    + left. apply Hincl, in_app_iff. now right.
  - rewrite app_assoc. apply NoDup_app; [assumption | | ].
    + constructor; [intros [] | constructor].
    + intros x Hx [<-|[]]. contradiction.
  - intros x Hx. rewrite app_assoc in Hx. apply in_app_iff in Hx.
    apply in_app_iff. destruct Hx as [Hx|[<-|[]]].
    + left. now apply Hincl.
    + right. now left.
Qed.

Lemma uc_groups_fold (itens : list (Z * turma_row)) acc vistos :
  (forall t row, In (t, row) itens -> linha d t = Some row) ->
  NoDup (map fst itens) ->
  (forall t, In t (map fst itens) -> ~ In t vistos) ->
  grupos_ok vistos acc ->
  exists groups,
    fold_m (fun acc kv =>
              let '(turma_id, uc_id) := kv in
              tipo_aula <- dict_subscript (turma_tipo d) turma_id ;;
              let acc := match dict_get acc uc_id with
                         | Some _ => acc
                         | None => dict_set acc uc_id ([], [])
                         end in
              let '(early, late) :=
                match dict_get acc uc_id with
                | Some g => g
                | None => ([], [])
                end in
              if py_in tipo_aula [1; 2]
              then Ok (dict_set acc uc_id (early ++ [turma_id], late))
              else Ok (dict_set acc uc_id (early, late ++ [turma_id])))
           (map (fun kv => (fst kv, unidade_curricular_id (snd kv))) itens)
           acc
    = Ok groups
    /\ grupos_ok (vistos ++ map fst itens) groups.
Proof.
  revert acc vistos.
  induction itens as [|[t row] itens IH]; intros acc vistos Hl Hnd Hv Hok.
  - exists acc. split; [reflexivity|]. cbn. now rewrite app_nil_r.
  - cbn [map fold_m fst snd]. unfold dict_subscript at 1, turma_tipo at 1.
    rewrite coluna_get, (Hl t row) by now left. cbn [option_map bind].
    inversion Hnd as [|? ? Ht Hnd']; subst.
    pose proof (agrupar_ok vistos acc t (unidade_curricular_id row)
                           (tipo_aula_id row) Hok
                           (Hv t (or_introl eq_refl))) as Hok'.
    unfold agrupar in Hok'.
    destruct (IH (agrupar acc t (unidade_curricular_id row)
                          (tipo_aula_id row)) (vistos ++ [t]))
      as (groups & Hrun & Hg).
    + intros t' row' Hin. apply Hl. now right.
    + assumption.
    + intros t' Ht' Hin. apply in_app_iff in Hin.
      destruct Hin as [Hin|[<-|[]]]; [|contradiction].
      apply (Hv t'); [now right | assumption].
    + exact Hok'.
    + exists groups. split.
      * rewrite <- Hrun. unfold agrupar.
        destruct (match dict_get match dict_get acc (unidade_curricular_id row)
                                  with Some _ => acc
                                  | None => dict_set acc
                                              (unidade_curricular_id row)
                                              ([], [])
                                  end (unidade_curricular_id row)
                  with Some g => g | None => ([], []) end) as [early late].
        destruct (py_in (tipo_aula_id row) [1; 2]); reflexivity.
      * cbn [map fst]. now rewrite <- app_assoc in Hg.
Qed.

Lemma uc_groups_ok :
  exists groups,
    uc_groups d = Ok groups
    /\ NoDup (map fst groups)
    /\ forall uc E L, In (uc, (E, L)) groups -> NoDup E /\ NoDup L.
Proof.
  unfold uc_groups. rewrite turma_uc_linhas.
  destruct (uc_groups_fold linhas [] []) as (groups & Hrun & Hnd & Hg).
  - intros t row Hin. unfold linha. apply dict_In_get; [|assumption].
    apply dict_zip_NoDup.
  - apply dict_zip_NoDup.
  - intros t _ [].
  - split; [constructor | intros uc E L [=]].
  - exists groups. split; [assumption|]. split; [assumption|].
    intros uc E L Hin. apply dict_In_get in Hin; [|assumption].
    destruct (Hg _ _ _ Hin) as [HndEL _].
    split; [now apply NoDup_app_remove_r in HndEL
           | now apply NoDup_app_remove_l in HndEL].
Qed.

Lemma restricoes_conflito_vazio texto (m : dict (Z * Z) (list string)) :
  (forall key l, In (key, l) m -> List.length l = 1%nat) ->
  restricoes_conflito d texto m = Ok [].
Proof.
  induction m as [|[key l] m IH]; intros Hm; [reflexivity|].
  cbn [restricoes_conflito]. rewrite (Hm key l) by now left.
  cbn [bind Z.of_nat Z.ltb]. cbn.
  rewrite IH; [reflexivity|]. intros k' l' Hin. apply (Hm k' l'). now right.
Qed.
End Grupos.

(** ** The whole run *)

Lemma Inv_dpv_um d st key l :
  Inv d st -> In (key, l) (docente_periodo_vars st) -> List.length l = 1%nat.
Proof.
  intros HI Hin. destruct key as [doc p].
  apply dict_In_get in Hin; [|apply (inv_chaves_dpv _ _ HI)].
  apply (inv_dpv _ _ HI) in Hin. destruct Hin as (t & s & -> & _).
  reflexivity.
Qed.

Lemma Inv_spv_um d st key l :
  Inv d st -> In (key, l) (sala_periodo_vars st) -> List.length l = 1%nat.
Proof.
  intros HI Hin. destruct key as [s p].
  apply dict_In_get in Hin; [|apply (inv_chaves_spv _ _ HI)].
  apply (inv_spv _ _ HI) in Hin. destruct Hin as (t & -> & _).
  reflexivity.
Qed.

(** [gerar] never raises; its state satisfies the invariants and its output
    is the file of the search followed by the global constraints, the
    ordering constraints and the declarations: the two conflict loops write
    nothing. *)
Lemma gerar_ok (list_of_set : list Z -> list Z) (d : dados)
  (ucs : list (Z * Z)) :
  exists tsala idt groups st,
    turma_sala list_of_set d = Ok tsala
    /\ I_d_turma d = Ok idt
    /\ uc_groups d = Ok groups
    /\ alocar_turmas d ucs tsala idt (estado_inicial d) = Ok st
    /\ Inv d st /\ InvL d st
    /\ NoDup (map fst groups)
    /\ (forall uc E L, In (uc, (E, L)) groups -> NoDup E /\ NoDup L)
    /\ restricoes_conflito d docente_conflito_constraint
                           (docente_periodo_vars st) = Ok []
    /\ restricoes_conflito d sala_conflito_constraint
                           (sala_periodo_vars st) = Ok []
    /\ gerar list_of_set d ucs
       = Ok (st, lp_file st ++ restricoes_globais d
                 ++ restricoes_ordem groups ++ declaracoes d st).
Proof.
  destruct (turma_sala_ok d list_of_set) as (tsala & Hts & _).
  destruct (I_d_turma_ok d) as (idt & Hidt & _).
  destruct (uc_groups_ok d) as (groups & Hg & Hgnd & Hgel).
  destruct (prefixo_completo d ucs tsala idt (List.length (turma_set d)))
    as (st & Hrun & HI & HL & _).
  rewrite firstn_all in Hrun.
  assert (Hcd : restricoes_conflito d docente_conflito_constraint
                                    (docente_periodo_vars st) = Ok []).
  { apply restricoes_conflito_vazio. intros key l.
    now apply (Inv_dpv_um d). }
  assert (Hcs : restricoes_conflito d sala_conflito_constraint
                                    (sala_periodo_vars st) = Ok []).
  { apply restricoes_conflito_vazio. intros key l.
    now apply (Inv_spv_um d). }
  exists tsala, idt, groups, st. repeat (split; [assumption|]).
  unfold gerar. rewrite Hts, Hidt, Hg. cbn [bind].
  unfold alocar_turmas. rewrite Hrun. cbn [bind].
  rewrite Hcd, Hcs. reflexivity.
Qed.

(** ** The identifiers of all constraints of the model *)

Lemma NoDup_flat_map {A B : Type} (f : A -> list B) (l : list A) :
  NoDup l ->
  (forall x, In x l -> NoDup (f x)) ->
  (forall x y, In x l -> In y l -> x <> y ->
               forall z, In z (f x) -> In z (f y) -> False) ->
  NoDup (flat_map f l).
Proof.
  induction l as [|a l IH]; intros Hnd Hf Hdisj; [constructor|].
  inversion Hnd as [|? ? Ha Hnd']; subst. cbn [flat_map].
  apply NoDup_app.
  - apply Hf. now left.
  - apply IH; [assumption | |].
    + intros x Hx. apply Hf. now right.
    + intros x y Hx Hy. apply Hdisj; now right.
  - intros z Hz Hin. apply in_flat_map in Hin. destruct Hin as (y & Hy & Hzy).
    apply (Hdisj a y (or_introl eq_refl) (or_intror Hy)) with (z := z);
      [congruence | assumption | assumption].
Qed.

Lemma NoDup_map_eq {A B : Type} (f : A -> B) (l : list A) x y :
  NoDup (map f l) -> In x l -> In y l -> f x = f y -> x = y.
Proof.
  induction l as [|a l IH]; cbn; intros Hnd Hx Hy Hf; [easy|].
  inversion Hnd as [|? ? Ha Hnd']; subst.
  destruct Hx as [->|Hx], Hy as [->|Hy]; auto.
  - exfalso. apply Ha. rewrite Hf. now apply in_map.
  - exfalso. apply Ha. rewrite <- Hf. now apply in_map.
Qed.

Section Etiquetas.
Variable d : dados.

Definition etiquetas_par (a b p : Z) : list etiqueta :=
  match vars_uc_p d a p, vars_uc_p d b p with
  | [], [] => []
  | _, _ => [ERestricao a b p]
  end.

Definition etiquetas_do_periodo (p : Z) : list etiqueta :=
  etiquetas_par 3 5 p ++ etiquetas_par 11 13 p ++ etiquetas_par 11 14 p
  ++ etiquetas_par 11 15 p ++ etiquetas_par 22 23 p.

Definition etiquetas_globais : list etiqueta :=
  flat_map etiquetas_do_periodo (unique (periodos d)).

Definition etiquetas_ordem (groups : dict Z (list Z * list Z))
  : list etiqueta :=
  flat_map (fun g =>
              let '(uc_id, (early, late)) := g in
              flat_map (fun e => map (EOrdem uc_id e) late) early)
           groups.

Lemma nomes_par a b p :
  map nome_de (restricao_par d a b p)
  = map nome_etiqueta (etiquetas_par a b p).
Proof.
  unfold restricao_par, etiquetas_par.
  destruct (vars_uc_p d a p), (vars_uc_p d b p); cbn [map];
    rewrite ?nome_restricao; reflexivity.
Qed.

Lemma nomes_globais :
  map nome_de (restricoes_globais d) = map nome_etiqueta etiquetas_globais.
Proof.
  unfold restricoes_globais, etiquetas_globais.
  induction (unique (periodos d)) as [|p ps IH]; [reflexivity|].
  cbn [flat_map]. rewrite !map_app, IH. f_equal.
  unfold restricoes_do_periodo, etiquetas_do_periodo.
  rewrite !map_app, !nomes_par. reflexivity.
Qed.

Lemma nomes_ordem groups :
  map nome_de (restricoes_ordem groups)
  = map nome_etiqueta (etiquetas_ordem groups).
Proof.
  unfold restricoes_ordem, etiquetas_ordem.
  induction groups as [|[uc [early late]] groups IH]; [reflexivity|].
  cbn [flat_map]. rewrite !map_app, IH. f_equal.
  induction early as [|e early IHe]; [reflexivity|].
  cbn [flat_map]. rewrite !map_app, IHe. f_equal.
  rewrite !map_map. apply map_ext. intros l. apply nome_ordem.
Qed.

Lemma nomes_colocacoes (ag : list (Z * Z * list Z)) :
  map nome_de (flat_map restricoes_da_colocacao ag)
  = map nome_etiqueta (flat_map etiquetas_da_colocacao ag).
Proof.
  induction ag as [|a ag IH]; [reflexivity|].
  cbn [flat_map]. now rewrite !map_app, IH, nomes_da_colocacao.
Qed.

Lemma etiquetas_par_In a b p e :
  In e (etiquetas_par a b p) -> e = ERestricao a b p.
Proof.
  unfold etiquetas_par.
  destruct (vars_uc_p d a p), (vars_uc_p d b p); cbn;
    intuition congruence.
Qed.

Lemma etiquetas_par_NoDup a b p : NoDup (etiquetas_par a b p).
Proof.
  unfold etiquetas_par.
  destruct (vars_uc_p d a p), (vars_uc_p d b p);
    repeat constructor; intros [].
Qed.

Lemma etiquetas_do_periodo_In p e :
  In e (etiquetas_do_periodo p) ->
  exists a b, e = ERestricao a b p
    /\ In (a, b) [(3, 5); (11, 13); (11, 14); (11, 15); (22, 23)].
Proof.
  unfold etiquetas_do_periodo. rewrite !in_app_iff.
  intros [H|[H|[H|[H|H]]]]; apply etiquetas_par_In in H; subst;
    eexists; eexists; (split; [reflexivity|]); cbn; tauto.
Qed.

Lemma etiquetas_do_periodo_NoDup p : NoDup (etiquetas_do_periodo p).
Proof.
  unfold etiquetas_do_periodo.
  repeat (apply NoDup_app; [apply etiquetas_par_NoDup | |
    intros e He Hin; apply etiquetas_par_In in He; subst e;
    rewrite ?in_app_iff in Hin;
    repeat (destruct Hin as [Hin|Hin];
            [apply etiquetas_par_In in Hin; discriminate|]);
    apply etiquetas_par_In in Hin; discriminate]).
  apply etiquetas_par_NoDup.
Qed.

Lemma etiquetas_globais_NoDup : NoDup etiquetas_globais.
Proof.
  unfold etiquetas_globais. apply NoDup_flat_map.
  - apply unique_NoDup.
  - intros p _. apply etiquetas_do_periodo_NoDup.
  - intros p q _ _ Hpq e Hp Hq.
    apply etiquetas_do_periodo_In in Hp, Hq.
    destruct Hp as (a & b & -> & _), Hq as (a' & b' & [= _ _ E] & _).
    congruence.
Qed.

Lemma etiquetas_ordem_NoDup groups :
  NoDup (map fst groups) ->
  (forall uc E L, In (uc, (E, L)) groups -> NoDup E /\ NoDup L) ->
  NoDup (etiquetas_ordem groups).
Proof.
  intros Hnd Hel. unfold etiquetas_ordem. apply NoDup_flat_map.
  - now apply NoDup_map_inv in Hnd.
  - intros [uc [E L]] Hin. destruct (Hel _ _ _ Hin) as [HE HL].
    apply NoDup_flat_map; [assumption | |].
    + intros e _. apply Finite.Injective_map_NoDup; [|assumption].
      intros x y [= ->]. reflexivity.
    + intros e e' _ _ Hne z Hz Hz'.
      apply in_map_iff in Hz, Hz'.
      destruct Hz as (l & <- & _), Hz' as (l' & [= E1 E2] & _). congruence.
  - intros [uc [E L]] [uc' [E' L']] Hx Hy Hne z Hz Hz'.
    apply in_flat_map in Hz, Hz'.
    destruct Hz as (e & _ & Hz), Hz' as (e' & _ & Hz').
    apply in_map_iff in Hz, Hz'.
    destruct Hz as (l & <- & _), Hz' as (l' & [= E0 E1 E2] & _).
    subst uc'. apply Hne.
    apply (NoDup_map_eq fst groups _ _ Hnd Hx Hy). reflexivity.
Qed.

Lemma etiquetas_colocacoes_NoDup st :
  Inv d st -> InvL d st ->
  NoDup (flat_map etiquetas_da_colocacao (agendadas st)).
Proof.
  intros HI HL. pose proof (invl_unica _ _ HL) as Hu.
  apply NoDup_flat_map.
  - now apply NoDup_map_inv in Hu.
  - intros [[t s] seq] Hin. apply etiquetas_NoDup. cbn.
    apply contiguo_NoDup. now apply (inv_forma _ _ HI t s seq).
  - intros a b Ha Hb Hne e He He'.
    apply etiquetas_turma in He, He'. rewrite He in He'.
    injection He' as Ht. apply Hne.
    now apply (NoDup_map_eq turma_de (agendadas st)).
Qed.

(** The identifiers of all the constraints written by a run. *)
Definition todas_etiquetas (st : estado)
  (groups : dict Z (list Z * list Z)) : list etiqueta :=
  flat_map etiquetas_da_colocacao (agendadas st)
  ++ etiquetas_globais ++ etiquetas_ordem groups.

Lemma todas_etiquetas_NoDup st groups :
  Inv d st -> InvL d st ->
  NoDup (map fst groups) ->
  (forall uc E L, In (uc, (E, L)) groups -> NoDup E /\ NoDup L) ->
  NoDup (todas_etiquetas st groups).
Proof.
  intros HI HL Hnd Hel. unfold todas_etiquetas.
  apply NoDup_app; [now apply etiquetas_colocacoes_NoDup | |].
  - apply NoDup_app;
      [apply etiquetas_globais_NoDup | now apply etiquetas_ordem_NoDup |].
    intros e He Hin. apply in_flat_map in He. destruct He as (p & _ & He).
    apply etiquetas_do_periodo_In in He. destruct He as (a & b & -> & _).
    apply in_flat_map in Hin. destruct Hin as ([uc [E L]] & _ & Hin).
    apply in_flat_map in Hin. destruct Hin as (e & _ & Hin).
    apply in_map_iff in Hin. destruct Hin as (l & [=] & _).
  - intros e He Hin. apply in_flat_map in He. destruct He as (a & _ & He).
    apply etiquetas_turma in He. apply in_app_iff in Hin.
    destruct Hin as [Hin|Hin].
    + apply in_flat_map in Hin. destruct Hin as (p & _ & Hin).
      apply etiquetas_do_periodo_In in Hin.
      destruct Hin as (x & y & -> & _). discriminate.
    + apply in_flat_map in Hin. destruct Hin as ([uc [E L]] & _ & Hin).
      apply in_flat_map in Hin. destruct Hin as (e0 & _ & Hin).
      apply in_map_iff in Hin. destruct Hin as (l & <- & _). discriminate.
Qed.
End Etiquetas.

(** ** The chunks of the output file *)

Definition primeiro (s : string) : option ascii :=
  match s with
  | EmptyString => None
  | String a _ => Some a
  end.

Lemma primeiro_etiqueta e :
  In (primeiro (nome_etiqueta e))
     [Some "c"; Some "t"; Some "s"; Some "r"; Some "o"]%char.
Proof. destruct e; cbn; tauto. Qed.

Lemma primeiro_nome_de c e :
  nome_de c = nome_etiqueta e -> primeiro c = primeiro (nome_etiqueta e).
Proof.
  destruct c as [|a r]; cbn [nome_de].
  - intros H. rewrite <- H. reflexivity.
  - destruct (Ascii.eqb a ":"); intros H; rewrite <- H; [|reflexivity].
    exfalso. destruct e; discriminate H.
Qed.

Lemma restricao_primeiro c e :
  nome_de c = nome_etiqueta e ->
  In (primeiro c) [Some "c"; Some "t"; Some "s"; Some "r"; Some "o"]%char.
Proof.
  intros H. rewrite (primeiro_nome_de c e H). apply primeiro_etiqueta.
Qed.

Ltac primeiro_distinto H :=
  solve [ cbn in H;
          repeat (destruct H as [H|H]; [discriminate H|]); destruct H ].

Lemma length_append a b :
  String.length (a +++ b) = (String.length a + String.length b)%nat.
Proof. induction a as [|x a IH]; cbn; [reflexivity | now rewrite IH]. Qed.

Lemma append_inj_r a b c : a +++ c = b +++ c -> a = b.
Proof.
  revert b. induction a as [|x a IH]; intros [|y b] H; cbn in H.
  - reflexivity.
  - apply (f_equal String.length) in H. cbn in H.
    rewrite length_append in H. lia.
  - apply (f_equal String.length) in H. cbn in H.
    rewrite length_append in H. lia.
  - injection H as -> H. f_equal. now apply IH.
Qed.

Lemma declaration_inj v v' : declaration v = declaration v' -> v = v'.
Proof.
  unfold declaration. cbn [String.append]. intros H.
  apply String_inj in H. now apply append_inj_r in H.
Qed.

Definition restricoes_escritas (d : dados) (st : estado)
  (groups : dict Z (list Z * list Z)) : list string :=
  flat_map restricoes_da_colocacao (agendadas st)
  ++ restricoes_globais d ++ restricoes_ordem groups.

Definition variaveis_declaradas (d : dados) (st : estado) : list string :=
  py_sorted String.leb (variables st)
  ++ py_sorted String.leb (z_variables d).

Lemma nomes_escritas d st groups :
  map nome_de (restricoes_escritas d st groups)
  = map nome_etiqueta (todas_etiquetas d st groups).
Proof.
  unfold restricoes_escritas, todas_etiquetas.
  now rewrite !map_app, nomes_colocacoes, nomes_globais, nomes_ordem.
Qed.

Lemma restricao_escrita_etiqueta d st groups c :
  In c (restricoes_escritas d st groups) ->
  exists e, In e (todas_etiquetas d st groups)
            /\ nome_etiqueta e = nome_de c.
Proof.
  intros Hc. apply (in_map nome_de) in Hc. rewrite nomes_escritas in Hc.
  apply in_map_iff in Hc. destruct Hc as (e & He & Hin). eauto.
Qed.

(** The output of [gerar], part by part. *)
Lemma gerar_partes (list_of_set : list Z -> list Z) (d : dados)
  (ucs : list (Z * Z)) :
  exists st groups,
    Inv d st /\ InvL d st
    /\ NoDup (map fst groups)
    /\ (forall uc E L, In (uc, (E, L)) groups -> NoDup E /\ NoDup L)
    /\ uc_groups d = Ok groups
    /\ gerar list_of_set d ucs
       = Ok (st, [objective (salas d); subject_to]
                 ++ restricoes_escritas d st groups
                 ++ [binary_header]
                 ++ map declaration (variaveis_declaradas d st)
                 ++ [end_marker]).
Proof.
  destruct (gerar_ok list_of_set d ucs)
    as (tsala & idt & groups & st & _ & _ & Hg & _ & HI & HL & Hnd & Hel
        & _ & _ & Hgerar).
  exists st, groups. repeat (split; [assumption|]).
  rewrite Hgerar, (invl_lp _ _ HL). unfold restricoes_escritas, declaracoes,
    variaveis_declaradas.
  rewrite map_app, <- !app_assoc. reflexivity.
Qed.

Lemma variaveis_declaradas_In d st v :
  Inv d st ->
  In v (variaveis_declaradas d st) <->
  (exists t s seq p, In (t, s, seq) (agendadas st) /\ In p seq
                     /\ v = var_name t s p)
  \/ exists s, In s (salas d) /\ v = z_name s.
Proof.
  intros HI. unfold variaveis_declaradas, z_variables.
  rewrite in_app_iff, !py_sorted_In, unique_In, (inv_vars _ _ HI),
    in_map_iff.
  split; (intros [H|H]; [now left | right]);
    destruct H as (s & H1 & H2); exists s; auto.
Qed.

Lemma variaveis_declaradas_NoDup d st :
  Inv d st -> NoDup (variaveis_declaradas d st).
Proof.
  intros HI. unfold variaveis_declaradas. apply NoDup_app.
  - apply py_sorted_NoDup, (inv_vars_nodup _ _ HI).
  - apply py_sorted_NoDup, unique_NoDup.
  - intros v Hv Hz. rewrite py_sorted_In in Hv, Hz.
    apply (inv_vars _ _ HI) in Hv. destruct Hv as (t & s & seq & p & _ & _ & ->).
    unfold z_variables in Hz. rewrite unique_In, in_map_iff in Hz.
    destruct Hz as (s' & Hz & _). discriminate Hz.
Qed.

Lemma chunks_NoDup (salas_id : list Z) (cs vs : list string) :
  NoDup cs -> NoDup vs ->
  (forall c, In c cs ->
     In (primeiro c) [Some "c"; Some "t"; Some "s"; Some "r"; Some "o"]%char) ->
  NoDup ([objective salas_id; subject_to] ++ cs ++ [binary_header]
         ++ map declaration vs ++ [end_marker]).
Proof.
  intros Hcs Hvs Hp.
  assert (Hd : forall c, In c (map declaration vs) ->
                         primeiro c = Some " "%char).
  { intros c Hc. apply in_map_iff in Hc. destruct Hc as (v & <- & _).
    reflexivity. }
  assert (Hresto : forall x,
             In x (cs ++ [binary_header] ++ map declaration vs
                   ++ [end_marker]) ->
             In (primeiro x)
                [Some "c"; Some "t"; Some "s"; Some "r"; Some "o";
                 Some " "; Some "E"]%char
             \/ x = binary_header).
  { intros x Hx. rewrite !in_app_iff in Hx.
    destruct Hx as [Hx|[[<-|[]]|[Hx|[<-|[]]]]].
    - left. apply Hp in Hx. cbn in Hx |- *. tauto.
    - now right.
    - left. rewrite (Hd x Hx). cbn. tauto.
    - left. cbn. tauto. }
  cbn [app]. constructor; [|constructor].
  - intros [H|H]; [discriminate H|].
    apply Hresto in H. destruct H as [H|H]; [|discriminate H].
    primeiro_distinto H.
  - intros H. apply Hresto in H. destruct H as [H|H]; [|discriminate H].
    primeiro_distinto H.
  - apply NoDup_app; [assumption | |].
    + cbn [app]. constructor.
      * rewrite in_app_iff. intros [H|[H|[]]]; [|discriminate H].
        apply Hd in H. discriminate H.
      * apply NoDup_app.
        -- apply Finite.Injective_map_NoDup; [|assumption].
           intros x y. apply declaration_inj.
        -- constructor; [intros []|constructor].
        -- intros x Hx [<-|[]]. apply Hd in Hx. discriminate Hx.
    + intros x Hx Hin. apply Hp in Hx. cbn [app] in Hin.
      destruct Hin as [<-|Hin]; [primeiro_distinto Hx|].
      apply in_app_iff in Hin. destruct Hin as [Hin|[<-|[]]].
      * rewrite (Hd x Hin) in Hx. primeiro_distinto Hx.
      * primeiro_distinto Hx.
Qed.

Lemma nome_sala_conflito s p vars :
  nome_de (sala_conflito_constraint s p vars)
  = "sala_" +++ str s +++ "_periodo_" +++ str p +++ "_conflito".
Proof. unfold sala_conflito_constraint. do 4 nome_passo. reflexivity. Qed.

Lemma sala_conflito_nao_etiqueta s p vars e :
  nome_etiqueta e <> nome_de (sala_conflito_constraint s p vars).
Proof.
  rewrite nome_sala_conflito. intros H.
  destruct e;
    unfold nome_etiqueta, cont_nome, agendada_nome, uso_nome,
      restricao_nome, ordem_nome, var_name in H;
    rewrite ?append_assoc in H; cbn [String.append] in H;
    try (descascar H; fail).
  descascar H. cortar H "_"%char. descascar H.
Qed.

Lemma chunk_In (salas_id : list Z) (cs vs : list string) c :
  In c ([objective salas_id; subject_to] ++ cs ++ [binary_header]
        ++ map declaration vs ++ [end_marker]) <->
  c = objective salas_id \/ c = subject_to \/ In c cs \/ c = binary_header
  \/ (exists v, In v vs /\ c = declaration v) \/ c = end_marker.
Proof.
  rewrite !in_app_iff, in_map_iff. cbn [In]. split.
  - intros [[H|[H|[]]]|[H|[[H|[]]|[(v & H & Hv)|[H|[]]]]]]; eauto 10.
  - intros [H|[H|[H|[H|[(v & Hv & H)|H]]]]]; eauto 10.
Qed.

(** A chunk whose name is the name of an identifier is a constraint of the
    run with that identifier. *)
Lemma chunk_com_etiqueta d st groups c e :
  In c ([objective (salas d); subject_to] ++ restricoes_escritas d st groups
        ++ [binary_header] ++ map declaration (variaveis_declaradas d st)
        ++ [end_marker]) ->
  nome_de c = nome_etiqueta e ->
  In c (restricoes_escritas d st groups)
  /\ In e (todas_etiquetas d st groups).
Proof.
  intros Hc Hn. pose proof (restricao_primeiro c e Hn) as Hp.
  apply chunk_In in Hc.
  destruct Hc as [->|[->|[Hc|[->|[(v & _ & ->)| ->]]]]];
    try (primeiro_distinto Hp).
  split; [assumption|].
  apply restricao_escrita_etiqueta in Hc. destruct Hc as (e' & He' & Hn').
  rewrite Hn in Hn'. apply nome_etiqueta_inj in Hn'. now subst e'.
Qed.

Lemma etiqueta_de_turma_colocada d st groups e t :
  In e (todas_etiquetas d st groups) ->
  turma_da_etiqueta e = Some t ->
  exists a, In a (agendadas st) /\ turma_de a = t.
Proof.
  unfold todas_etiquetas. rewrite !in_app_iff. intros [He|[He|He]] Ht.
  - apply in_flat_map in He. destruct He as (a & Ha & He).
    apply etiquetas_turma in He. exists a. split; [assumption|]. congruence.
  - apply in_flat_map in He. destruct He as (p & _ & He).
    apply etiquetas_do_periodo_In in He. destruct He as (x & y & -> & _).
    discriminate.
  - apply in_flat_map in He. destruct He as ([uc [E L]] & _ & He).
    apply in_flat_map in He. destruct He as (e0 & _ & He).
    apply in_map_iff in He. destruct He as (l & <- & _). discriminate.
Qed.

(** ** What the search admits *)

Section Admissao.
Variable d : dados.
Variable ucs : list (Z * Z).
Variables tsala idt : dict Z (list Z).

(** A logged placement was a candidate of its section: the unit of the
    section has a semester, the room is a permitted one, the block is a
    window of the ordered periods and holds no period at which the teacher
    is unavailable. *)
Definition admitida (a : Z * Z * list Z) : Prop :=
  exists row sem,
    linha d (turma_de a) = Some row
    /\ dict_get (uc_semestre ucs) (unidade_curricular_id row) = Some sem
    /\ In (sala_de a) (get_default tsala (turma_de a) [])
    /\ In (periodos_de a) (blocos d (duracao row))
    /\ forall p, In p (periodos_de a) ->
                 ~ In p (get_default idt (turma_de a) []).

Lemma conflito_sala_docente_indisponivel st indisp s doc seq p :
  conflito_sala_docente st indisp s doc seq = false ->
  In p seq -> ~ In p indisp.
Proof.
  unfold conflito_sala_docente. intros Hc Hp Hin.
  apply orb_false_elim in Hc. destruct Hc as [Hc _].
  apply orb_false_elim in Hc. destruct Hc as [_ Hc].
  assert (Ht : existsb (fun p => py_in p indisp) seq = true).
  { apply existsb_exists. exists p. split; [assumption|].
    now apply py_in_true. }
  congruence.
Qed.

Lemma admitida_passo_id st t :
  Forall admitida (agendadas st) ->
  Forall admitida (agendadas (passo_id d ucs tsala idt st t)).
Proof.
  intros Hst. unfold passo_id.
  destruct (linha d t) as [row|] eqn:Hl; [|assumption].
  pose proof (linha_Some _ _ _ Hl) as [_ Hid].
  destruct (passo_casos d ucs tsala idt st row)
    as [->|(sem & s & seq & Hsem & Hs & Hb & Hsv & _ & ->)]; [assumption|].
  rewrite alocar_agendadas. apply Forall_app. split; [assumption|].
  constructor; [|constructor].
  exists row, sem. cbn [turma_de sala_de periodos_de fst snd].
  rewrite Hid in *. repeat split; try assumption.
  intros p Hp. apply sobrevive_true in Hsv. destruct Hsv as (_ & Hc & _).
  cbn [atual ta_indisponiveis ta_docente] in Hc. rewrite Hid in Hc.
  exact (conflito_sala_docente_indisponivel _ _ _ _ _ p Hc Hp).
Qed.

Lemma admitida_executar ts st :
  Forall admitida (agendadas st) ->
  Forall admitida (agendadas (executar d ucs tsala idt ts st)).
Proof.
  revert st. induction ts as [|t ts IH]; intros st Hst; [assumption|].
  cbn [executar fold_left]. apply IH. now apply admitida_passo_id.
Qed.

Lemma sorted_sem_meio (l : list Z) t ts :
  StronglySorted Z.lt (l ++ t :: ts) -> StronglySorted Z.lt (l ++ ts).
Proof.
  induction l as [|a l IH]; cbn [app]; intros Hs.
  - now inversion Hs.
  - inversion Hs as [|? ? Hs' Hall]; subst. constructor; [now apply IH|].
    rewrite Forall_app in *. destruct Hall as [H1 H2].
    split; [assumption | now inversion H2].
Qed.

(** The log grows in the order of the processed sections. *)
Lemma ordem_executar ts st :
  StronglySorted Z.lt (map turma_de (agendadas st) ++ ts) ->
  StronglySorted Z.lt
    (map turma_de (agendadas (executar d ucs tsala idt ts st))).
Proof.
  revert st. induction ts as [|t ts IH]; intros st Hs.
  - now rewrite app_nil_r in Hs.
  - cbn [executar fold_left]. apply IH. unfold passo_id.
    destruct (linha d t) as [row|] eqn:Hl; [|now apply sorted_sem_meio in Hs].
    pose proof (linha_Some _ _ _ Hl) as [_ Hid].
    destruct (passo_casos d ucs tsala idt st row)
      as [->|(sem & s & seq & _ & _ & _ & _ & _ & ->)];
      [now apply sorted_sem_meio in Hs|].
    rewrite alocar_agendadas, map_app, <- app_assoc, Hid. exact Hs.
Qed.
End Admissao.



Lemma indisponiveis_In d doc p :
  In p (indisponiveis d doc) <-> In (doc, p) (indisponibilidade_docente d).
Proof.
  unfold indisponiveis. rewrite in_map_iff. split.
  - intros [[a b] [<- Hin]]. apply filter_In in Hin.
    destruct Hin as [Hin Heq]. cbn [fst snd] in *.
    apply Z.eqb_eq in Heq. now subst a.
  - intros Hin. exists (doc, p). split; [reflexivity|].
    apply filter_In. split; [assumption|]. apply Z.eqb_refl.
Qed.

(** The final state of [gerar], with what the search admitted. *)
Lemma gerar_admitidas (list_of_set : list Z -> list Z) (d : dados)
  (ucs : list (Z * Z)) :
  exists st chunks,
    gerar list_of_set d ucs = Ok (st, chunks)
    /\ StronglySorted Z.lt (map turma_de (agendadas st))
    /\ forall t s seq,
        In (t, s, seq) (agendadas st) ->
        exists row sem,
          linha d t = Some row
          /\ dict_get (uc_semestre ucs) (unidade_curricular_id row)
             = Some sem
          /\ In s (list_of_set (salas_da_uc d (unidade_curricular_id row)))
          /\ In seq (blocos d (duracao row))
          /\ forall p, In p seq ->
                ~ In (docente_id row, p) (indisponibilidade_docente d).
Proof.
  destruct (gerar_ok list_of_set d ucs)
    as (tsala & idt & groups & st & Hts & Hidt & _ & Hrun & _ & _ & _ & _
        & _ & _ & Hgerar).
  rewrite alocar_turmas_ok in Hrun. injection Hrun as Hst.
  destruct (turma_sala_ok d list_of_set) as (tsala' & Hts' & Htin & _).
  rewrite Hts in Hts'. injection Hts' as <-.
  destruct (I_d_turma_ok d) as (idt' & Hidt' & Hiin & _).
  rewrite Hidt in Hidt'. injection Hidt' as <-.
  exists st. eexists. split; [exact Hgerar|]. subst st. split.
  - apply ordem_executar. cbn [estado_inicial agendadas map app].
    apply turma_set_sorted.
  - intros t s seq Hin.
    pose proof (admitida_executar d ucs tsala idt (turma_set d)
                  (estado_inicial d) (Forall_nil _)) as Hall.
    rewrite Forall_forall in Hall. specialize (Hall _ Hin).
    destruct Hall as (row & sem & Hl & Hsem & Hs & Hb & Hp).
    cbn [turma_de sala_de periodos_de fst snd] in *.
    pose proof (linha_In_turma_set _ _ _ Hl) as Ht.
    exists row, sem. split; [assumption|]. split; [assumption|].
    unfold get_default in Hs, Hp. rewrite (Htin t Ht) in Hs.
    rewrite (Hiin t Ht) in Hp. unfold uc_de in Hs. unfold docente_da in Hp.
    rewrite Hl in Hs, Hp. split; [assumption|]. split; [assumption|].
    intros p Hps Hind. apply (Hp p Hps). now apply indisponiveis_In.
Qed.

(** ** The rooms of the logged placements *)

Lemma keys_of_set_slot table i key x :
  In x (keys_of (set_slot table i key)) -> x = key \/ In x (keys_of table).
Proof.
  revert i. induction table as [|e table IH]; intros i; [intros []|].
  destruct i as [|i]; cbn [set_slot keys_of flat_map]; rewrite !in_app_iff.
  - intros [[<-|[]]|Hx]; [now left | right; now right].
  - intros [Hx|Hx]; [right; now left|].
    destruct (IH i Hx) as [->|Hk]; [now left | right; now right].
Qed.

Lemma keys_of_insert_key compara table key x :
  In x (keys_of (fst (insert_key compara table key))) ->
  x = key \/ In x (keys_of table).
Proof.
  unfold insert_key. destruct (probe _ _ _ _ _ _ _); cbn [fst]; auto.
  apply keys_of_set_slot.
Qed.

Lemma keys_of_repeat_None n : keys_of (repeat None n) = [].
Proof. induction n as [|n IH]; [reflexivity | exact IH]. Qed.

Lemma keys_of_inserir_todas compara ks table x :
  In x (keys_of (fold_left (fun t k => fst (insert_key compara t k)) ks
                           table)) ->
  In x ks \/ In x (keys_of table).
Proof.
  revert table. induction ks as [|k ks IH]; intros table; [now right|].
  cbn [fold_left]. intros Hx. destruct (IH _ Hx) as [Hk|Hk].
  - left. now right.
  - destruct (keys_of_insert_key _ _ _ _ Hk) as [->|Ht];
      [left; now left | now right].
Qed.

Lemma keys_of_set_add_entry table key x :
  In x (keys_of (set_add_entry table key)) ->
  x = key \/ In x (keys_of table).
Proof.
  unfold set_add_entry.
  pose proof (keys_of_insert_key true table key x) as Hi.
  destruct (insert_key true table key) as [table' novo]. cbn [fst] in Hi.
  destruct novo; [|exact Hi].
  destruct (_ <? _); [exact Hi|].
  unfold set_table_resize. intros Hx.
  apply keys_of_inserir_todas in Hx. rewrite keys_of_repeat_None in Hx.
  destruct Hx as [Hx|[]]. now apply Hi.
Qed.

(** [list(set(l))], in the order of CPython, holds elements of [l] only. *)
Lemma cpython_list_of_set_In (l : list Z) x :
  In x (cpython_list_of_set l) -> In x l.
Proof.
  unfold cpython_list_of_set.
  assert (H : forall table,
             In x (keys_of (fold_left set_add_entry l table)) ->
             In x l \/ In x (keys_of table)).
  { induction l as [|k l IH]; intros table; [now right|].
    cbn [fold_left]. intros Hx. destruct (IH _ Hx) as [Hk|Hk].
    - left. now right.
    - destruct (keys_of_set_add_entry _ _ _ Hk) as [->|Ht];
        [left; now left | now right]. }
  intros Hx. apply H in Hx. rewrite keys_of_repeat_None in Hx.
  now destruct Hx as [Hx|[]].
Qed.

Lemma salas_da_uc_In d uc s :
  In s (salas_da_uc d uc) <-> In (uc, s) (uc_sala d).
Proof.
  unfold salas_da_uc. rewrite in_map_iff. split.
  - intros [[a b] [<- Hin]]. apply filter_In in Hin.
    destruct Hin as [Hin Heq]. cbn [fst snd] in *.
    apply Z.eqb_eq in Heq. now subst a.
  - intros Hin. exists (uc, s). split; [reflexivity|].
    apply filter_In. split; [assumption|]. apply Z.eqb_refl.
Qed.

(** When [uc_sala] names rows of [salas] only, the room of every logged
    placement is a row of [salas]. *)
Lemma agendadas_em_salas (list_of_set : list Z -> list Z) (d : dados)
  (ucs : list (Z * Z)) (tsala idt : dict Z (list Z)) (ts : list Z) :
  (forall l s, In s (list_of_set l) -> In s l) ->
  (forall uc s, In (uc, s) (uc_sala d) -> In s (salas d)) ->
  turma_sala list_of_set d = Ok tsala ->
  forall a,
    In a (agendadas (executar d ucs tsala idt ts (estado_inicial d))) ->
    In (sala_de a) (salas d).
Proof.
  intros Hset Hsalas Hts a Hin.
  pose proof (admitida_executar d ucs tsala idt ts (estado_inicial d)
                (Forall_nil _)) as Hall.
  rewrite Forall_forall in Hall.
  destruct (Hall _ Hin) as (row & sem & Hl & _ & Hs & _).
  pose proof (linha_In_turma_set _ _ _ Hl) as Ht.
  destruct (turma_sala_ok d list_of_set) as (tsala' & Hts' & Htin & _).
  rewrite Hts in Hts'. injection Hts' as <-.
  unfold get_default in Hs. rewrite (Htin _ Ht) in Hs.
  apply Hset, salas_da_uc_In in Hs. eauto.
Qed.

Lemma exclusao_em_todas_as_salas d st :
  exclusao_respeitada_em_salas d st ->
  (forall a, In a (agendadas st) -> In (sala_de a) (salas d)) ->
  exclusao_respeitada d st.
Proof.
  intros He Hs i j a b ua ub Hij Ha Hb Hua Hub Hex.
  apply (He i j a b ua ub Hij Ha Hb Hua Hub Hex);
    apply Hs; eapply nth_error_In; eassumption.
Qed.

(** ** The members of the groups of [uc_groups] *)

Section Membros.
Variable d : dados.





End Membros.


(** ** [int(s)] and [s.split('_')] on the names the builder writes *)

Fixpoint todos (f : ascii -> bool) (s : string) : bool :=
  match s with
  | EmptyString => true
  | String c s' => f c && todos f s'
  end.

Lemma uint_of_char_decimal c o u :
  uint_of_char c o = Some u -> decimal c = true /\ o <> None.
Proof.
  destruct c as [[] [] [] [] [] [] [] []]; destruct o; cbn;
    try discriminate; intros _; split; solve [reflexivity | discriminate].
Qed.

Lemma uint_of_string_decimal s u :
  NilEmpty.uint_of_string s = Some u -> todos decimal s = true.
Proof.
  revert u. induction s as [|c s IH]; intros u; cbn; [reflexivity|].
  intros H. apply uint_of_char_decimal in H. destruct H as [Hc Ho].
  rewrite Hc. destruct (NilEmpty.uint_of_string s) as [u'|]; [|congruence].
  now apply (IH u').
Qed.

Lemma decimal_nao_espaco c : decimal c = true -> py_isspace c = false.
Proof.
  destruct c as [[] [] [] [] [] [] [] []]; vm_compute; congruence.
Qed.

Lemma decimal_nao_sinal c :
  decimal c = true ->
  Ascii.eqb c "-" = false /\ Ascii.eqb c "+" = false
  /\ Ascii.eqb c "_" = false.
Proof.
  destruct c as [[] [] [] [] [] [] [] []]; vm_compute; try discriminate;
    auto.
Qed.

Lemma rstrip_decimal s : todos decimal s = true -> rstrip s = s.
Proof.
  induction s as [|c s IH]; cbn; [reflexivity|].
  intros H. apply andb_prop in H. destruct H as [Hc Hs].
  rewrite (IH Hs), (decimal_nao_espaco c Hc). now destruct s.
Qed.

Lemma agrupados_decimal b s :
  todos decimal s = true -> agrupados b s = Some s.
Proof.
  revert b. induction s as [|c s IH]; intros b; cbn; [reflexivity|].
  intros H. apply andb_prop in H. destruct H as [Hc Hs].
  destruct (decimal_nao_sinal c Hc) as (_ & _ & ->).
  now rewrite Hc, IH.
Qed.

Lemma py_int_digitos negativo s u :
  NilZero.uint_of_string s = Some u ->
  py_int (if negativo : bool then String "-" s else s)
  = Ok (if negativo then - Z.of_uint u else Z.of_uint u).
Proof.
  intros Hu.
  assert (Hd : todos decimal s = true).
  { destruct s as [|c s]; [discriminate|].
    now apply (uint_of_string_decimal _ u). }
  destruct s as [|c s]; [discriminate|].
  pose proof Hd as Hd'. cbn [todos] in Hd'. apply andb_prop in Hd'.
  destruct Hd' as [Hc _].
  pose proof (decimal_nao_espaco c Hc) as Hsp.
  destruct (decimal_nao_sinal c Hc) as (Hm & Hp & _).
  unfold py_int. destruct negativo.
  - cbn [lstrip]. change (py_isspace "-") with false. cbv iota.
    change (rstrip (String "-" (String c s)))
      with (match rstrip (String c s) with
            | EmptyString => if py_isspace "-" then EmptyString
                             else String "-" EmptyString
            | r => String "-" r
            end).
    rewrite (rstrip_decimal _ Hd). cbv iota.
    rewrite Ascii.eqb_refl, (agrupados_decimal _ _ Hd), Hu. reflexivity.
  - cbn [lstrip]. rewrite Hsp, (rstrip_decimal _ Hd), Hm, Hp.
    rewrite (agrupados_decimal _ _ Hd), Hu. reflexivity.
Qed.

(** [int] accepts every text [int_of_str] accepts, with the same value. *)
Lemma py_int_int_of_str s z : int_of_str s = Ok z -> py_int s = Ok z.
Proof.
  unfold int_of_str, NilZero.int_of_string.
  destruct s as [|a s]; [discriminate|].
  destruct (Ascii.eqb_spec a "-") as [->|Hne].
  - destruct (NilZero.uint_of_string s) as [u|] eqn:Hu; [|discriminate].
    cbn [option_map]. intros [= <-].
    exact (py_int_digitos true s u Hu).
  - destruct (NilZero.uint_of_string (String a s)) as [u|] eqn:Hu;
      [|discriminate].
    cbn [option_map]. intros [= <-].
    exact (py_int_digitos false _ u Hu).
Qed.

Lemma int_of_str_str z : int_of_str (str z) = Ok z.
Proof.
  unfold int_of_str, str.
  assert (Hi : NilZero.int_of_string (NilZero.string_of_int (Z.to_int z))
               = Some (Z.to_int z)).
  { apply NilZero.isi; destruct z; cbn; try discriminate;
      intros [= E]; now apply DecimalPos.Unsigned.to_uint_nonnil in E. }
  rewrite Hi. now rewrite DecimalZ.of_to.
Qed.

Lemma py_int_str z : py_int (str z) = Ok z.
Proof. apply py_int_int_of_str, int_of_str_str. Qed.

(** [int] raises nothing but [ValueError]. *)
Lemma py_int_casos s : (exists z, py_int s = Ok z) \/ py_int s = Raise ValueError.
Proof.
  unfold py_int.
  destruct (match rstrip (lstrip s) with
            | EmptyString => _ | String c r => _ end) as [negativo corpo].
  destruct (agrupados false corpo) as [ds|]; [|now right].
  destruct (NilZero.uint_of_string ds); [left; eauto | now right].
Qed.

Lemma split_nao_vazio c s : split c s <> [].
Proof.
  induction s as [|a s IH]; cbn; [discriminate|].
  destruct (Ascii.eqb a c); [discriminate|].
  destruct (split c s); [contradiction | discriminate].
Qed.

Lemma split_sem c a : ocorre c a = false -> split c a = [a].
Proof.
  induction a as [|x a IH]; cbn; [reflexivity|].
  intros H. apply orb_false_elim in H. destruct H as [Hx Ha].
  now rewrite Hx, (IH Ha).
Qed.

Lemma split_corte c a r :
  ocorre c a = false -> split c (a +++ String c r) = a :: split c r.
Proof.
  induction a as [|x a IH]; cbn.
  - intros _. now rewrite Ascii.eqb_refl.
  - intros H. apply orb_false_elim in H. destruct H as [Hx Ha].
    now rewrite Hx, (IH Ha).
Qed.

Lemma str_sem_sublinhado z : ocorre "_" (str z) = false.
Proof. now apply str_sem. Qed.

Lemma split_var_name t s p :
  split "_" (var_name t s p) = [("x" +++ str t)%string; str s; str p].
Proof.
  unfold var_name.
  change ("x" +++ str t +++ "_" +++ str s +++ "_" +++ str p)
    with (("x" +++ str t) +++ String "_" (str s +++ String "_" (str p))).
  assert (Hx : ocorre "_" ("x" +++ str t) = false)
    by (cbn [String.append ocorre]; apply str_sem_sublinhado).
  rewrite (split_corte _ _ _ Hx),
    (split_corte _ _ _ (str_sem_sublinhado s)),
    (split_sem _ _ (str_sem_sublinhado p)).
  reflexivity.
Qed.

Lemma split_z_name s : split "_" (z_name s) = ["z"%string; str s].
Proof.
  unfold z_name. change ("z_" +++ str s) with ("z" +++ String "_" (str s)).
  rewrite (split_corte "_" "z" _ eq_refl),
    (split_sem _ _ (str_sem_sublinhado s)).
  reflexivity.
Qed.

(** ** [get_uc_id_from_var] *)

Lemma get_uc_id_from_var_var_name t s p (m : dict Z Z) :
  get_uc_id_from_var (var_name t s p) m = Ok (dict_get m t).
Proof.
  unfold get_uc_id_from_var. rewrite split_var_name.
  cbn [subscript nth_error bind tail_str String.append].
  now rewrite py_int_str.
Qed.

Lemma get_uc_id_from_var_total v (m : dict Z Z) :
  exists r, get_uc_id_from_var v m = Ok r.
Proof.
  unfold get_uc_id_from_var.
  destruct (split "_" v) as [|cabeca resto] eqn:Hs;
    [now apply split_nao_vazio in Hs|].
  cbn [subscript nth_error bind].
  destruct (py_int_casos (tail_str cabeca)) as [[z ->]| ->]; eauto.
Qed.

(** ** [parse_solution] *)

Section Leitura.
Variable turmas_df : list turma_row.

(** What [parse_solution] reports for a variable [x<t>_<s>_<p>] of value
    1: the attributes of the first row of [turmas] with id [t]. *)
Definition classe_de (t s p : Z) : list classe :=
  match find (fun r => id r =? t) turmas_df with
  | None => []
  | Some turma_info =>
      [{| cl_turma_id := str t;
          cl_unidade_curricular_id := unidade_curricular_id turma_info;
          cl_tipo_aula_id := tipo_aula_id turma_info;
          cl_turma_label_id := turma_label_id turma_info;
          cl_sala_id := str s;
          cl_periodo_id := p |}]
  end.

Lemma ler_variavel_x sc ur t s p q :
  Qeq_bool q 1 = true ->
  ler_variavel turmas_df (sc, ur) {| name := var_name t s p; value := q |}
  = Ok (sc ++ classe_de t s p, ur).
Proof.
  intros Hq. unfold ler_variavel. cbn [name value].
  rewrite Hq, split_var_name.
  change (startswith (var_name t s p) "x") with true. cbn [andb].
  cbv iota. unfold int_ou_continue.
  change (tail_str ("x" +++ str t)) with (str t).
  rewrite !py_int_str. unfold classe_de.
  destruct (find _ turmas_df); [reflexivity | now rewrite app_nil_r].
Qed.

Lemma ler_variavel_z sc ur s q :
  Qeq_bool q 1 = true ->
  ler_variavel turmas_df (sc, ur) {| name := z_name s; value := q |}
  = Ok (sc, set_add ur (str s)).
Proof.
  intros Hq. unfold ler_variavel. cbn [name value].
  rewrite Hq, split_z_name.
  change (startswith (z_name s) "x") with false.
  change (startswith (z_name s) "z_") with true.
  reflexivity.
Qed.

Lemma ler_variavel_outro acc v :
  Qeq_bool (value v) 1 = false -> ler_variavel turmas_df acc v = Ok acc.
Proof.
  intros Hq. unfold ler_variavel. destruct acc as [sc ur].
  now rewrite Hq, !andb_false_r.
Qed.

(** The origin of a reported class: a variable of value 1 whose name has
    three parts, the last one a number and the first one, without its
    first character, the id of a row of [turmas]; the attributes are those
    of the first such row. *)
Definition origem (variaveis : list variavel) (c : classe) : Prop :=
  exists v x_turma_id periodo t turma_info,
    In v variaveis
    /\ startswith (name v) "x" = true
    /\ Qeq_bool (value v) 1 = true
    /\ split "_" (name v) = [x_turma_id; cl_sala_id c; periodo]
    /\ cl_turma_id c = tail_str x_turma_id
    /\ py_int periodo = Ok (cl_periodo_id c)
    /\ py_int (cl_turma_id c) = Ok t
    /\ find (fun r => id r =? t) turmas_df = Some turma_info
    /\ cl_unidade_curricular_id c = unidade_curricular_id turma_info
    /\ cl_tipo_aula_id c = tipo_aula_id turma_info
    /\ cl_turma_label_id c = turma_label_id turma_info.

(** The room a variable [z_...] of value 1 marks as used. *)
Definition sala_usada (v : variavel) (r : string) : Prop :=
  startswith (name v) "z_" = true
  /\ Qeq_bool (value v) 1 = true
  /\ nth_error (split "_" (name v)) 1 = Some r.

Lemma prefix_z_nao_x n :
  startswith n "z_" = true ->
  startswith n "x" = false
  /\ exists r resto, split "_" n = "z"%string :: r :: resto.
Proof.
  destruct n as [|a [|b n]]; cbn [startswith]; try discriminate.
  - now rewrite andb_false_r.
  - rewrite andb_true_r. intros H. apply andb_prop in H.
    destruct H as [Ha Hb]. apply Ascii.eqb_eq in Ha, Hb. subst a b.
    split; [reflexivity|]. cbn [split]. change (Ascii.eqb "z" "_") with false.
    change (Ascii.eqb "_" "_") with true. cbv iota.
    destruct (split "_" n) as [|r resto] eqn:Hs;
      [now apply split_nao_vazio in Hs|].
    exists r, resto. reflexivity.
Qed.

Lemma ler_variavel_passo sc ur v :
  exists sc' ur',
    ler_variavel turmas_df (sc, ur) v = Ok (sc ++ sc', ur')
    /\ Forall (origem [v]) sc'
    /\ (forall r, In r ur' <-> In r ur \/ sala_usada v r)
    /\ (NoDup ur -> NoDup ur').
Proof.
  unfold ler_variavel.
  destruct (startswith (name v) "x" && Qeq_bool (value v) 1) eqn:Hx.
  - apply andb_prop in Hx. destruct Hx as [Hpx Hq].
    assert (Hnz : forall r, ~ sala_usada v r).
    { intros r (Hz & _). apply prefix_z_nao_x in Hz. destruct Hz as [Hz _].
      congruence. }
    assert (Hnada : exists sc' ur',
               Ok (sc, ur) = Ok (sc ++ sc', ur')
               /\ Forall (origem [v]) sc'
               /\ (forall r, In r ur' <-> In r ur \/ sala_usada v r)
               /\ (NoDup ur -> NoDup ur')).
    { exists [], ur. rewrite app_nil_r. split; [reflexivity|].
      split; [constructor|]. split; [|auto].
      intros r. split; [auto | intros [H|H]; [assumption|]].
      now apply Hnz in H. }
    destruct (split "_" (name v)) as [|p1 [|p2 [|p3 [|p4 ps]]]] eqn:Hs;
      try exact Hnada.
    unfold int_ou_continue.
    destruct (py_int_casos p3) as [[per Hper]|Hper]; rewrite Hper;
      [|exact Hnada].
    destruct (py_int_casos (tail_str p1)) as [[t Ht]|Ht]; rewrite Ht;
      [|exact Hnada].
    destruct (find (fun r => id r =? t) turmas_df) as [row|] eqn:Hf;
      [|exact Hnada].
    eexists. exists ur. split; [reflexivity|].
    split; [|split; [|auto]].
    + constructor; [|constructor].
      exists v, p1, p3, t, row. cbn. repeat split; auto.
    + intros r. split; [auto | intros [H|H]; [assumption|]].
      now apply Hnz in H.
  - destruct (startswith (name v) "z_" && Qeq_bool (value v) 1) eqn:Hz.
    + apply andb_prop in Hz. destruct Hz as [Hpz Hq].
      destruct (prefix_z_nao_x _ Hpz) as [_ (r0 & resto & Hs)].
      rewrite Hs. exists [], (set_add ur r0). rewrite app_nil_r.
      split; [reflexivity|]. split; [constructor|]. split.
      * intros r. rewrite set_add_In. unfold sala_usada.
        rewrite Hs. cbn [nth_error]. split.
        -- intros [H| ->]; [now left | right; auto].
        -- intros [H|(_ & _ & [= ->])]; [now left | now right].
      * apply set_add_NoDup.
    + exists [], ur. rewrite app_nil_r. split; [reflexivity|].
      split; [constructor|]. split; [|auto].
      intros r. split; [auto | intros [H|(H1 & H2 & _)]; [assumption|]].
      rewrite H1, H2 in Hz. discriminate.
Qed.

Lemma origem_incl vs vs' c :
  incl vs vs' -> origem vs c -> origem vs' c.
Proof.
  intros Hi (v & a & b & t & row & Hin & H). exists v, a, b, t, row.
  split; [now apply Hi | assumption].
Qed.

Lemma ler_variaveis variaveis sc ur :
  exists sc' ur',
    fold_m (ler_variavel turmas_df) variaveis (sc, ur) = Ok (sc ++ sc', ur')
    /\ Forall (origem variaveis) sc'
    /\ (forall r, In r ur' <->
                  In r ur \/ exists v, In v variaveis /\ sala_usada v r)
    /\ (NoDup ur -> NoDup ur').
Proof.
  revert sc ur. induction variaveis as [|v vs IH]; intros sc ur.
  - exists [], ur. rewrite app_nil_r. split; [reflexivity|].
    split; [constructor|]. split; [|auto].
    intros r. split; [auto | intros [H|(v & [] & _)]; assumption].
  - cbn [fold_m].
    destruct (ler_variavel_passo sc ur v) as (sc1 & ur1 & -> & Ho1 & Hr1 & Hn1).
    cbn [bind].
    destruct (IH (sc ++ sc1) ur1) as (sc2 & ur2 & -> & Ho2 & Hr2 & Hn2).
    exists (sc1 ++ sc2), ur2. rewrite app_assoc. split; [reflexivity|].
    split; [|split; [|auto]].
    + apply Forall_app. split.
      * eapply Forall_impl; [|exact Ho1]. intros c. apply origem_incl.
        intros x [<-|[]]. now left.
      * eapply Forall_impl; [|exact Ho2]. intros c. apply origem_incl.
        intros x Hx. now right.
    + intros r. rewrite Hr2, Hr1. split.
      * intros [[H|H]|(v' & Hv' & H)]; [now left | right | right].
        -- exists v. split; [now left | assumption].
        -- exists v'. split; [now right | assumption].
      * intros [H|(v' & [<-|Hv'] & H)]; [now left; left | now left; right|].
        right. now exists v'.
Qed.

Lemma ler_variaveis_filter variaveis acc :
  fold_m (ler_variavel turmas_df) variaveis acc
  = fold_m (ler_variavel turmas_df)
           (filter (fun v => Qeq_bool (value v) 1) variaveis) acc.
Proof.
  revert acc. induction variaveis as [|v vs IH]; intros acc; [reflexivity|].
  cbn [fold_m filter]. destruct (Qeq_bool (value v) 1) eqn:Hq.
  - cbn [fold_m]. destruct (ler_variavel turmas_df acc v); cbn [bind]; auto.
  - rewrite (ler_variavel_outro _ _ Hq). cbn [bind]. apply IH.
Qed.

(** A solution that sets variables of the builder to 1: placements
    [x<t>_<s>_<p>] and room indicators [z_<s>]. *)
Definition variavel_do_modelo (item : Z * Z * Z + Z) : variavel :=
  {| name := match item with
             | inl (t, s, p) => var_name t s p
             | inr s => z_name s
             end;
     value := 1 |}.

Definition classes_do_item (item : Z * Z * Z + Z) : list classe :=
  match item with
  | inl (t, s, p) => classe_de t s p
  | inr _ => []
  end.

Definition salas_do_item (item : Z * Z * Z + Z) : list string :=
  match item with
  | inl _ => []
  | inr s => [str s]
  end.

Lemma ler_modelo itens sc ur :
  fold_m (ler_variavel turmas_df) (map variavel_do_modelo itens) (sc, ur)
  = Ok (sc ++ flat_map classes_do_item itens,
        fold_left set_add (flat_map salas_do_item itens) ur).
Proof.
  revert sc ur. induction itens as [|[[[t s] p]|s] itens IH]; intros sc ur.
  - cbn. now rewrite app_nil_r.
  - cbn [map fold_m].
    change (variavel_do_modelo (inl (t, s, p)))
      with {| name := var_name t s p; value := 1 |}.
    rewrite ler_variavel_x by reflexivity.
    cbn [bind]. rewrite IH. cbn [flat_map classes_do_item salas_do_item app].
    now rewrite app_assoc.
  - cbn [map fold_m].
    change (variavel_do_modelo (inr s))
      with {| name := z_name s; value := 1 |}.
    rewrite ler_variavel_z by reflexivity.
    cbn [bind]. rewrite IH. reflexivity.
Qed.
End Leitura.

(** ** [create_timetable] *)

Lemma horario_inj i j : horario i = horario j -> i = j.
Proof.
  unfold horario. intros H.
  change (":30 - " +++ str (8 + Z.of_nat i + 1) +++ ":30")
    with (String ":" ("30 - " +++ str (8 + Z.of_nat i + 1) +++ ":30")) in H.
  change (":30 - " +++ str (8 + Z.of_nat j + 1) +++ ":30")
    with (String ":" ("30 - " +++ str (8 + Z.of_nat j + 1) +++ ":30")) in H.
  apply (corte_unico ":") in H; try (apply str_sem; reflexivity).
  destruct H as [H _]. apply str_inj in H. lia.
Qed.

Lemma days_NoDup : NoDup days.
Proof. change days with (unique days). apply unique_NoDup. Qed.

Lemma days_length : List.length days = 5%nat.
Proof. reflexivity. Qed.

Lemma join_snoc sep (l : list string) a :
  (forall x, In x l -> x <> EmptyString) ->
  join sep (l ++ [a])
  = if String.eqb (join sep l) EmptyString then a
    else join sep l +++ sep +++ a.
Proof.
  unfold join. induction l as [|x l IH]; intros Hl; [reflexivity|].
  assert (Hx : x <> EmptyString) by (apply Hl; now left).
  specialize (IH (fun y Hy => Hl y (or_intror Hy))).
  destruct l as [|y l].
  - cbn [app concat]. destruct x; [congruence | reflexivity].
  - change (concat sep ((x :: y :: l) ++ [a]))
      with (x +++ sep +++ concat sep ((y :: l) ++ [a])).
    change (concat sep (x :: y :: l))
      with (x +++ sep +++ concat sep (y :: l)).
    rewrite IH.
    assert (Hy : y <> EmptyString) by (apply Hl; right; now left).
    assert (Hc : String.eqb (concat sep (y :: l)) EmptyString = false).
    { destruct l; cbn [concat]; destruct y; try congruence; reflexivity. }
    rewrite Hc. destruct x; [congruence|]. cbn [String.append String.eqb].
    now rewrite !append_assoc.
Qed.

Lemma allocation_nao_vazia c : allocation c <> EmptyString.
Proof. unfold allocation. discriminate. Qed.

Section Grelha.
Variable max_periods_per_day : positive.

Let M : Z := Z.pos max_periods_per_day.
Let horarios : list string := map horario (py_range M).

(** The cell a class is written to: the row of index [i] and the column of
    index [j].  A day index from -5 to -1 counts from the end of [days]. *)
Definition cai (i j : nat) (cls : classe) : bool :=
  let day_idx := (cl_periodo_id cls - 1) / M in
  let time_idx := (cl_periodo_id cls - 1) mod M in
  (day_idx <? 5) && (-5 <=? day_idx) && (Z.of_nat i =? time_idx)
  && (Z.of_nat j =? (if 0 <=? day_idx then day_idx else day_idx + 5)).

(** Every cell holds the texts of the classes written to it, in order,
    joined by the line break. *)
Definition grelha_ok (timetable : grelha) (cs : list classe) : Prop :=
  forall i j dia,
    (i < Pos.to_nat max_periods_per_day)%nat ->
    nth_error days j = Some dia ->
    dict_get timetable (horario i, dia)
    = Some (join "<br>" (map allocation (filter (cai i j) cs))).

Lemma horarios_length :
  List.length horarios = Pos.to_nat max_periods_per_day.
Proof.
  unfold horarios, py_range, M. rewrite length_map, length_seq. lia.
Qed.

Lemma horarios_nth i :
  (i < Pos.to_nat max_periods_per_day)%nat ->
  nth_error horarios i = Some (horario i).
Proof.
  intros Hi. unfold horarios, py_range, M.
  rewrite nth_error_map, nth_error_seq.
  replace (Z.to_nat (Z.pos max_periods_per_day))
    with (Pos.to_nat max_periods_per_day) by lia.
  destruct (Nat.ltb_spec i (Pos.to_nat max_periods_per_day)); [|lia].
  reflexivity.
Qed.

Lemma grelha_vazia_ok : grelha_ok (grelha_vazia horarios) [].
Proof.
  intros i j dia Hi Hj. cbn [filter map join concat].
  unfold grelha_vazia.
  set (kvs := flat_map _ horarios).
  assert (Hin : In (horario i, dia) (map fst kvs)).
  { apply in_map_iff. exists ((horario i, dia), EmptyString).
    split; [reflexivity|]. unfold kvs. apply in_flat_map.
    exists (horario i). split.
    - eapply nth_error_In. now apply horarios_nth.
    - apply in_map_iff. exists dia. split; [reflexivity|].
      eapply nth_error_In; eauto. }
  apply dict_zip_bound in Hin. destruct Hin as [v Hv]. rewrite Hv.
  apply dict_zip_get in Hv. unfold kvs in Hv. apply in_flat_map in Hv.
  destruct Hv as (h & _ & Hv). apply in_map_iff in Hv.
  destruct Hv as (dia' & [= _ _ <-] & _). reflexivity.
Qed.

Lemma filter_snoc {A : Type} (f : A -> bool) l a :
  filter f (l ++ [a]) = filter f l ++ (if f a then [a] else []).
Proof. rewrite filter_app. reflexivity. Qed.

Lemma colocar_aula_ok timetable cs cls :
  grelha_ok timetable cs ->
  - 5 * M < cl_periodo_id cls ->
  exists timetable',
    colocar_aula max_periods_per_day horarios timetable cls = Ok timetable'
    /\ grelha_ok timetable' (cs ++ [cls]).
Proof.
  intros Hok Hp. unfold colocar_aula. fold M.
  set (day_idx := (cl_periodo_id cls - 1) / M).
  set (time_idx := (cl_periodo_id cls - 1) mod M).
  assert (HM : 0 < M) by (unfold M; lia).
  assert (Ht : 0 <= time_idx < M) by (apply Z.mod_pos_bound; exact HM).
  assert (Hd : -5 <= day_idx).
  { unfold day_idx. apply Z.div_le_lower_bound; lia. }
  rewrite days_length, horarios_length.
  replace (time_idx <? Z.of_nat (Pos.to_nat max_periods_per_day)) with true
    by (symmetry; apply Z.ltb_lt; unfold M in Ht; lia).
  rewrite andb_true_r. change (Z.of_nat 5) with 5.
  destruct (Z.ltb_spec day_idx 5) as [Hlt|Hge].
  - (* the class is written to a cell *)
    set (j0 := Z.to_nat (if 0 <=? day_idx then day_idx else day_idx + 5)).
    assert (Hj0 : (j0 < 5)%nat)
      by (unfold j0; destruct (Z.leb_spec 0 day_idx); lia).
    destruct (nth_error days j0) as [dia0|] eqn:Hdia0;
      [|apply nth_error_None in Hdia0; rewrite days_length in Hdia0; lia].
    assert (Hday : subscript_z days day_idx = Ok dia0).
    { unfold subscript_z, subscript. rewrite days_length.
      change (Z.of_nat 5) with 5.
      destruct (Z.leb_spec 0 day_idx).
      - replace (Z.to_nat day_idx) with j0
          by (unfold j0; destruct (Z.leb_spec 0 day_idx); lia).
        now rewrite Hdia0.
      - destruct (Z.leb_spec (- (5)) day_idx); [|lia].
        replace (Z.to_nat (5 + day_idx)) with j0
          by (unfold j0; destruct (Z.leb_spec 0 day_idx); lia).
        now rewrite Hdia0. }
    set (i0 := Z.to_nat time_idx).
    assert (Hi0 : (i0 < Pos.to_nat max_periods_per_day)%nat)
      by (unfold i0, M in *; lia).
    assert (Htime : subscript_z horarios time_idx = Ok (horario i0)).
    { unfold subscript_z, subscript.
      destruct (Z.leb_spec 0 time_idx); [|lia].
      fold i0. now rewrite horarios_nth. }
    rewrite Hday, Htime. cbn [bind].
    unfold dict_subscript. rewrite (Hok i0 j0 dia0 Hi0 Hdia0). cbn [bind].
    set (celula := join "<br>" (map allocation (filter (cai i0 j0) cs))).
    assert (Hcai0 : cai i0 j0 cls = true).
    { unfold cai. fold day_idx time_idx.
      apply andb_true_intro. split; [apply andb_true_intro; split|].
      - apply andb_true_intro.
        split; [apply Z.ltb_lt; exact Hlt | apply Z.leb_le; exact Hd].
      - apply Z.eqb_eq. unfold i0. lia.
      - apply Z.eqb_eq. unfold j0.
        destruct (Z.leb_spec 0 day_idx); lia. }
    assert (Hnovo : join "<br>" (map allocation
                                     (filter (cai i0 j0) (cs ++ [cls])))
                    = if String.eqb celula EmptyString then allocation cls
                      else celula +++ "<br>" +++ allocation cls).
    { rewrite filter_snoc, Hcai0, map_app. cbn [map].
      apply join_snoc. intros x Hx. apply in_map_iff in Hx.
      destruct Hx as (c' & <- & _). apply allocation_nao_vazia. }
    assert (Houtro : forall i j dia,
               (i < Pos.to_nat max_periods_per_day)%nat ->
               nth_error days j = Some dia ->
               (horario i0, dia0) = (horario i, dia) -> i = i0 /\ j = j0).
    { intros i j dia Hi Hj [= Hh Hdd]. apply horario_inj in Hh. subst dia.
      split; [now symmetry|].
      apply (proj1 (NoDup_nth_error days) days_NoDup).
      - apply nth_error_Some. congruence.
      - congruence. }
    assert (Hfim : forall v,
               join "<br>" (map allocation (filter (cai i0 j0) (cs ++ [cls])))
               = v ->
               grelha_ok (dict_set timetable (horario i0, dia0) v)
                         (cs ++ [cls])).
    { intros v Hv i j dia Hi Hj. rewrite dict_get_set.
      destruct (keqb_spec (horario i0, dia0) (horario i, dia)) as [He|Hne].
      - destruct (Houtro i j dia Hi Hj He) as [-> ->]. now rewrite Hv.
      - rewrite (Hok i j dia Hi Hj), filter_snoc.
        destruct (cai i j cls) eqn:Hc; [|now rewrite app_nil_r].
        exfalso. apply Hne. unfold cai in Hc. fold day_idx time_idx in Hc.
        apply andb_prop in Hc. destruct Hc as [Hc Hjj].
        apply andb_prop in Hc. destruct Hc as [_ Hii].
        apply Z.eqb_eq in Hii, Hjj.
        assert (i = i0) by (unfold i0; lia).
        assert (j = j0) by (unfold j0; lia). subst i j.
        congruence. }
    destruct (String.eqb celula EmptyString); eexists;
      (split; [reflexivity | now apply Hfim]).
  - (* past the last day: the class is dropped *)
    exists timetable. split; [reflexivity|].
    intros i j dia Hi Hj. rewrite (Hok i j dia Hi Hj), filter_snoc.
    replace (cai i j cls) with false; [now rewrite app_nil_r|].
    unfold cai. fold day_idx. destruct (Z.ltb_spec day_idx 5); [lia|].
    reflexivity.
Qed.

Lemma colocar_aula_raise timetable cls :
  cl_periodo_id cls <= - 5 * M ->
  colocar_aula max_periods_per_day horarios timetable cls = Raise IndexError.
Proof.
  intros Hp. unfold colocar_aula. fold M.
  set (day_idx := (cl_periodo_id cls - 1) / M).
  set (time_idx := (cl_periodo_id cls - 1) mod M).
  assert (HM : 0 < M) by (unfold M; lia).
  assert (Ht : 0 <= time_idx < M) by (apply Z.mod_pos_bound; exact HM).
  assert (Hd : day_idx < -5).
  { unfold day_idx. apply Z.div_lt_upper_bound; lia. }
  rewrite days_length, horarios_length. change (Z.of_nat 5) with 5.
  destruct (Z.ltb_spec day_idx 5); [|lia].
  replace (time_idx <? Z.of_nat (Pos.to_nat max_periods_per_day)) with true
    by (symmetry; apply Z.ltb_lt; unfold M in Ht; lia).
  cbn [andb]. unfold subscript_z. rewrite days_length.
  change (Z.of_nat 5) with 5.
  destruct (Z.leb_spec 0 day_idx); [lia|].
  destruct (Z.leb_spec (- (5)) day_idx); [lia|]. reflexivity.
Qed.

Lemma colocar_aulas_ok cs timetable cs0 :
  grelha_ok timetable cs0 ->
  (forall c, In c cs -> - 5 * M < cl_periodo_id c) ->
  exists timetable',
    fold_m (colocar_aula max_periods_per_day horarios) cs timetable
    = Ok timetable'
    /\ grelha_ok timetable' (cs0 ++ cs).
Proof.
  revert timetable cs0. induction cs as [|c cs IH]; intros T cs0 Hok Hp.
  - exists T. rewrite app_nil_r. auto.
  - cbn [fold_m].
    destruct (colocar_aula_ok T cs0 c Hok (Hp c (or_introl eq_refl)))
      as (T1 & -> & Hok1).
    cbn [bind].
    destruct (IH T1 (cs0 ++ [c]) Hok1 (fun x Hx => Hp x (or_intror Hx)))
      as (T2 & -> & Hok2).
    exists T2. split; [reflexivity|]. now rewrite <- app_assoc in Hok2.
Qed.

Lemma colocar_aulas_raise cs timetable cs0 :
  grelha_ok timetable cs0 ->
  (exists c, In c cs /\ cl_periodo_id c <= - 5 * M) ->
  fold_m (colocar_aula max_periods_per_day horarios) cs timetable
  = Raise IndexError.
Proof.
  revert timetable cs0. induction cs as [|c cs IH]; intros T cs0 Hok Hex.
  - destruct Hex as (c & [] & _).
  - cbn [fold_m].
    destruct (Z.le_gt_cases (cl_periodo_id c) (- 5 * M)) as [Hbad|Hgood].
    + now rewrite colocar_aula_raise.
    + destruct (colocar_aula_ok T cs0 c Hok) as (T1 & -> & Hok1); [lia|].
      cbn [bind]. apply (IH T1 (cs0 ++ [c]) Hok1).
      destruct Hex as (c' & [<-|Hin] & Hc'); [lia|]. now exists c'.
Qed.
End Grelha.

(** ** [verificar_colunas] *)

Lemma verificar_tabela_normal tabela columns colunas :
  verificar_tabela tabela columns colunas = Normal tt <->
  forall c, In c colunas -> In c columns.
Proof.
  induction colunas as [|c colunas IH]; cbn [verificar_tabela].
  - split; [intros _ c [] | reflexivity].
  - destruct (py_in c columns) eqn:Hc.
    + apply py_in_true in Hc. rewrite IH. split.
      * intros H x [<-|Hx]; auto.
      * intros H x Hx. apply H. now right.
    + apply py_in_false in Hc. split; [discriminate|].
      intros H. elim Hc. apply H. now left.
Qed.

Lemma verificar_tabela_casos tabela columns colunas :
  verificar_tabela tabela columns colunas = Normal tt
  \/ exists c, verificar_tabela tabela columns colunas
               = Exception (ColunaNaoEncontrada c tabela)
               /\ In c colunas /\ ~ In c columns.
Proof.
  induction colunas as [|c colunas IH]; cbn [verificar_tabela];
    [now left|].
  destruct (py_in c columns) eqn:Hc.
  - destruct IH as [IH|(c' & IH & Hin & Hn)]; [now left | right].
    exists c'. split; [assumption|]. split; [now right | assumption].
  - right. exists c. apply py_in_false in Hc.
    split; [reflexivity|]. split; [now left | assumption].
Qed.

Lemma verificar_tabelas_normal dados required :
  verificar_tabelas dados required = Normal tt <->
  forall tabela colunas,
    In (tabela, colunas) required ->
    exists columns, dict_get dados tabela = Some columns
                    /\ forall c, In c colunas -> In c columns.
Proof.
  induction required as [|[tabela colunas] required IH];
    cbn [verificar_tabelas].
  - split; [intros _ ? ? [] | reflexivity].
  - destruct (dict_get dados tabela) as [columns|] eqn:Hg.
    + destruct (verificar_tabela tabela columns colunas) as [[]|e] eqn:Hv.
      * pose proof (proj1 (verificar_tabela_normal _ _ _) Hv) as Hcols.
        rewrite IH. split.
        -- intros H t' c' [[= <- <-]|Hin]; [eauto | now apply H].
        -- intros H t' c' Hin. apply H. now right.
      * split; [discriminate|]. intros H.
        destruct (H tabela colunas (or_introl eq_refl)) as (cols & Hc & Hall).
        rewrite Hg in Hc. injection Hc as <-.
        apply (proj2 (verificar_tabela_normal tabela _ _)) in Hall.
        congruence.
    + split; [discriminate|]. intros H.
      destruct (H tabela colunas (or_introl eq_refl)) as (cols & Hc & _).
      congruence.
Qed.

Lemma verificar_tabelas_excecao dados required e :
  verificar_tabelas dados required = Exception e ->
  exists antes tabela colunas depois,
    required = antes ++ (tabela, colunas) :: depois
    /\ verificar_tabelas dados antes = Normal tt
    /\ ((e = TabelaNaoEncontrada tabela /\ dict_get dados tabela = None)
        \/ exists columns c,
            e = ColunaNaoEncontrada c tabela
            /\ dict_get dados tabela = Some columns
            /\ In c colunas /\ ~ In c columns).
Proof.
  induction required as [|[tabela colunas] required IH];
    cbn [verificar_tabelas]; [discriminate|].
  destruct (dict_get dados tabela) as [columns|] eqn:Hg.
  - destruct (verificar_tabela_casos tabela columns colunas)
      as [Hv|(c & Hv & Hin & Hn)]; rewrite Hv.
    + intros H. destruct (IH H) as (antes & t' & c' & depois & -> & Ha & He).
      exists ((tabela, colunas) :: antes), t', c', depois.
      split; [reflexivity|]. split; [|exact He].
      cbn [verificar_tabelas]. now rewrite Hg, Hv.
    + intros [= <-]. exists [], tabela, colunas, required.
      split; [reflexivity|]. split; [reflexivity|]. right.
      exists columns, c. auto.
  - intros [= <-]. exists [], tabela, colunas, required.
    split; [reflexivity|]. split; [reflexivity|]. now left.
Qed.

(** ** [preparar_dados]: joins and duplicates *)

Lemma find_filter {A : Type} (f : A -> bool) l :
  find f l = match filter f l with [] => None | b :: _ => Some b end.
Proof.
  induction l as [|a l IH]; cbn; [reflexivity|].
  destruct (f a); [reflexivity | exact IH].
Qed.

Section Duplicados.
Context {A : Type}.
Variable chave : A -> subconjunto.

Lemma drop_duplicates_vistos vistos l rest :
  (forall a, In a l -> In (chave a) vistos) ->
  drop_duplicates chave vistos (l ++ rest)
  = drop_duplicates chave vistos rest.
Proof.
  induction l as [|a l IH]; intros Hl; [reflexivity|].
  cbn [app drop_duplicates].
  rewrite (proj2 (py_in_true _ _) (Hl a (or_introl eq_refl))).
  apply IH. intros x Hx. apply Hl. now right.
Qed.

Lemma drop_duplicates_In vistos l a :
  In a (drop_duplicates chave vistos l) ->
  In a l /\ ~ In (chave a) vistos.
Proof.
  revert vistos. induction l as [|b l IH]; intros vistos; cbn; [easy|].
  destruct (py_in (chave b) vistos) eqn:Hb.
  - intros H. apply IH in H. tauto.
  - apply py_in_false in Hb. intros [<-|H]; [auto|].
    apply IH in H. destruct H as [H1 H2]. split; [now right|].
    intros Hin. apply H2. now right.
Qed.


(** The kept rows have pairwise different keys. *)
Lemma drop_duplicates_NoDup vistos l :
  NoDup (map chave (drop_duplicates chave vistos l)).
Proof.
  revert vistos. induction l as [|b l IH]; intros vistos; cbn;
    [constructor|].
  destruct (py_in (chave b) vistos) eqn:Hb; [apply IH|].
  cbn [map]. constructor; [|apply IH].
  intros Hin. apply in_map_iff in Hin. destruct Hin as (a & Hk & Ha).
  apply drop_duplicates_In in Ha. destruct Ha as [_ Hn].
  apply Hn. left. now symmetry.
Qed.
End Duplicados.

(** Duplicates dropped after a left join: the join may as well be made
    after, with the first matching row only. *)
Lemma drop_duplicates_merge_left {A B : Type} (chave : A -> subconjunto)
  (chave_esq : A -> Z) (chave_dir : B -> Z) (dir : list B) vistos
  (esq : list A) :
  drop_duplicates (fun r => chave (fst r)) vistos
                  (merge_left chave_esq chave_dir esq dir)
  = map (fun a => (a, find (fun b => chave_dir b =? chave_esq a) dir))
        (drop_duplicates chave vistos esq).
Proof.
  unfold merge_left. revert vistos.
  induction esq as [|a esq IH]; intros vistos; [reflexivity|].
  cbn [flat_map drop_duplicates].
  pose proof (find_filter (fun b => chave_dir b =? chave_esq a) dir) as Hf.
  set (bs := filter (fun b => chave_dir b =? chave_esq a) dir) in *.
  destruct (py_in (chave a) vistos) eqn:Ha.
  - rewrite drop_duplicates_vistos; [apply IH|].
    apply py_in_true in Ha.
    intros x Hx. destruct bs as [|b bs].
    + destruct Hx as [<-|[]]. exact Ha.
    + apply in_map_iff in Hx. destruct Hx as (b' & <- & _). exact Ha.
  - assert (Hresto : forall (l : list (A * option B)) rest,
              (forall x, In x l -> fst x = a) ->
              drop_duplicates (fun r => chave (fst r)) (chave a :: vistos)
                              (l ++ rest)
              = drop_duplicates (fun r => chave (fst r)) (chave a :: vistos)
                                rest).
    { intros l rest Hl. apply drop_duplicates_vistos.
      intros x Hx. rewrite (Hl x Hx). now left. }
    cbn [map]. rewrite Hf.
    destruct bs as [|b bs].
    + cbn [app drop_duplicates fst]. rewrite Ha. f_equal. apply IH.
    + cbn [map app drop_duplicates fst]. rewrite Ha. f_equal.
      rewrite Hresto; [apply IH|].
      intros x Hx. apply in_map_iff in Hx. now destruct Hx as (b' & <- & _).
Qed.

(** ** [preparar_dados]: the prepared sections *)

Section Preparacao.
Variable t : tabelas.

(** The imported sections without the later rows that repeat the five
    columns of an earlier one. *)
Definition turmas_distintas : list turma_importada :=
  drop_duplicates chave_importada [] (t_turmas t).

(** The semester of a unit: the one of its first row in
    [unidades_curriculares]. *)
Definition semestre_da_uc (uc : Z) : option Z :=
  option_map snd (find (fun r => fst r =? uc) (t_unidades_curriculares t)).

(** An imported section with the first matching row of each joined
    table. *)
Definition juntar (a : turma_importada) : turma_junta :=
  (a,
   find (fun b => fst b =? ti_unidade_curricular_id a) (t_uc_turma_label t),
   find (fun b => fst b =? ti_unidade_curricular_id a) (t_uc_duracao t),
   find (fun b => fst b =? ti_unidade_curricular_id a) (t_uc_docente t),
   find (fun b => fst b =? ti_unidade_curricular_id a)
        (t_unidades_curriculares t)).

Definition preparada (a : turma_importada) (label_id : Z) : turma_row :=
  {| id := ti_id a;
     unidade_curricular_id := ti_unidade_curricular_id a;
     docente_id := ti_docente_id a;
     tipo_aula_id := ti_tipo_aula_id a;
     duracao := ti_duracao a;
     turma_label_id := label_id |}.

(** The prepared row of an imported section, if the semester of its unit
    leaves the remainder [resto] modulo 2. *)
Definition preparar_turma (resto : Z) (a : turma_importada)
  : list turma_row :=
  match semestre_da_uc (ti_unidade_curricular_id a),
        dict_get turma_label_to_id (ti_turma_label a) with
  | Some s, Some label_id =>
      if s mod 2 =? resto then [preparada a label_id] else []
  | _, _ => []
  end.

Definition turmas_do_semestre (resto : Z) : list turma_row :=
  flat_map (preparar_turma resto) turmas_distintas.

(** The duplicates dropped after the four joins: the distinct imported
    sections, each with its first match in every joined table. *)
Lemma juntar_tabelas_distintas :
  drop_duplicates (fun r : turma_junta => chave_importada (importada r)) []
    (merge_left (fun r => ti_unidade_curricular_id (fst (fst (fst r)))) fst
       (merge_left (fun r => ti_unidade_curricular_id (fst (fst r))) fst
          (merge_left (fun r => ti_unidade_curricular_id (fst r)) fst
             (merge_left ti_unidade_curricular_id fst (t_turmas t)
                         (t_uc_turma_label t))
             (t_uc_duracao t))
          (t_uc_docente t))
       (t_unidades_curriculares t))
  = map juntar turmas_distintas.
Proof.
  unfold turmas_distintas.
  etransitivity;
    [exact (drop_duplicates_merge_left
              (fun r => chave_importada (fst (fst (fst r)))) _ _ _ _ _)|].
  etransitivity;
    [apply f_equal;
     exact (drop_duplicates_merge_left
              (fun r => chave_importada (fst (fst r))) _ _ _ _ _)|].
  etransitivity;
    [apply f_equal; apply f_equal;
     exact (drop_duplicates_merge_left
              (fun r => chave_importada (fst r)) _ _ _ _ _)|].
  etransitivity;
    [apply f_equal; apply f_equal; apply f_equal;
     exact (drop_duplicates_merge_left chave_importada _ _ _ _ _)|].
  rewrite !map_map. reflexivity.
Qed.

Lemma dict_get_valor {K V : Type} `{Key K} (dt : dict K V) k v :
  dict_get dt k = Some v -> In v (map snd dt).
Proof.
  intros Hg. apply dict_get_In in Hg. apply in_map_iff.
  now exists (k, v).
Qed.

Lemma selecionar_juntas resto (l : list turma_importada) :
  flat_map selecionar
    (filter (semestre_mod_2 resto)
       (map (fun r => (r, dict_get turma_label_to_id
                                   (ti_turma_label (importada r))))
            (map juntar l)))
  = flat_map (preparar_turma resto) l.
Proof.
  induction l as [|a l IH]; [reflexivity|].
  cbn [map filter flat_map]. rewrite <- IH.
  unfold semestre_mod_2 at 1, preparar_turma at 1.
  cbn [fst snd].
  change (semestre (juntar a))
    with (semestre_da_uc (ti_unidade_curricular_id a)).
  destruct (semestre_da_uc (ti_unidade_curricular_id a)) as [s|];
    [|reflexivity].
  destruct (s mod 2 =? resto).
  - cbn [flat_map]. unfold selecionar at 1.
    cbn [fst snd].
    change (importada (juntar a)) with a.
    destruct (dict_get turma_label_to_id (ti_turma_label a)) as [i|] eqn:Hi;
      [|reflexivity].
    rewrite (proj2 (py_in_true _ _) (dict_get_valor _ _ _ Hi)).
    reflexivity.
  - destruct (dict_get turma_label_to_id (ti_turma_label a)); reflexivity.
Qed.

(** [preparar_dados] without the joins. *)
Lemma preparar_dados_distintas :
  preparar_dados t
  = match filter (fun l => negb (dict_in l turma_label_to_id))
                 (unique (map ti_turma_label turmas_distintas)) with
    | [] =>
        Normal (dados_preparados t (turmas_do_semestre 1)
                                 (filter periodo_valido (t_periodos t)),
                dados_preparados t (turmas_do_semestre 0)
                                 (filter periodo_valido (t_periodos t)))
    | l :: ls => Exception (LabelsNaoMapeados (l :: ls))
    end.
Proof.
  unfold preparar_dados. cbv zeta. rewrite juntar_tabelas_distintas.
  rewrite map_map.
  change (map (fun x => ti_turma_label (importada (juntar x)))
              turmas_distintas)
    with (map ti_turma_label turmas_distintas).
  destruct (filter _ (unique (map ti_turma_label turmas_distintas)));
    [|reflexivity].
  now rewrite !selecionar_juntas.
Qed.


Lemma preparar_turma_In resto a r :
  In r (preparar_turma resto a) <->
  exists s label_id,
    semestre_da_uc (ti_unidade_curricular_id a) = Some s
    /\ dict_get turma_label_to_id (ti_turma_label a) = Some label_id
    /\ s mod 2 = resto /\ r = preparada a label_id.
Proof.
  unfold preparar_turma.
  destruct (semestre_da_uc (ti_unidade_curricular_id a)) as [s|].
  - destruct (dict_get turma_label_to_id (ti_turma_label a)) as [i|].
    + destruct (Z.eqb_spec (s mod 2) resto) as [He|Hne]; cbn [In]; split.
      * intros [<-|[]]. exists s, i. auto.
      * intros (s' & i' & [= <-] & [= <-] & _ & ->). now left.
      * intros [].
      * intros (s' & i' & [= <-] & _ & He & _). contradiction.
    + split; [intros [] | intros (? & ? & _ & [=] & _)].
  - split; [intros [] | intros (? & ? & [=] & _)].
Qed.

Lemma turmas_do_semestre_In resto r :
  In r (turmas_do_semestre resto) <->
  exists a s label_id,
    In a turmas_distintas
    /\ semestre_da_uc (ti_unidade_curricular_id a) = Some s
    /\ dict_get turma_label_to_id (ti_turma_label a) = Some label_id
    /\ s mod 2 = resto /\ r = preparada a label_id.
Proof.
  unfold turmas_do_semestre. rewrite in_flat_map. split.
  - intros (a & Ha & Hr). apply preparar_turma_In in Hr.
    destruct Hr as (s & i & H). exists a, s, i. tauto.
  - intros (a & s & i & Ha & H). exists a. split; [assumption|].
    apply preparar_turma_In. exists s, i. exact H.
Qed.
End Preparacao.

(** ** The text of the exclusion constraints *)

(** The line of an exclusion constraint: its name, a colon, the sum. *)
Lemma restricao_uc_constraint_texto a b p vars :
  restricao_uc_constraint a b p vars
  = "restricao_UC" +++ str a +++ "_UC" +++ str b +++ "_periodo_" +++ str p
    +++ ": " +++ join " + " vars +++ " <= 1" +++ nl.
Proof.
  unfold restricao_uc_constraint. rewrite !append_assoc. reflexivity.
Qed.

(** The guard of an exclusion constraint, on the summed list. *)
Lemma restricao_par_soma d a b p :
  restricao_par d a b p
  = match vars_uc_p d a p ++ vars_uc_p d b p with
    | [] => []
    | _ :: _ =>
        [restricao_uc_constraint a b p (vars_uc_p d a p ++ vars_uc_p d b p)]
    end.
Proof.
  unfold restricao_par.
  now destruct (vars_uc_p d a p) as [|va vas], (vars_uc_p d b p) as [|vb vbs].
Qed.

Lemma vars_uc_p_In d uc p v :
  In v (vars_uc_p d uc p) <->
  exists t s, In t (turmas_da_uc d uc) /\ In s (salas d)
              /\ v = var_name t s p.
Proof.
  unfold vars_uc_p. rewrite in_flat_map. split.
  - intros (t & Ht & Hv). apply in_map_iff in Hv.
    destruct Hv as (s & <- & Hs). eauto.
  - intros (t & s & Ht & Hs & ->). exists t. split; [assumption|].
    apply in_map_iff. exists s. auto.
Qed.

(** The exclusion constraint of a listed pair of units at a period of
    [periodos] is written when it has a summand. *)
Lemma restricoes_globais_par d a b p :
  In (a, b) [(3, 5); (11, 13); (11, 14); (11, 15); (22, 23)] ->
  In p (periodos d) ->
  vars_uc_p d a p ++ vars_uc_p d b p <> [] ->
  In (restricao_uc_constraint a b p (vars_uc_p d a p ++ vars_uc_p d b p))
     (restricoes_globais d).
Proof.
  intros Hab Hp Hne. unfold restricoes_globais. apply in_flat_map.
  exists p. rewrite unique_In. split; [assumption|].
  assert (Hpar : In (restricao_uc_constraint a b p
                       (vars_uc_p d a p ++ vars_uc_p d b p))
                    (restricao_par d a b p)).
  { rewrite restricao_par_soma.
    destruct (vars_uc_p d a p ++ vars_uc_p d b p); [congruence | now left]. }
  unfold restricoes_do_periodo. rewrite !in_app_iff. cbn [In] in Hab.
  destruct Hab as [[= <- <-]|[[= <- <-]|[[= <- <-]|[[= <- <-]
                  |[[= <- <-]|[]]]]]]; tauto.
Qed.

(** No chunk of the output declares a variable that no logged placement
    created. *)
Lemma variavel_nao_declarada d st groups t s p :
  Inv d st ->
  (forall seq, In (t, s, seq) (agendadas st) -> ~ In p seq) ->
  ~ In (declaration (var_name t s p))
       ([objective (salas d); subject_to] ++ restricoes_escritas d st groups
        ++ [binary_header] ++ map declaration (variaveis_declaradas d st)
        ++ [end_marker]).
Proof.
  intros HI Hnao Hc. apply chunk_In in Hc.
  destruct Hc as [Hc|[Hc|[Hc|[Hc|[(v & Hv & Hc)|Hc]]]]];
    try discriminate Hc.
  - apply restricao_escrita_etiqueta in Hc. destruct Hc as (e & _ & He).
    symmetry in He. apply restricao_primeiro in He. primeiro_distinto He.
  - apply declaration_inj in Hc. subst v.
    apply (variaveis_declaradas_In d st _ HI) in Hv.
    destruct Hv as [(t' & s' & seq & p' & Hin & Hp & Hv)|(s' & _ & Hv)].
    + apply var_name_inj in Hv. destruct Hv as (-> & -> & ->).
      exact (Hnao seq Hin Hp).
    + discriminate Hv.
Qed.

(** * Main results *)

(** ** Example tables *)

Definition mk_turma (i uc doc tipo : Z) (dur : nat) (lab : Z) : turma_row :=
  {| id := i; unidade_curricular_id := uc; docente_id := doc;
     tipo_aula_id := tipo; duracao := dur; turma_label_id := lab |}.

(** One section of two periods, one room, periods 1..3. *)
Definition exemplo_simples : dados :=
  {| turmas := [mk_turma 7 4 9 1 2%nat 1];
     salas := [1];
     periodos := [3; 1; 2];
     uc_sala := [(4, 1)];
     indisponibilidade_docente := [];
     unidades_curriculares := Some [(4, 1)] |}.

(** Two sections of the exclusive units 3 and 5 and a single period. *)
Definition exemplo_exclusao : dados :=
  {| turmas := [mk_turma 2 5 9 3 1%nat 2; mk_turma 1 3 8 1 1%nat 2];
     salas := [1; 2];
     periodos := [1];
     uc_sala := [(3, 1); (5, 2)];
     indisponibilidade_docente := [];
     unidades_curriculares := Some [(3, 1); (5, 1)] |}.

(** ** The allocation search *)

(** C1. The sections are processed in ascending id order ([turma_set] is
    strictly increasing and holds exactly the ids of [turmas]; the main loop
    is a fold over it).  For each section the body of the loop never raises
    and is the first-fit step: with the candidates listed room by room (in
    the order of the permitted rooms) and window by window (by ascending
    start index), the state is left unchanged when no candidate survives the
    checks, and otherwise the first surviving candidate is committed and
    nothing after it is examined.  A commitment appends the placement to the
    log and marks every period of the block as taken for the room and for
    the teacher. *)
Theorem C1_first_fit_in_section_order
  (d : dados) (ucs : list (Z * Z)) (tsala idt : dict Z (list Z)) :
  StronglySorted Z.lt (turma_set d)
  /\ (forall t, In t (turma_set d) <-> In t (map id (turmas d)))
  /\ (forall st, alocar_turmas d ucs tsala idt st
                 = fold_m (process_turma d ucs tsala idt) (turma_set d) st)
  /\ (forall st t, In t (turma_set d) ->
        exists row,
          linha d t = Some row /\ id row = t
          /\ process_turma d ucs tsala idt st t
             = Ok (passo d ucs tsala idt st row)
          /\ ((passo d ucs tsala idt st row = st
               /\ forall sem,
                   dict_get (uc_semestre ucs) (unidade_curricular_id row)
                   = Some sem ->
                   forall c,
                     In c (candidatos d (duracao row)
                                      (get_default tsala t [])) ->
                     sobrevive d ucs st (atual idt row sem) (fst c) (snd c)
                     = false)
              \/ exists sem l1 s seq l2,
                  dict_get (uc_semestre ucs) (unidade_curricular_id row)
                  = Some sem
                  /\ candidatos d (duracao row) (get_default tsala t [])
                     = l1 ++ (s, seq) :: l2
                  /\ (forall c, In c l1 ->
                        sobrevive d ucs st (atual idt row sem) (fst c) (snd c)
                        = false)
                  /\ sobrevive d ucs st (atual idt row sem) s seq = true
                  /\ passo d ucs tsala idt st row
                     = alocar st t s (docente_id row) (duracao row) seq))
  /\ (forall st t s doc dur seq,
        agendadas (alocar st t s doc dur seq)
        = agendadas st ++ [(t, s, seq)]
        /\ forall p, In p seq ->
             dict_get (sala_periodos_ocupados (alocar st t s doc dur seq))
                      (s, p) = Some t
             /\ dict_get (docente_periodos_ocupados
                            (alocar st t s doc dur seq)) (doc, p) = Some t).
Proof.
  split; [apply turma_set_sorted|].
  split; [apply turma_set_In|].
  split; [reflexivity|].
  split.
  - intros st t Ht. destruct (linha_turma_set d t Ht) as [row Hr].
    pose proof (linha_Some _ _ _ Hr) as [_ Hid].
    exists row. split; [assumption|]. split; [assumption|].
    split; [now apply process_turma_passo|].
    rewrite <- Hid.
    destruct (passo_first_fit d ucs tsala idt st row)
      as [[Hst Hnone]|Hsome]; [left|now right].
    split; [assumption|]. intros sem Hsem c Hc.
    destruct Hnone as [Hn|[sem' [Hs' Hall]]]; [congruence|].
    rewrite Hsem in Hs'. injection Hs' as <-. now apply Hall.
  - intros st t s doc dur seq. split; [apply alocar_agendadas|].
    intros p Hp. rewrite alocar_sala, alocar_docente.
    split; now apply ocupar_get_in.
Qed.

(** C2. After any number [k] of sections has been processed, every logged
    placement has a block of consecutive period ids whose length is the
    duration of its section, two different placements in the same room share
    no period, and two different placements whose sections have the same
    teacher share no period. *)
Theorem C2_placements_contiguous_and_disjoint
  (d : dados) (ucs : list (Z * Z)) (tsala idt : dict Z (list Z)) (k : nat) :
  exists st,
    fold_m (process_turma d ucs tsala idt) (firstn k (turma_set d))
           (estado_inicial d) = Ok st
    /\ (forall t s seq,
          In (t, s, seq) (agendadas st) ->
          (forall i a b, nth_error seq i = Some a ->
                         nth_error seq (S i) = Some b -> b = a + 1)
          /\ dict_get (turma_duracao d) t = Some (List.length seq))
    /\ (forall i j a b,
          i <> j ->
          nth_error (agendadas st) i = Some a ->
          nth_error (agendadas st) j = Some b ->
          (sala_de a = sala_de b ->
           forall p, In p (periodos_de a) -> ~ In p (periodos_de b))
          /\ (dict_get (turma_docente d) (turma_de a)
              = dict_get (turma_docente d) (turma_de b) ->
              forall p, In p (periodos_de a) -> ~ In p (periodos_de b))).
Proof.
  destruct (prefixo_Inv d ucs tsala idt k) as (st & Hrun & _ & HI).
  exists st. split; [assumption|]. split.
  - intros t s seq Hin.
    destruct (inv_forma _ _ HI _ _ _ Hin) as [Hc (row & Hr & Hlen)].
    split; [now apply contiguo_nth|].
    unfold turma_duracao. rewrite coluna_get, Hr, Hlen. reflexivity.
  - intros i j a b Hij Ha Hb.
    assert (Hcomp : compativeis d a b).
    { destruct (Nat.lt_total i j) as [Hlt|[Heq|Hgt]]; [|contradiction|].
      - exact (ForallOrdPairs_nth _ _ (inv_pares _ _ HI) i j a b Hlt Ha Hb).
      - apply compativeis_sym.
        exact (ForallOrdPairs_nth _ _ (inv_pares _ _ HI) j i b a Hgt Hb Ha). }
    destruct Hcomp as [Hs Hd]. unfold disjuntos, docente_de in *.
    unfold turma_docente. rewrite !coluna_get.
    split; intros Heq p Hp Hq; eauto.
Qed.

(** ** The constraints of a placement *)

(** One section of duration 0, one room, periods 1..3. *)
Definition exemplo_duracao_zero : dados :=
  {| turmas := [mk_turma 7 4 9 1 0%nat 1];
     salas := [1];
     periodos := [1; 2; 3];
     uc_sala := [(4, 1)];
     indisponibilidade_docente := [];
     unidades_curriculares := Some [(4, 1)] |}.

(** C3, as stated, fails for a section of duration 0: in
    [exemplo_duracao_zero] section 7 is placed, in room 1 over the empty
    block, and the model holds no allocation line and no room-linkage line
    for it: the [if uc_variables:] guards skip them. *)
Lemma C3_counterexample_duration_zero :
  exists st,
    gerar cpython_list_of_set exemplo_duracao_zero [(4, 1)]
    = Ok (st,
          [ "Minimize" +++ String "010"%char EmptyString
            +++ " obj: z_1" +++ String "010"%char EmptyString;
            String "010"%char EmptyString +++ "Subject To"
            +++ String "010"%char EmptyString;
            String "010"%char EmptyString +++ "Binary"
            +++ String "010"%char EmptyString;
            " z_1" +++ String "010"%char EmptyString;
            "End" +++ String "010"%char EmptyString ])
    /\ dict_get (turma_duracao exemplo_duracao_zero) 7 = Some 0%nat
    /\ agendadas st = [(7, 1, [])]
    /\ lp_file st = lp_file (estado_inicial exemplo_duracao_zero).
Proof.
  eexists. split; [vm_compute; reflexivity|].
  split; [reflexivity|]. split; reflexivity.
Qed.

(** C3, amended.  Let the search, in the state reached after [k] sections,
    choose room [s] and block [seq] for the next section [t], of duration
    [dur].  Then the section is logged as placed with that block, the block
    has [dur] periods, and the commitment appends to the output file, in
    this order and with nothing suppressed:
    - nothing, when the block is empty (a section of duration 0);
    - otherwise, with [x<t>_<s>_<p>] the variable of a period [p] of the
      block and [p1] its first period: for each later period [p] the line
      [cont_<var1>_<var>: <var1> - <var> = 0]; then the line
      [turma_<t>_agendada: <var1> + ... = <dur>]; then the line
      [sala_<s>_uso_para_turma_<t>: <var1> + ... - <dur> z_<s> <= 0]. *)
Theorem C3_constraints_of_a_placement
  (d : dados) (ucs : list (Z * Z)) (tsala idt : dict Z (list Z)) (k : nat) :
  exists st,
    fold_m (process_turma d ucs tsala idt) (firstn k (turma_set d))
           (estado_inicial d) = Ok st
    /\ forall t row ta s seq,
        nth_error (turma_set d) k = Some t ->
        linha d t = Some row ->
        escolha d ucs tsala idt st row = Some (ta, (s, seq)) ->
        let dur := duracao row in
        let fim := String "010"%char EmptyString in
        let x := fun p => "x" +++ str t +++ "_" +++ str s +++ "_" +++ str p in
        let soma := join " + " (map x seq) in
        let st' := alocar st t s (docente_id row) dur seq in
        process_turma d ucs tsala idt st t = Ok st'
        /\ agendadas st' = agendadas st ++ [(t, s, seq)]
        /\ List.length seq = dur
        /\ lp_file st'
           = lp_file st
             ++ match seq with
                | [] => []
                | p1 :: resto =>
                    map (fun p => "cont_" +++ x p1 +++ "_" +++ x p +++ ": "
                                  +++ x p1 +++ " - " +++ x p +++ " = 0"
                                  +++ fim) resto
                    ++ [ "turma_" +++ str t +++ "_agendada: " +++ soma
                         +++ " = " +++ str (Z.of_nat dur) +++ fim;
                         "sala_" +++ str s +++ "_uso_para_turma_" +++ str t
                         +++ ": " +++ soma +++ " - " +++ str (Z.of_nat dur)
                         +++ " z_" +++ str s +++ " <= 0" +++ fim ]
                end.
Proof.
  destruct (prefixo_completo d ucs tsala idt k)
    as (st & Hrun & HI & HL & Hincl).
  exists st. split; [assumption|].
  intros t row ta s seq Hk Hl He dur fim x soma st'.
  pose proof (linha_Some _ _ _ Hl) as [_ Hid].
  pose proof (escolha_Some _ _ _ _ _ _ _ _ He)
    as (sem & Hsem & -> & Hs & Hb & Hsv).
  cbn [fst snd] in Hb, Hsv.
  apply (blocos_length d) in Hb.
  apply sobrevive_true in Hsv. destruct Hsv as (Hc & _).
  assert (Hnovo : ~ In t (map turma_de (agendadas st))).
  { intros Hin. apply Hincl in Hin. revert Hin.
    apply nth_fora_do_prefixo; [apply turma_set_NoDup | assumption]. }
  split; [|split; [apply alocar_agendadas|split; [exact Hb|]]].
  - rewrite (process_turma_passo d ucs tsala idt st t row Hl).
    unfold passo. rewrite He. unfold alocar_candidato, st', dur.
    cbn [atual ta_id ta_docente ta_duracao fst snd]. now rewrite Hid.
  - destruct (InvL_alocar d st t s (docente_id row) seq HL Hc Hnovo)
      as [_ Hlp].
    unfold st', dur. rewrite <- Hb, Hlp.
    unfold restricoes_da_colocacao, linhas_de_vars, turma_de, sala_de,
      periodos_de. cbn [fst snd].
    destruct seq as [|p1 resto]; [reflexivity|].
    cbn [map]. rewrite map_map. reflexivity.
Qed.

(** The scenario of one section of duration 2 with room 1 and periods 1, 2
    and 3: the whole text of the model. *)
Example modelo_do_exemplo_simples :
  generate_lp_file cpython_list_of_set exemplo_simples
  = Ok (Some [ objective [1]; subject_to;
               "cont_x7_1_1_x7_1_2: x7_1_1 - x7_1_2 = 0" +++ nl;
               "turma_7_agendada: x7_1_1 + x7_1_2 = 2" +++ nl;
               "sala_1_uso_para_turma_7: x7_1_1 + x7_1_2 - 2 z_1 <= 0"
               +++ nl;
               binary_header; " x7_1_1" +++ nl; " x7_1_2" +++ nl;
               " z_1" +++ nl; end_marker ]).
Proof. vm_compute. reflexivity. Qed.

(** ** The exclusion of curricular units *)

(** C4.  The rooms of the room-eligibility table are rooms of the table of
    rooms: [uc_sala] names rows of [salas] only ([list(set(...))] holds the
    elements of its argument only).  Then, in any state reached by the
    search: (i) the unit check raises its flag on a block exactly when some
    period of the block is taken, in any room, by a logged placement of a
    section that [turmas] lists under a unit of the candidate's exclusion
    group; (ii) a window on which the flag is raised is rejected: the loop
    goes on with the next start index; (iii) two different logged
    placements whose units exclude each other share no period.  The last
    holds of the placements of the whole run as well. *)
Theorem C4_unit_exclusion_between_placements
  (list_of_set : list Z -> list Z) (d : dados) (ucs : list (Z * Z))
  (Hset : forall l s, In s (list_of_set l) -> In s l)
  (Hsalas : forall uc s, In (uc, s) (uc_sala d) -> In s (salas d)) :
  exists tsala idt,
    turma_sala list_of_set d = Ok tsala
    /\ I_d_turma d = Ok idt
    /\ (forall k, exists st,
          fold_m (process_turma d ucs tsala idt) (firstn k (turma_set d))
                 (estado_inicial d) = Ok st
          /\ (forall uc seq,
                conflito_entre_ucs d st uc seq = true <->
                exists uc_restrita t s seq' p,
                  excluem uc uc_restrita /\ In t (turmas_da_uc d uc_restrita)
                  /\ In (t, s, seq') (agendadas st)
                  /\ In p seq' /\ In p seq)
          /\ (forall ta sala_id i starts,
                (i + ta_duracao ta <= List.length (periodos_ordenados d))%nat ->
                conflito_entre_ucs d st (ta_uc ta)
                  (slice (periodos_ordenados d) i (i + ta_duracao ta)) = true ->
                loop_periodos d ucs st ta sala_id (i :: starts)
                = loop_periodos d ucs st ta sala_id starts)
          /\ exclusao_respeitada d st)
    /\ exists st chunks,
        gerar list_of_set d ucs = Ok (st, chunks)
        /\ exclusao_respeitada d st.
Proof.
  destruct (gerar_ok list_of_set d ucs)
    as (tsala & idt & groups & stf & Hts & Hidt & _ & Hfim & HIf & _ & _ & _
        & _ & _ & Hgerar).
  exists tsala, idt. split; [assumption|]. split; [assumption|]. split.
  - intros k.
    destruct (prefixo_Inv d ucs tsala idt k) as (st & Hrun & Hst & HI).
    assert (Hem : forall a, In a (agendadas st) -> In (sala_de a) (salas d)).
    { rewrite Hst.
      exact (agendadas_em_salas list_of_set d ucs tsala idt _ Hset Hsalas
                                Hts). }
    exists st. split; [assumption|]. split; [|split].
    + intros uc seq. rewrite conflito_entre_ucs_true. split.
      * intros (ur & t & p & s & Hex & Ht & Hp & Hs & Hg).
        apply (inv_sala_back _ _ HI) in Hg.
        destruct Hg as (seq' & Hin & Hp').
        exists ur, t, s, seq', p. auto 10.
      * intros (ur & t & s & seq' & p & Hex & Ht & Hin & Hp' & Hp).
        exists ur, t, p, s. repeat split; auto.
        -- exact (Hem _ Hin).
        -- now apply (inv_sala _ _ HI t s seq').
    + intros ta sala_id i starts Hlen Hflag.
      cbn [loop_periodos].
      set (seq := slice (periodos_ordenados d) i (i + ta_duracao ta)) in *.
      assert (Hseq : List.length seq = ta_duracao ta)
        by (apply slice_length; assumption).
      rewrite <- Hseq at 1. rewrite consecutivos_length. cbn [bind].
      rewrite Hflag.
      destruct (contiguo seq); [|reflexivity]. cbn [negb].
      destruct (conflito_sala_docente _ _ _ _ _); [reflexivity|].
      destruct ((ta_label ta =? 1) && _); reflexivity.
    + apply exclusao_em_todas_as_salas; [now apply Inv_exclusao | exact Hem].
  - exists stf. eexists. split; [exact Hgerar|].
    apply exclusao_em_todas_as_salas; [now apply Inv_exclusao|].
    rewrite alocar_turmas_ok in Hfim. injection Hfim as <-.
    exact (agendadas_em_salas list_of_set d ucs tsala idt _ Hset Hsalas Hts).
Qed.

(** The contract on [uc_sala] is needed: units 3 and 5 exclude each other
    and the section of unit 3 may only use room 9, which [salas] does not
    list. *)
Definition exemplo_sala_fora : dados :=
  {| turmas := [mk_turma 1 3 8 1 1%nat 2; mk_turma 2 5 9 1 1%nat 2];
     salas := [1];
     periodos := [1];
     uc_sala := [(3, 9); (5, 1)];
     indisponibilidade_docente := [];
     unidades_curriculares := Some [(3, 1); (5, 1)] |}.

(** In [exemplo_sala_fora] the check, which tries the rooms of [salas],
    does not see section 1 in room 9: both sections get period 1. *)
Example exclusao_com_sala_fora_de_salas :
  exists st chunks,
    gerar cpython_list_of_set exemplo_sala_fora [(3, 1); (5, 1)]
    = Ok (st, chunks)
    /\ agendadas st = [(1, 9, [1]); (2, 1, [1])]
    /\ ~ exclusao_respeitada exemplo_sala_fora st.
Proof.
  eexists. eexists. split; [vm_compute; reflexivity|].
  split; [reflexivity|].
  assert (Hex : excluem 3 5) by (exists [5]; split; [reflexivity | now left]).
  intros H.
  apply (H 0%nat 1%nat (1, 9, [1]) (2, 1, [1]) 3 5) with (p := 1);
    try reflexivity; try (now left); auto.
Qed.

(** ** The semester check in the search *)

(** C5. The label table of the data preparation gives the id 1 to the
    label [TT] (theoretical) and to no other.
    In any state reached by the search, take a candidate window of the
    right length in the loop over the start indices.  If the section has
    label 1 and some period of the window is taken, in any room, by a logged
    placement whose section's unit has the same semester, the window is
    rejected and the loop goes on with the next start index.  Otherwise
    (another label, or no such placement) the semester check lets the window
    through: it is committed exactly when the other three checks accept
    it. *)
Theorem C5_semester_exclusivity
  (d : dados) (ucs : list (Z * Z)) (tsala idt : dict Z (list Z)) (k : nat) :
  (forall l, dict_get turma_label_to_id l = Some 1 <-> l = "TT"%string)
  /\ exists st,
    fold_m (process_turma d ucs tsala idt) (firstn k (turma_set d))
           (estado_inicial d) = Ok st
    /\ forall ta sala_id i starts,
        (i + ta_duracao ta <= List.length (periodos_ordenados d))%nat ->
        let seq := slice (periodos_ordenados d) i (i + ta_duracao ta) in
        (ta_label ta = 1 /\ semestre_ocupado d ucs st (ta_semestre ta) seq ->
         loop_periodos d ucs st ta sala_id (i :: starts)
         = loop_periodos d ucs st ta sala_id starts)
        /\ (ta_label ta <> 1
            \/ ~ semestre_ocupado d ucs st (ta_semestre ta) seq ->
            loop_periodos d ucs st ta sala_id (i :: starts)
            = if contiguo seq
                 && negb (conflito_sala_docente st (ta_indisponiveis ta)
                                                sala_id (ta_docente ta) seq)
                 && negb (conflito_entre_ucs d st (ta_uc ta) seq)
              then Ok (Some (alocar st (ta_id ta) sala_id (ta_docente ta)
                                    (ta_duracao ta) seq))
              else loop_periodos d ucs st ta sala_id starts).
Proof.
  split.
  { intros l. unfold turma_label_to_id. cbn [dict_get keqb Key_string].
    split; [|intros ->; reflexivity].
    repeat match goal with
           | |- context [String.eqb ?a l] =>
               destruct (String.eqb_spec a l); [subst l|]
           end; intros [=]; reflexivity. }
  destruct (prefixo_Inv d ucs tsala idt k) as (st & Hrun & _ & HI).
  exists st. split; [assumption|].
  intros ta sala_id i starts Hlen seq.
  assert (Hseq : List.length seq = ta_duracao ta)
    by (apply slice_length; assumption).
  assert (Hloop :
    loop_periodos d ucs st ta sala_id (i :: starts)
    = if contiguo seq
      then if conflito_sala_docente st (ta_indisponiveis ta) sala_id
                                    (ta_docente ta) seq
           then loop_periodos d ucs st ta sala_id starts
           else if (ta_label ta =? 1)
                   && conflito_semestre d ucs st (ta_semestre ta) seq
                then loop_periodos d ucs st ta sala_id starts
                else if conflito_entre_ucs d st (ta_uc ta) seq
                     then loop_periodos d ucs st ta sala_id starts
                     else Ok (Some (alocar st (ta_id ta) sala_id
                                           (ta_docente ta) (ta_duracao ta)
                                           seq))
      else loop_periodos d ucs st ta sala_id starts).
  { cbn [loop_periodos]. fold seq. rewrite <- Hseq at 1.
    rewrite consecutivos_length. cbn [bind].
    destruct (contiguo seq); reflexivity. }
  rewrite Hloop. split.
  - intros [Hlab Hocc]. apply (conflito_semestre_Inv d ucs st _ _ HI) in Hocc.
    rewrite Hocc, Hlab. change ((1 =? 1) && true) with true.
    destruct (contiguo seq); [|reflexivity].
    destruct (conflito_sala_docente _ _ _ _ _); reflexivity.
  - intros Hno.
    assert (Hc : (ta_label ta =? 1)
                 && conflito_semestre d ucs st (ta_semestre ta) seq = false).
    { destruct Hno as [Hlab|Hocc].
      - apply Z.eqb_neq in Hlab. now rewrite Hlab.
      - rewrite <- (conflito_semestre_Inv d ucs st _ _ HI) in Hocc.
        apply not_true_is_false in Hocc. rewrite Hocc. apply andb_false_r. }
    rewrite Hc.
    destruct (contiguo seq); [|reflexivity].
    destruct (conflito_sala_docente _ _ _ _ _); [reflexivity|].
    destruct (conflito_entre_ucs _ _ _ _); reflexivity.
Qed.

(** ** The order in which the rooms are tried *)

(** One section whose unit may use rooms 1 and 8, both free. *)
Definition exemplo_duas_salas : dados :=
  {| turmas := [mk_turma 7 4 9 1 1%nat 2];
     salas := [1; 8];
     periodos := [1];
     uc_sala := [(4, 1); (4, 8)];
     indisponibilidade_docente := [];
     unidades_curriculares := Some [(4, 1)] |}.

(** C6, as stated, fails: the rooms of a section are [list(set(...))] of
    the room ids of its unit, and CPython iterates the set {1, 8} as 8, 1.
    In [exemplo_duas_salas] the search therefore tries room 8 first and
    places the section there, with room 1 free. *)
Lemma C6_counterexample_set_order :
  cpython_list_of_set [1; 8] = [8; 1]
  /\ salas_permitidas_de cpython_list_of_set exemplo_duas_salas 7 = [8; 1]
  /\ (exists st chunks,
        gerar cpython_list_of_set exemplo_duas_salas [(4, 1)]
        = Ok (st, chunks)
        /\ agendadas st = [(7, 8, [1])])
  /\ ~ salas_por_id_crescente cpython_list_of_set exemplo_duas_salas.
Proof.
  split; [vm_compute; reflexivity|].
  split; [vm_compute; reflexivity|].
  split.
  - eexists. eexists. split; [vm_compute; reflexivity | reflexivity].
  - intros H. specialize (H 7).
    assert (Hin : In 7 (turma_set exemplo_duas_salas)) by (now left).
    specialize (H Hin).
    replace (salas_permitidas_de cpython_list_of_set exemplo_duas_salas 7)
      with [8; 1] in H by (vm_compute; reflexivity).
    inversion H as [|? ? _ Hall]; subst.
    inversion Hall as [|? ? Hle _]; subst. lia.
Qed.

(** C6, amended.  For every section, the rooms are tried in the order of
    the list [list(set(...))] built from the room ids that [uc_sala] gives
    for the section's unit: a fixed order for a given input (the iteration
    order of the set), but not the ascending order of the room ids.  The
    dict comprehension never raises; the loop over the rooms runs through
    that list from its head, and a commitment happens in the first room of
    the list that has a surviving window. *)
Theorem C6_rooms_in_set_iteration_order
  (list_of_set : list Z -> list Z) (d : dados) (ucs : list (Z * Z)) :
  exists tsala,
    turma_sala list_of_set d = Ok tsala
    /\ (forall t, In t (turma_set d) ->
          get_default tsala t []
          = list_of_set (salas_da_uc d (uc_de d t)))
    /\ (forall st ta sala_id resto,
          loop_salas d ucs st ta (sala_id :: resto)
          = (r <- loop_periodos d ucs st ta sala_id
                                (indices_iniciais d (ta_duracao ta)) ;;
             match r with
             | Some st' => Ok (Some st')
             | None => loop_salas d ucs st ta resto
             end))
    /\ (forall st ta salas_permitidas st',
          loop_salas d ucs st ta salas_permitidas = Ok (Some st') ->
          exists antes sala_id depois seq,
            salas_permitidas = antes ++ sala_id :: depois
            /\ (forall s, In s antes ->
                  forall seq', In seq' (blocos d (ta_duracao ta)) ->
                               sobrevive d ucs st ta s seq' = false)
            /\ In seq (blocos d (ta_duracao ta))
            /\ sobrevive d ucs st ta sala_id seq = true
            /\ st' = alocar st (ta_id ta) sala_id (ta_docente ta)
                            (ta_duracao ta) seq).
Proof.
  destruct (turma_sala_ok d list_of_set) as (tsala & Hts & Hin & _).
  exists tsala. split; [assumption|]. split; [|split].
  - intros t Ht. unfold get_default. now rewrite (Hin t Ht).
  - reflexivity.
  - intros st ta salas_permitidas st'. rewrite loop_salas_find.
    destruct (find _ _) as [[s seq]|] eqn:Hf; [|discriminate].
    cbn [option_map]. intros [= <-].
    apply find_flat_map_first in Hf.
    destruct Hf as (antes & s0 & depois & -> & Hx & Hs & Hantes).
    apply in_map_iff in Hx. destruct Hx as (seq0 & [= <- <-] & Hseq).
    exists antes, s0, depois, seq0. cbn [fst snd] in Hs.
    repeat split; auto.
    intros s1 Hs1 seq' Hseq'.
    apply (Hantes s1 Hs1 (s1, seq')). now apply in_map.
Qed.

(** ** The text of the model *)

(** C7. The output file is the objective, the header [Subject To], the
    constraints, the header [Binary], one declaration per variable and the
    end marker.  The declared variable names are pairwise different, the
    names of the constraints (the text before the colon) are pairwise
    different, and no chunk of the file is written twice: the guarded
    writes of the search never meet an already written text, and the
    unguarded writes of the global constraints are different by their
    names. *)
Theorem C7_names_unique_and_no_line_repeated
  (list_of_set : list Z -> list Z) (d : dados) (ucs : list (Z * Z)) :
  exists st groups chunks,
    uc_groups d = Ok groups
    /\ gerar list_of_set d ucs = Ok (st, chunks)
    /\ chunks = [objective (salas d); subject_to]
                ++ restricoes_escritas d st groups
                ++ [binary_header]
                ++ map declaration (variaveis_declaradas d st)
                ++ [end_marker]
    /\ NoDup (variaveis_declaradas d st)
    /\ NoDup (map nome_de (restricoes_escritas d st groups))
    /\ NoDup chunks.
Proof.
  destruct (gerar_partes list_of_set d ucs)
    as (st & groups & HI & HL & Hnd & Hel & Hg & Hgerar).
  exists st, groups. eexists. split; [assumption|].
  split; [exact Hgerar|]. split; [reflexivity|].
  assert (Hnomes : NoDup (map nome_de (restricoes_escritas d st groups))).
  { rewrite nomes_escritas.
    apply Finite.Injective_map_NoDup;
      [intros x y; apply nome_etiqueta_inj|].
    now apply todas_etiquetas_NoDup. }
  split; [now apply variaveis_declaradas_NoDup|].
  split; [assumption|].
  apply chunks_NoDup.
  - now apply NoDup_map_inv in Hnomes.
  - now apply variaveis_declaradas_NoDup.
  - intros c Hc. apply restricao_escrita_etiqueta in Hc.
    destruct Hc as (e & _ & He). symmetry in He.
    now apply (restricao_primeiro c e).
Qed.

(** C8. A section for which no candidate survives (because it has no
    permitted room, or because every window of every permitted room fails a
    check) leaves the state as it is: the body of the loop returns normally
    with the same state, and the loop goes on with the sections after it.
    [generate_lp_file] returns normally on every input, and in its output a
    section that has no placement has no declared variable and no
    constraint of the three per-section families. *)
Theorem C8_unplaced_section_is_skipped
  (list_of_set : list Z -> list Z) (d : dados) (ucs : list (Z * Z)) :
  (exists out, generate_lp_file list_of_set d = Ok out)
  /\ (forall tsala idt st t row resto,
      linha d t = Some row ->
      (forall sem s seq,
          dict_get (uc_semestre ucs) (unidade_curricular_id row) = Some sem ->
          In s (get_default tsala t []) ->
          In seq (blocos d (duracao row)) ->
          sobrevive d ucs st (atual idt row sem) s seq = false) ->
      process_turma d ucs tsala idt st t = Ok st
      /\ fold_m (process_turma d ucs tsala idt) (t :: resto) st
         = fold_m (process_turma d ucs tsala idt) resto st)
  /\ exists st chunks,
      gerar list_of_set d ucs = Ok (st, chunks)
      /\ forall t,
          (forall a, In a (agendadas st) -> turma_de a <> t) ->
          (forall s p, ~ In (var_name t s p) (variables st)
                       /\ ~ In (declaration (var_name t s p)) chunks)
          /\ (forall s p0 p,
                ~ In (cont_constraint (var_name t s p0) (var_name t s p))
                     chunks)
          /\ (forall vars dur,
                ~ In (allocation_constraint t vars dur) chunks)
          /\ (forall s vars dur,
                ~ In (sala_constraint s t vars dur) chunks).
Proof.
  split.
  { unfold generate_lp_file.
    destruct (unidades_curriculares d) as [u|]; [|eexists; reflexivity].
    destruct (gerar_partes list_of_set d u) as (st & groups & H).
    destruct H as (_ & _ & _ & _ & _ & Hgerar).
    rewrite Hgerar. eexists. reflexivity. }
  split.
  - intros tsala idt st t row resto Hl Hnone.
    pose proof (linha_Some _ _ _ Hl) as [_ Hid].
    assert (Hp : process_turma d ucs tsala idt st t = Ok st).
    { rewrite (process_turma_passo d ucs tsala idt st t row Hl).
      destruct (passo_casos d ucs tsala idt st row)
        as [->|(sem & s & seq & Hsem & Hs & Hb & Hsv & _)];
        [reflexivity|].
      rewrite Hid in Hs. rewrite (Hnone sem s seq Hsem Hs Hb) in Hsv.
      discriminate. }
    split; [assumption|]. cbn [fold_m]. rewrite Hp. reflexivity.
  - destruct (gerar_partes list_of_set d ucs)
      as (st & groups & HI & HL & Hnd & Hel & Hg & Hgerar).
    exists st. eexists. split; [exact Hgerar|].
    intros t Hfora. split.
    + intros s p.
      assert (Hv : ~ In (var_name t s p) (variables st)).
      { intros Hin. apply (inv_vars _ _ HI) in Hin.
        destruct Hin as (t' & s' & seq & p' & Hin & _ & Heq).
        apply var_name_inj in Heq. destruct Heq as (-> & _ & _).
        now apply (Hfora (t', s', seq)). }
      split; [assumption|].
      intros Hin. apply chunk_In in Hin.
      destruct Hin as [H|[H|[H|[H|[(v & Hv' & H)|H]]]]];
        try discriminate H.
      * apply restricao_escrita_etiqueta in H.
        destruct H as (e & _ & He). symmetry in He.
        pose proof (restricao_primeiro _ e He) as Hp.
        primeiro_distinto Hp.
      * apply declaration_inj in H. subst v.
        unfold variaveis_declaradas in Hv'.
        rewrite in_app_iff, !py_sorted_In in Hv'.
        destruct Hv' as [Hv'|Hz]; [contradiction|].
        unfold z_variables in Hz. rewrite unique_In, in_map_iff in Hz.
        destruct Hz as (s' & Hz & _). discriminate Hz.
    + assert (Hgeral : forall c e, In c ([objective (salas d); subject_to]
                           ++ restricoes_escritas d st groups
                           ++ [binary_header]
                           ++ map declaration (variaveis_declaradas d st)
                           ++ [end_marker]) ->
                         nome_de c = nome_etiqueta e ->
                         turma_da_etiqueta e <> Some t).
      { intros c e Hc Hn Ht.
        destruct (chunk_com_etiqueta d st groups c e Hc Hn) as [_ He].
        destruct (etiqueta_de_turma_colocada d st groups e t He Ht)
          as (a & Ha & Hta).
        now apply (Hfora a). }
      split; [|split].
      * intros s p0 p Hin.
        apply (Hgeral _ (ECont t s p0 p) Hin); [|reflexivity].
        apply nome_cont; apply var_name_sem_colon.
      * intros vars dur Hin.
        apply (Hgeral _ (EAgendada t) Hin); [|reflexivity].
        apply nome_agendada.
      * intros s vars dur Hin.
        apply (Hgeral _ (EUso s t) Hin); [|reflexivity].
        apply nome_uso.
Qed.

(** The scenario of a teacher who is unavailable at period 2, with one
    room and periods 1, 2 and 3: the section of two periods finds no
    window, is left out, and the model holds no variable of it. *)
Definition exemplo_indisponivel : dados :=
  {| turmas := [mk_turma 7 4 9 1 2%nat 1];
     salas := [1];
     periodos := [3; 1; 2];
     uc_sala := [(4, 1)];
     indisponibilidade_docente := [(9, 2)];
     unidades_curriculares := Some [(4, 1)] |}.

Example modelo_do_exemplo_indisponivel :
  generate_lp_file cpython_list_of_set exemplo_indisponivel
  = Ok (Some [ objective [1]; subject_to; binary_header;
               " z_1" +++ nl; end_marker ]).
Proof. vm_compute. reflexivity. Qed.

(** C9. In every state reached by the search, each (teacher, period) key of
    [docente_periodo_vars] and each (room, period) key of
    [sala_periodo_vars] holds exactly one variable name, that of the block
    that took the period.  Hence both conflict loops of the builder find no
    list of length greater than one and write nothing, and no chunk of the
    output is a [docente_..._conflito] or a [sala_..._periodo_..._conflito]
    constraint. *)
Theorem C9_no_conflict_constraint_is_written
  (list_of_set : list Z -> list Z) (d : dados) (ucs : list (Z * Z)) :
  (forall tsala idt k,
      exists st,
        fold_m (process_turma d ucs tsala idt) (firstn k (turma_set d))
               (estado_inicial d) = Ok st
        /\ (forall doc p l,
              In ((doc, p), l) (docente_periodo_vars st) ->
              exists t s, l = [var_name t s p])
        /\ (forall s p l,
              In ((s, p), l) (sala_periodo_vars st) ->
              exists t, l = [var_name t s p]))
  /\ exists st chunks,
      gerar list_of_set d ucs = Ok (st, chunks)
      /\ (forall key l, In (key, l) (docente_periodo_vars st) ->
                        List.length l = 1%nat)
      /\ (forall key l, In (key, l) (sala_periodo_vars st) ->
                        List.length l = 1%nat)
      /\ restricoes_conflito d docente_conflito_constraint
                             (docente_periodo_vars st) = Ok []
      /\ restricoes_conflito d sala_conflito_constraint
                             (sala_periodo_vars st) = Ok []
      /\ (forall doc p vars,
            ~ In (docente_conflito_constraint doc p vars) chunks)
      /\ (forall s p vars,
            ~ In (sala_conflito_constraint s p vars) chunks).
Proof.
  split.
  - intros tsala idt k.
    destruct (prefixo_Inv d ucs tsala idt k) as (st & Hrun & _ & HI).
    exists st. split; [assumption|]. split.
    + intros doc p l Hin.
      apply dict_In_get in Hin; [|apply (inv_chaves_dpv _ _ HI)].
      apply (inv_dpv _ _ HI) in Hin. destruct Hin as (t & s & -> & _). eauto.
    + intros s p l Hin.
      apply dict_In_get in Hin; [|apply (inv_chaves_spv _ _ HI)].
      apply (inv_spv _ _ HI) in Hin. destruct Hin as (t & -> & _). eauto.
  - destruct (gerar_partes list_of_set d ucs)
      as (st & groups & HI & HL & Hnd & Hel & Hg & Hgerar).
    exists st. eexists. split; [exact Hgerar|].
    split; [intros key l; now apply (Inv_dpv_um d)|].
    split; [intros key l; now apply (Inv_spv_um d)|].
    split; [apply restricoes_conflito_vazio; intros key l;
            now apply (Inv_dpv_um d)|].
    split; [apply restricoes_conflito_vazio; intros key l;
            now apply (Inv_spv_um d)|].
    split.
    + intros doc p vars Hin. apply chunk_In in Hin.
      destruct Hin as [H|[H|[H|[H|[(v & _ & H)|H]]]]];
        try discriminate H.
      apply restricao_escrita_etiqueta in H.
      destruct H as (e & _ & He). symmetry in He.
      pose proof (restricao_primeiro _ e He) as Hp.
      primeiro_distinto Hp.
    + intros s p vars Hin. apply chunk_In in Hin.
      destruct Hin as [H|[H|[H|[H|[(v & _ & H)|H]]]]];
        try discriminate H.
      apply restricao_escrita_etiqueta in H.
      destruct H as (e & _ & He).
      now apply sala_conflito_nao_etiqueta in He.
Qed.

(** C10. In the model written by [gerar], with [x<t>_<s>_<p>] the name of
    the variable of section [t], room [s] and period [p]:
    - for every period of [periodos], in the order of their first
      occurrence, and for the pairs of units (3, 5), (11, 13), (11, 14),
      (11, 15) and (22, 23), in this order, the exclusion constraint
      [restricao_UC<a>_UC<b>_periodo_<p>: <x> + ... + <x> <= 1] sums the
      names [x<t>_<s>_<p>] over every section [t] that [turmas] lists under
      [a], then under [b], and every room [s] of [salas]; it is written
      unless it has no summand, whether or not a placement created the
      variables;
    - the [Binary] block declares, one per line, the variables of the
      logged placements and the [z_<s>] indicators of the rooms of
      [salas], and nothing else;
    - hence the variable of a section of either unit of a pair, a room of
      [salas] and a period of [periodos] that no logged placement has is a
      summand of an exclusion constraint of the model, and no line of the
      model declares it.
    In [exemplo_exclusao] the model mentions [x1_2_1], [x2_1_1] and
    [x2_2_1] in [restricao_UC3_UC5_periodo_1] and declares [x1_1_1], [z_1]
    and [z_2] only. *)
Theorem C10_exclusion_constraints_name_undeclared_variables
  (list_of_set : list Z -> list Z) (d : dados) (ucs : list (Z * Z)) :
  (exists st groups chunks,
      let fim := String "010"%char EmptyString in
      let x := fun t s p =>
                 "x" +++ str t +++ "_" +++ str s +++ "_" +++ str p in
      let termos := fun uc p =>
                      flat_map (fun t => map (fun s => x t s p) (salas d))
                               (turmas_da_uc d uc) in
      let linha_exclusao := fun a b p =>
                              "restricao_UC" +++ str a +++ "_UC" +++ str b
                              +++ "_periodo_" +++ str p +++ ": "
                              +++ join " + " (termos a p ++ termos b p)
                              +++ " <= 1" +++ fim in
      let exclusao := fun a b p =>
                        match termos a p ++ termos b p with
                        | [] => []
                        | _ :: _ => [linha_exclusao a b p]
                        end in
      gerar list_of_set d ucs = Ok (st, chunks)
      /\ chunks
         = [objective (salas d); subject_to]
           ++ flat_map restricoes_da_colocacao (agendadas st)
           ++ flat_map (fun p => exclusao 3 5 p ++ exclusao 11 13 p
                                 ++ exclusao 11 14 p ++ exclusao 11 15 p
                                 ++ exclusao 22 23 p)
                       (unique (periodos d))
           ++ restricoes_ordem groups
           ++ [fim +++ "Binary" +++ fim]
           ++ map (fun v => " " +++ v +++ fim) (variaveis_declaradas d st)
           ++ ["End" +++ fim]
      /\ (forall v,
            In v (variaveis_declaradas d st) <->
            (exists t s seq p, In (t, s, seq) (agendadas st) /\ In p seq
                               /\ v = x t s p)
            \/ exists s, In s (salas d) /\ v = "z_" +++ str s)
      /\ (forall a b p t s,
            In (a, b) [(3, 5); (11, 13); (11, 14); (11, 15); (22, 23)] ->
            In p (periodos d) ->
            In t (turmas_da_uc d a) \/ In t (turmas_da_uc d b) ->
            In s (salas d) ->
            (forall seq, In (t, s, seq) (agendadas st) -> ~ In p seq) ->
            In (x t s p) (termos a p ++ termos b p)
            /\ In (linha_exclusao a b p) chunks
            /\ ~ In (x t s p) (variaveis_declaradas d st)
            /\ ~ In (" " +++ x t s p +++ fim) chunks))
  /\ exists st,
      gerar cpython_list_of_set exemplo_exclusao [(3, 1); (5, 1)]
      = Ok (st,
            [ "Minimize" +++ String "010"%char EmptyString
              +++ " obj: z_1 + z_2" +++ String "010"%char EmptyString;
              String "010"%char EmptyString +++ "Subject To"
              +++ String "010"%char EmptyString;
              "turma_1_agendada: x1_1_1 = 1"
              +++ String "010"%char EmptyString;
              "sala_1_uso_para_turma_1: x1_1_1 - 1 z_1 <= 0"
              +++ String "010"%char EmptyString;
              "restricao_UC3_UC5_periodo_1: x1_1_1 + x1_2_1 + x2_1_1 + x2_2_1 <= 1"
              +++ String "010"%char EmptyString;
              String "010"%char EmptyString +++ "Binary"
              +++ String "010"%char EmptyString;
              " x1_1_1" +++ String "010"%char EmptyString;
              " z_1" +++ String "010"%char EmptyString;
              " z_2" +++ String "010"%char EmptyString;
              "End" +++ String "010"%char EmptyString ])
      /\ agendadas st = [(1, 1, [1])].
Proof.
  split.
  - destruct (gerar_partes list_of_set d ucs)
      as (st & groups & HI & HL & Hnd & Hel & Hg & Hgerar).
    exists st, groups. eexists.
    intros fim x termos linha_exclusao exclusao.
    split; [exact Hgerar|].
    assert (Hpar : forall a b p, restricao_par d a b p = exclusao a b p).
    { intros a b p.
      rewrite restricao_par_soma, restricao_uc_constraint_texto.
      reflexivity. }
    assert (Hglob : restricoes_globais d
                    = flat_map (fun p => exclusao 3 5 p ++ exclusao 11 13 p
                                         ++ exclusao 11 14 p
                                         ++ exclusao 11 15 p
                                         ++ exclusao 22 23 p)
                               (unique (periodos d))).
    { unfold restricoes_globais, restricoes_do_periodo.
      apply flat_map_ext. intros p. now rewrite !Hpar. }
    split; [|split].
    + unfold restricoes_escritas. rewrite Hglob, <- !app_assoc. reflexivity.
    + intros v. now apply variaveis_declaradas_In.
    + intros a b p t s Hab Hp Ht Hs Hnao.
      assert (Hx : In (var_name t s p)
                      (vars_uc_p d a p ++ vars_uc_p d b p)).
      { rewrite in_app_iff, !vars_uc_p_In.
        destruct Ht as [Ht|Ht]; [left | right]; exists t, s; auto. }
      split; [exact Hx|]. split; [|split].
      * apply chunk_In. right. right. left.
        unfold restricoes_escritas. rewrite !in_app_iff. right. left.
        pose proof (restricoes_globais_par d a b p Hab Hp) as Hin.
        rewrite restricao_uc_constraint_texto in Hin. apply Hin.
        intros Hnil. rewrite Hnil in Hx. exact Hx.
      * intros Hv. apply (variaveis_declaradas_In d st _ HI) in Hv.
        destruct Hv as [(t' & s' & seq & p' & Hin & Hp' & Hv)|(s' & _ & Hv)].
        -- apply var_name_inj in Hv. destruct Hv as (-> & -> & ->).
           exact (Hnao seq Hin Hp').
        -- discriminate Hv.
      * exact (variavel_nao_declarada d st groups t s p HI Hnao).
  - eexists. split; [vm_compute; reflexivity | reflexivity].
Qed.

(** The scenario of two sections of the exclusive units 3 and 5 that fit
    only period 1: the section with the smaller id is placed, the other is
    left out, and the exclusion constraint of the period names the possible
    variables of both. *)
Example modelo_do_exemplo_exclusao :
  generate_lp_file cpython_list_of_set exemplo_exclusao
  = Ok (Some [ objective [1; 2]; subject_to;
               "turma_1_agendada: x1_1_1 = 1" +++ nl;
               "sala_1_uso_para_turma_1: x1_1_1 - 1 z_1 <= 0" +++ nl;
               "restricao_UC3_UC5_periodo_1: x1_1_1 + x1_2_1 + x2_1_1 + x2_2_1 <= 1"
               +++ nl;
               binary_header; " x1_1_1" +++ nl; " z_1" +++ nl;
               " z_2" +++ nl; end_marker ]).
Proof. vm_compute. reflexivity. Qed.

(** ** The theorems at work on small tables *)

(** Two sections of the same teacher in the same room, periods 1 to 3. *)
Definition exemplo_mesmo_docente : dados :=
  {| turmas := [mk_turma 1 4 9 1 2%nat 2; mk_turma 2 6 9 1 1%nat 2];
     salas := [1];
     periodos := [1; 2; 3];
     uc_sala := [(4, 1); (6, 1)];
     indisponibilidade_docente := [];
     unidades_curriculares := Some [(4, 1); (6, 2)] |}.

(** Sections of the exclusive units 3 and 5, rooms 1 and 2, periods 1 and
    2. *)
Definition exemplo_exclusao_dois_periodos : dados :=
  {| turmas := [mk_turma 1 3 8 1 1%nat 2; mk_turma 2 5 9 1 1%nat 2];
     salas := [1; 2];
     periodos := [1; 2];
     uc_sala := [(3, 1); (5, 2)];
     indisponibilidade_docente := [];
     unidades_curriculares := Some [(3, 1); (5, 1)] |}.

(** A practical section and a theoretical section (label 1) of two units
    of the same semester, different teachers and rooms, periods 1 and 2. *)
Definition exemplo_semestre : dados :=
  {| turmas := [mk_turma 1 4 8 1 1%nat 2; mk_turma 2 6 9 1 1%nat 1];
     salas := [1; 2];
     periodos := [1; 2];
     uc_sala := [(4, 1); (6, 2)];
     indisponibilidade_docente := [];
     unidades_curriculares := Some [(4, 1); (6, 1)] |}.

(** C1 on [exemplo_exclusao]: section 1 is in [turma_set] and its step commits
    the first candidate, room 1 at period 1. *)
Lemma C1_witness :
  In 1 (turma_set exemplo_exclusao)
  /\ process_turma exemplo_exclusao [(3, 1); (5, 1)] [(1, [1]); (2, [2])] []
                   (estado_inicial exemplo_exclusao) 1
     = Ok (alocar (estado_inicial exemplo_exclusao) 1 1 8 1%nat [1]).
Proof.
  assert (Hin : In 1 (turma_set exemplo_exclusao)) by (now left).
  split; [exact Hin|].
  destruct (C1_first_fit_in_section_order
              exemplo_exclusao [(3, 1); (5, 1)] [(1, [1]); (2, [2])] [])
    as (_ & _ & _ & Hstep & _).
  destruct (Hstep (estado_inicial exemplo_exclusao) 1 Hin)
    as (row & Hl & _ & Hproc & _).
  vm_compute in Hl. injection Hl as <-.
  rewrite Hproc. reflexivity.
Defined.

(** C2 on [exemplo_mesmo_docente]: the two sections of teacher 9 get the
    blocks 1-2 and 3 of room 1. *)
Lemma C2_witness :
  exists st,
    fold_m (process_turma exemplo_mesmo_docente [(4, 1); (6, 2)]
                          [(1, [1]); (2, [1])] [])
           (firstn 2 (turma_set exemplo_mesmo_docente))
           (estado_inicial exemplo_mesmo_docente) = Ok st
    /\ agendadas st = [(1, 1, [1; 2]); (2, 1, [3])]
    /\ dict_get (turma_duracao exemplo_mesmo_docente) 1 = Some 2%nat
    /\ forall p, In p [1; 2] -> ~ In p [3].
Proof.
  destruct (C2_placements_contiguous_and_disjoint
              exemplo_mesmo_docente [(4, 1); (6, 2)] [(1, [1]); (2, [1])]
              [] 2) as (st & Hrun & Hforma & Hpares).
  exists st. split; [exact Hrun|].
  assert (Hag : agendadas st = [(1, 1, [1; 2]); (2, 1, [3])]).
  { vm_compute in Hrun. injection Hrun as <-. reflexivity. }
  split; [exact Hag|]. split.
  - apply (Hforma 1 1 [1; 2]). rewrite Hag. now left.
  - apply (Hpares 0%nat 1%nat (1, 1, [1; 2]) (2, 1, [3]));
      [discriminate | now rewrite Hag | now rewrite Hag | reflexivity].
Defined.

(** C3 on [exemplo_simples]: section 7, of duration 2, is placed in room 1
    over the block [1; 2]; the text of the three lines written for it. *)
Lemma C3_witness :
  nth_error (turma_set exemplo_simples) 0 = Some 7
  /\ linha exemplo_simples 7 = Some (mk_turma 7 4 9 1 2%nat 1)
  /\ escolha exemplo_simples [(4, 1)] [(7, [1])] []
             (estado_inicial exemplo_simples) (mk_turma 7 4 9 1 2%nat 1)
     = Some (atual [] (mk_turma 7 4 9 1 2%nat 1) 1, (1, [1; 2]))
  /\ agendadas (alocar (estado_inicial exemplo_simples) 7 1 9 2%nat [1; 2])
     = [(7, 1, [1; 2])]
  /\ lp_file (alocar (estado_inicial exemplo_simples) 7 1 9 2%nat [1; 2])
     = lp_file (estado_inicial exemplo_simples)
       ++ [ "cont_x7_1_1_x7_1_2: x7_1_1 - x7_1_2 = 0"
            +++ String "010"%char EmptyString;
            "turma_7_agendada: x7_1_1 + x7_1_2 = 2"
            +++ String "010"%char EmptyString;
            "sala_1_uso_para_turma_7: x7_1_1 + x7_1_2 - 2 z_1 <= 0"
            +++ String "010"%char EmptyString ].
Proof.
  split; [reflexivity|]. split; [reflexivity|].
  split; [vm_compute; reflexivity|].
  destruct (C3_constraints_of_a_placement
              exemplo_simples [(4, 1)] [(7, [1])] [] 0)
    as (st & Hrun & H).
  cbn [firstn fold_m] in Hrun. injection Hrun as <-.
  destruct (H 7 (mk_turma 7 4 9 1 2%nat 1)
              (atual [] (mk_turma 7 4 9 1 2%nat 1) 1)
              1 [1; 2]) as (_ & Hag & _ & Hlp).
  - reflexivity.
  - reflexivity.
  - vm_compute. reflexivity.
  - split; [exact Hag | exact Hlp].
Defined.

(** C4 on [exemplo_exclusao_dois_periodos], whose [uc_sala] names the rooms
    1 and 2 of [salas]: the sections of units 3 and 5 get different
    periods. *)
Lemma C4_witness :
  (forall l s, In s (cpython_list_of_set l) -> In s l)
  /\ (forall uc s,
        In (uc, s) (uc_sala exemplo_exclusao_dois_periodos) ->
        In s (salas exemplo_exclusao_dois_periodos))
  /\ exists st chunks,
      gerar cpython_list_of_set exemplo_exclusao_dois_periodos
            [(3, 1); (5, 1)] = Ok (st, chunks)
      /\ agendadas st = [(1, 1, [1]); (2, 2, [2])]
      /\ excluem 3 5
      /\ forall p, In p [1] -> ~ In p [2].
Proof.
  assert (Hset : forall l s, In s (cpython_list_of_set l) -> In s l)
    by exact cpython_list_of_set_In.
  assert (Hsalas : forall uc s,
             In (uc, s) (uc_sala exemplo_exclusao_dois_periodos) ->
             In s (salas exemplo_exclusao_dois_periodos)).
  { intros uc s [[= <- <-]|[[= <- <-]|[]]]; cbn; auto. }
  split; [exact Hset|]. split; [exact Hsalas|].
  destruct (C4_unit_exclusion_between_placements
              cpython_list_of_set exemplo_exclusao_dois_periodos
              [(3, 1); (5, 1)] Hset Hsalas)
    as (tsala & idt & _ & _ & _ & st & chunks & Hg & Hex).
  exists st, chunks. split; [exact Hg|].
  assert (Hag : agendadas st = [(1, 1, [1]); (2, 2, [2])]).
  { vm_compute in Hg. injection Hg as <- _. reflexivity. }
  assert (H35 : excluem 3 5) by (exists [5]; split; [reflexivity | now left]).
  split; [exact Hag|]. split; [exact H35|].
  apply (Hex 0%nat 1%nat (1, 1, [1]) (2, 2, [2]) 3 5);
    try (now rewrite Hag); try reflexivity; try discriminate;
    try exact H35; cbn; tauto.
Defined.

(** C10 on [exemplo_exclusao]: section 2, of unit 5, is not placed; its
    variable for room 1 and period 1 is a summand of the exclusion
    constraint of units 3 and 5 at period 1 and no line declares it. *)
Lemma C10_witness :
  exists st chunks,
    gerar cpython_list_of_set exemplo_exclusao [(3, 1); (5, 1)]
    = Ok (st, chunks)
    /\ agendadas st = [(1, 1, [1])]
    /\ In ("restricao_UC3_UC5_periodo_1: x1_1_1 + x1_2_1 + x2_1_1 + x2_2_1 <= 1"
           +++ String "010"%char EmptyString) chunks
    /\ ~ In (" x2_1_1" +++ String "010"%char EmptyString) chunks.
Proof.
  destruct (C10_exclusion_constraints_name_undeclared_variables
              cpython_list_of_set exemplo_exclusao [(3, 1); (5, 1)])
    as [(st & groups & chunks & H) _].
  cbv zeta in H. destruct H as (Hg & _ & _ & Hc).
  exists st, chunks. split; [exact Hg|].
  assert (Hag : agendadas st = [(1, 1, [1])]).
  { vm_compute in Hg. injection Hg as <- _. reflexivity. }
  split; [exact Hag|].
  destruct (Hc 3 5 1 2 1) as (_ & Hl & _ & Hd).
  - now left.
  - now left.
  - right. now left.
  - now left.
  - intros seq Hin. rewrite Hag in Hin. now destruct Hin as [[=]|[]].
  - split; [exact Hl | exact Hd].
Defined.

(** C5 on [exemplo_semestre]: after section 1 has taken period 1, the window
    at period 1 is rejected for the theoretical section 2 of the same
    semester. *)
Lemma C5_witness :
  exists st,
    fold_m (process_turma exemplo_semestre [(4, 1); (6, 1)]
                          [(1, [1]); (2, [2])] [])
           (firstn 1 (turma_set exemplo_semestre))
           (estado_inicial exemplo_semestre) = Ok st
    /\ agendadas st = [(1, 1, [1])]
    /\ semestre_ocupado exemplo_semestre [(4, 1); (6, 1)] st 1 [1]
    /\ loop_periodos exemplo_semestre [(4, 1); (6, 1)] st
                     (atual [] (mk_turma 2 6 9 1 1%nat 1) 1) 2
                     [0%nat; 1%nat]
       = loop_periodos exemplo_semestre [(4, 1); (6, 1)] st
                       (atual [] (mk_turma 2 6 9 1 1%nat 1) 1) 2 [1%nat].
Proof.
  destruct (C5_semester_exclusivity
              exemplo_semestre [(4, 1); (6, 1)] [(1, [1]); (2, [2])] [] 1)
    as (_ & st & Hrun & H).
  exists st. split; [exact Hrun|].
  assert (Hag : agendadas st = [(1, 1, [1])]).
  { vm_compute in Hrun. injection Hrun as <-. reflexivity. }
  assert (Hocc : semestre_ocupado exemplo_semestre [(4, 1); (6, 1)] st 1 [1]).
  { exists 1, 1, [1], 1. rewrite Hag.
    split; [now left|]. split; [now left|]. split; [now left|].
    reflexivity. }
  split; [exact Hag|]. split; [exact Hocc|].
  assert (Hlen : (0 + ta_duracao (atual [] (mk_turma 2 6 9 1 1%nat 1) 1)
                  <= List.length (periodos_ordenados exemplo_semestre))%nat)
    by (vm_compute; lia).
  destruct (H (atual [] (mk_turma 2 6 9 1 1%nat 1) 1) 2 0%nat [1%nat] Hlen)
    as [Hrej _].
  apply Hrej. split; [reflexivity | exact Hocc].
Defined.

(** C6 (amended) on [exemplo_duas_salas]: the rooms of section 7 are the
    CPython iteration order of the set of the rooms of its unit. *)
Lemma C6_witness :
  In 7 (turma_set exemplo_duas_salas)
  /\ exists tsala,
      turma_sala cpython_list_of_set exemplo_duas_salas = Ok tsala
      /\ get_default tsala 7 []
         = cpython_list_of_set
             (salas_da_uc exemplo_duas_salas (uc_de exemplo_duas_salas 7)).
Proof.
  assert (Hin : In 7 (turma_set exemplo_duas_salas)) by (now left).
  split; [exact Hin|].
  destruct (C6_rooms_in_set_iteration_order
              cpython_list_of_set exemplo_duas_salas [(4, 1)])
    as (tsala & Hts & Hget & _).
  exists tsala. split; [exact Hts|]. now apply Hget.
Defined.

(** C8 on [exemplo_indisponivel]: section 7 finds no window and its step
    returns the state unchanged. *)
Lemma C8_witness :
  linha exemplo_indisponivel 7 = Some (mk_turma 7 4 9 1 2%nat 1)
  /\ process_turma exemplo_indisponivel [(4, 1)] [(7, [1])] [(7, [2])]
                   (estado_inicial exemplo_indisponivel) 7
     = Ok (estado_inicial exemplo_indisponivel).
Proof.
  assert (Hl : linha exemplo_indisponivel 7
               = Some (mk_turma 7 4 9 1 2%nat 1)) by reflexivity.
  split; [exact Hl|].
  destruct (C8_unplaced_section_is_skipped
              cpython_list_of_set exemplo_indisponivel [(4, 1)])
    as (_ & Hstep & _).
  apply (Hstep [(7, [1])] [(7, [2])] (estado_inicial exemplo_indisponivel)
               7 (mk_turma 7 4 9 1 2%nat 1) [] Hl).
  intros sem s seq Hsem Hs Hb.
  vm_compute in Hsem. injection Hsem as <-.
  vm_compute in Hs. destruct Hs as [<-|[]].
  vm_compute in Hb. destruct Hb as [<-|[<-|[]]]; vm_compute; reflexivity.
Defined.

(** C9 on [exemplo_simples]: the key (teacher 9, period 1) holds the single
    variable [x7_1_1]. *)
Lemma C9_witness :
  exists st,
    fold_m (process_turma exemplo_simples [(4, 1)] [(7, [1])] [])
           (firstn 1 (turma_set exemplo_simples))
           (estado_inicial exemplo_simples) = Ok st
    /\ In ((9, 1), [var_name 7 1 1]) (docente_periodo_vars st)
    /\ exists t s, [var_name 7 1 1] = [var_name t s 1].
Proof.
  destruct (C9_no_conflict_constraint_is_written
              cpython_list_of_set exemplo_simples [(4, 1)]) as [Hk _].
  destruct (Hk [(7, [1])] [] 1%nat) as (st & Hrun & Hd & _).
  exists st. split; [exact Hrun|].
  assert (Hin : In ((9, 1), [var_name 7 1 1]) (docente_periodo_vars st)).
  { vm_compute in Hrun. injection Hrun as <-. vm_compute. tauto. }
  split; [exact Hin|]. exact (Hd 9 1 _ Hin).
Defined.

(** * Further properties *)

(** ** The placements of the search *)

(** X1. No placement of the final state uses a period at which the teacher
    of its section is listed as unavailable: for every logged placement of
    section [t], whose teacher [turma_docente] gives as [docente], no
    period of the block occurs with [docente] in
    [indisponibilidade_docente]. *)
Theorem X1_teacher_unavailability_is_respected
  (list_of_set : list Z -> list Z) (d : dados) (ucs : list (Z * Z)) :
  exists st chunks,
    gerar list_of_set d ucs = Ok (st, chunks)
    /\ forall t s seq docente p,
        In (t, s, seq) (agendadas st) ->
        dict_get (turma_docente d) t = Some docente ->
        In p seq ->
        ~ In (docente, p) (indisponibilidade_docente d).
Proof.
  destruct (gerar_admitidas list_of_set d ucs) as (st & chunks & Hg & _ & Ha).
  exists st, chunks. split; [exact Hg|].
  intros t s seq docente p Hin Hdoc Hp.
  destruct (Ha t s seq Hin) as (row & sem & Hl & _ & _ & _ & Hind).
  unfold turma_docente in Hdoc. rewrite coluna_get, Hl in Hdoc.
  injection Hdoc as <-. now apply Hind.
Qed.


(** X3. The log of placements lists the placed sections in strictly
    ascending id order, so no section is placed twice; every placed section
    is a section of [turmas] and its unit has a semester in
    [unidades_curriculares]: a section whose unit is missing from that
    table is never placed. *)
Theorem X3_placements_in_ascending_order_of_sections_with_a_semester
  (list_of_set : list Z -> list Z) (d : dados) (ucs : list (Z * Z)) :
  exists st chunks,
    gerar list_of_set d ucs = Ok (st, chunks)
    /\ StronglySorted Z.lt (map turma_de (agendadas st))
    /\ NoDup (map turma_de (agendadas st))
    /\ forall t s seq,
        In (t, s, seq) (agendadas st) ->
        In t (map id (turmas d))
        /\ exists uc sem,
            dict_get (turma_uc d) t = Some uc
            /\ dict_get (uc_semestre ucs) uc = Some sem.
Proof.
  destruct (gerar_admitidas list_of_set d ucs)
    as (st & chunks & Hg & Hord & Ha).
  exists st, chunks. split; [exact Hg|]. split; [exact Hord|]. split.
  - clear - Hord. induction Hord as [|a l Hs IH Hall]; constructor; auto.
    intros Hin. rewrite Forall_forall in Hall. specialize (Hall a Hin). lia.
  - intros t s seq Hin.
    destruct (Ha t s seq Hin) as (row & sem & Hl & Hsem & _).
    split.
    + apply turma_set_In. now apply (linha_In_turma_set d t row).
    + exists (unidade_curricular_id row), sem.
      unfold turma_uc. now rewrite coluna_get, Hl.
Qed.

(** ** The ordering constraints *)


(** ** Reading the names of the variables back *)

(** X5. [get_uc_id_from_var] never raises.  On a variable name of the
    builder, [x<t>_<s>_<p>], it is the lookup of section [t] in the given
    map ([None] for a section the map does not have); on a room indicator
    [z_<s>] it is [None]. *)
Theorem X5_get_uc_id_from_var_decodes_the_section (m : dict Z Z) :
  (forall v, exists r, get_uc_id_from_var v m = Ok r)
  /\ (forall t s p, get_uc_id_from_var (var_name t s p) m = Ok (dict_get m t))
  /\ forall s, get_uc_id_from_var (z_name s) m = Ok None.
Proof.
  split; [intros v; apply get_uc_id_from_var_total|].
  split; [intros t s p; apply get_uc_id_from_var_var_name|].
  intros s. unfold get_uc_id_from_var. rewrite split_z_name. reflexivity.
Qed.

(** X6. [parse_solution] decodes the names the builder writes.  For a
    solution whose variables, all of value 1, are placements
    [x<t>_<s>_<p>] and room indicators [z_<s>], the reported classes are, in
    the order of the file, one class per placement whose section [t] has a
    row in [turmas], with the texts of [t] and [s], the period [p] and the
    unit, class type and label of the first row of id [t]; the used rooms
    are the texts of the indicated rooms. *)
Theorem X6_parse_solution_decodes_the_names_of_the_builder
  (turmas_df : list turma_row) (itens : list (Z * Z * Z + Z)) :
  parse_solution (Some (map variavel_do_modelo itens)) (Some turmas_df)
  = Ok (flat_map (classes_do_item turmas_df) itens,
        unique (flat_map salas_do_item itens)).
Proof.
  unfold parse_solution. now rewrite ler_modelo.
Qed.

(** X7. [parse_solution] returns normally on every list of variables, and
    it reports known sections only: every reported class comes from a
    variable of value 1 whose name starts with [x] and has exactly three
    parts, the third a number and the first, without its first character,
    the id of a row of [turmas]; unit, class type and label are those of
    the first such row.  The used rooms hold no duplicate and are exactly
    the second parts of the names starting with [z_] of value 1. *)
Theorem X7_parse_solution_reports_known_sections_only
  (variaveis : list variavel) (turmas_df : list turma_row) :
  exists classes rooms,
    parse_solution (Some variaveis) (Some turmas_df) = Ok (classes, rooms)
    /\ (forall c, In c classes ->
          origem turmas_df variaveis c
          /\ exists t turma_info,
              py_int (cl_turma_id c) = Ok t
              /\ In turma_info turmas_df /\ id turma_info = t
              /\ cl_unidade_curricular_id c
                 = unidade_curricular_id turma_info)
    /\ NoDup rooms
    /\ forall r, In r rooms <->
                 exists v, In v variaveis /\ sala_usada v r.
Proof.
  destruct (ler_variaveis turmas_df variaveis [] [])
    as (classes & rooms & Hrun & Ho & Hr & Hn).
  exists classes, rooms. split; [exact Hrun|]. split; [|split].
  - intros c Hc. rewrite Forall_forall in Ho. specialize (Ho c Hc).
    split; [exact Ho|].
    destruct Ho as (v & a & b & t & row & _ & _ & _ & _ & _ & _ & Ht & Hf
                    & Hu & _).
    apply find_some in Hf. destruct Hf as [Hin Hid].
    apply Z.eqb_eq in Hid. exists t, row. auto.
  - apply Hn. constructor.
  - intros r. rewrite Hr. split; [intros [[]|H]; exact H | auto].
Qed.

(** X8. Only the variables of value 1 count: removing every other
    variable from the solution changes nothing in the result. *)
Theorem X8_parse_solution_ignores_variables_not_equal_to_one
  (variaveis : list variavel) (pickle : option (list turma_row)) :
  parse_solution (Some variaveis) pickle
  = parse_solution
      (Some (filter (fun v => Qeq_bool (value v) 1) variaveis)) pickle.
Proof.
  unfold parse_solution. destruct pickle as [turmas_df|]; [|reflexivity].
  apply ler_variaveis_filter.
Qed.

(** ** The timetable *)

Lemma create_timetable_ok classes max :
  (forall c, In c classes -> - 5 * Z.pos max < cl_periodo_id c) ->
  exists timetable,
    create_timetable classes max = Ok timetable
    /\ grelha_ok max timetable classes.
Proof.
  intros Hp. unfold create_timetable.
  exact (colocar_aulas_ok max classes _ [] (grelha_vazia_ok max) Hp).
Qed.

Lemma colocar_aula_fora max horarios timetable cls :
  5 * Z.pos max < cl_periodo_id cls ->
  colocar_aula max horarios timetable cls = Ok timetable.
Proof.
  intros Hp. unfold colocar_aula.
  assert (Hd : 5 <= (cl_periodo_id cls - 1) / Z.pos max)
    by (apply Z.div_le_lower_bound; lia).
  change (Z.of_nat (List.length days)) with 5.
  destruct (Z.ltb_spec ((cl_periodo_id cls - 1) / Z.pos max) 5); [lia|].
  reflexivity.
Qed.

(** A class of the example below: unit 4, class type 1, label 2, room 7. *)
Definition aula (periodo : Z) : classe :=
  {| cl_turma_id := "3"; cl_unidade_curricular_id := 4; cl_tipo_aula_id := 1;
     cl_turma_label_id := 2; cl_sala_id := "7"; cl_periodo_id := periodo |}.

(** X9. When every class has a period id above [-5 * max_periods_per_day],
    [create_timetable] returns normally, and each cell of the table (row
    [i] of the hours, column [j] of the days) holds the texts of the
    classes that fall into it, in the order of the list, joined by
    ["<br>"]; a cell no class falls into stays empty.  A class falls into
    the row [(p - 1) mod max] and the column [(p - 1) // max], counted from
    the end of the week when it is negative. *)
Theorem X9_timetable_cells_hold_their_classes_in_order
  (scheduled_classes : list classe) (max_periods_per_day : positive) :
  (forall c, In c scheduled_classes ->
             - 5 * Z.pos max_periods_per_day < cl_periodo_id c) ->
  exists timetable,
    create_timetable scheduled_classes max_periods_per_day = Ok timetable
    /\ forall i j dia,
        (i < Pos.to_nat max_periods_per_day)%nat ->
        nth_error days j = Some dia ->
        dict_get timetable (horario i, dia)
        = Some (join "<br>"
                  (map allocation
                       (filter (cai max_periods_per_day i j)
                               scheduled_classes))).
Proof.
  intros Hp.
  destruct (create_timetable_ok scheduled_classes max_periods_per_day Hp)
    as (timetable & Hrun & Hok).
  exists timetable. split; [exact Hrun|].
  intros i j dia Hi Hj. now apply Hok.
Qed.

(** X10. A class whose period id is at most [-5 * max_periods_per_day]
    makes [create_timetable] raise [IndexError]: the test
    [day_idx < len(days)] lets the negative day index through, and
    [days[day_idx]] is out of range. *)
Theorem X10_timetable_raises_on_a_period_far_below_one
  (scheduled_classes : list classe) (max_periods_per_day : positive) :
  (exists c, In c scheduled_classes
             /\ cl_periodo_id c <= - 5 * Z.pos max_periods_per_day) ->
  create_timetable scheduled_classes max_periods_per_day = Raise IndexError.
Proof.
  intros Hex. unfold create_timetable.
  exact (colocar_aulas_raise max_periods_per_day scheduled_classes _ []
           (grelha_vazia_ok max_periods_per_day) Hex).
Qed.

(** X11. Classes whose period id is beyond the last period of the week
    ([5 * max_periods_per_day]) are dropped: the table is the one of the
    list without them. *)
Theorem X11_timetable_drops_periods_beyond_the_week
  (scheduled_classes : list classe) (max_periods_per_day : positive) :
  create_timetable scheduled_classes max_periods_per_day
  = create_timetable
      (filter (fun c => cl_periodo_id c <=? 5 * Z.pos max_periods_per_day)
              scheduled_classes)
      max_periods_per_day.
Proof.
  unfold create_timetable.
  generalize (grelha_vazia
                (map horario (py_range (Z.pos max_periods_per_day)))).
  induction scheduled_classes as [|c cs IH]; intros T; [reflexivity|].
  cbn [fold_m filter].
  destruct (Z.leb_spec (cl_periodo_id c) (5 * Z.pos max_periods_per_day)).
  - cbn [fold_m]. destruct (colocar_aula _ _ T c); cbn [bind]; auto.
  - rewrite colocar_aula_fora by assumption. cbn [bind]. apply IH.
Qed.

(** X12. With every period id above [-5 * max_periods_per_day], a class
    whose period id [p] is at most [5 * max_periods_per_day] is shown in
    the row of the hour [(p - 1) mod max_periods_per_day] and in the column
    of the day [(p - 1) // max_periods_per_day] when [p >= 1]; when
    [p <= 0] the column is counted from the end of the week, so that a
    class of period 0 is shown on Friday in the last hour. *)
Theorem X12_class_is_shown_in_the_cell_of_its_period
  (scheduled_classes : list classe) (max_periods_per_day : positive)
  (cls : classe) :
  (forall c, In c scheduled_classes ->
             - 5 * Z.pos max_periods_per_day < cl_periodo_id c) ->
  In cls scheduled_classes ->
  cl_periodo_id cls <= 5 * Z.pos max_periods_per_day ->
  let day_idx := (cl_periodo_id cls - 1) / Z.pos max_periods_per_day in
  let time_idx := (cl_periodo_id cls - 1) mod Z.pos max_periods_per_day in
  exists timetable dia l,
    create_timetable scheduled_classes max_periods_per_day = Ok timetable
    /\ nth_error days (Z.to_nat (if 1 <=? cl_periodo_id cls then day_idx
                                 else day_idx + 5)) = Some dia
    /\ dict_get timetable (horario (Z.to_nat time_idx), dia)
       = Some (join "<br>" (map allocation l))
    /\ In cls l.
Proof.
  intros Hall Hin Hp day_idx time_idx.
  destruct (create_timetable_ok _ _ Hall) as (T & Hrun & Hok).
  assert (HM : 0 < Z.pos max_periods_per_day) by lia.
  assert (Ht : 0 <= time_idx < Z.pos max_periods_per_day)
    by (apply Z.mod_pos_bound; exact HM).
  assert (Hd1 : -5 <= day_idx)
    by (apply Z.div_le_lower_bound; [lia | specialize (Hall _ Hin); lia]).
  assert (Hd2 : day_idx < 5) by (apply Z.div_lt_upper_bound; lia).
  assert (Hsig : 1 <= cl_periodo_id cls <-> 0 <= day_idx).
  { split; intros H.
    - apply Z.div_pos; lia.
    - destruct (Z.lt_ge_cases (cl_periodo_id cls) 1) as [Hlt|]; [|lia].
      assert (day_idx < 0) by (apply Z.div_lt_upper_bound; lia). lia. }
  set (j := Z.to_nat (if 1 <=? cl_periodo_id cls then day_idx
                      else day_idx + 5)).
  assert (Hj : (j < 5)%nat)
    by (unfold j; destruct (Z.leb_spec 1 (cl_periodo_id cls)); lia).
  destruct (nth_error days j) as [dia|] eqn:Hdia;
    [|apply nth_error_None in Hdia; rewrite days_length in Hdia; lia].
  exists T, dia. eexists. split; [exact Hrun|]. split; [reflexivity|].
  split; [apply (Hok (Z.to_nat time_idx) j dia); [lia | exact Hdia]|].
  apply filter_In. split; [exact Hin|].
  unfold cai. fold day_idx time_idx.
  apply andb_true_intro. split; [apply andb_true_intro; split|].
  - apply andb_true_intro.
    split; [apply Z.ltb_lt; exact Hd2 | apply Z.leb_le; exact Hd1].
  - apply Z.eqb_eq. lia.
  - apply Z.eqb_eq. unfold j.
    destruct (Z.leb_spec 1 (cl_periodo_id cls)),
      (Z.leb_spec 0 day_idx); lia.
Qed.

(** X9 on two classes of periods 1 and 0 with 15 periods a day: the class
    of period 0 is alone in the last hour of Friday. *)
Lemma X9_witness :
  (forall c, In c [aula 1; aula 0] -> - 5 * 15 < cl_periodo_id c)
  /\ exists timetable,
      create_timetable [aula 1; aula 0] 15 = Ok timetable
      /\ dict_get timetable (horario 14, "Sexta-feira"%string)
         = Some (allocation (aula 0)).
Proof.
  assert (H : forall c, In c [aula 1; aula 0] -> - 5 * 15 < cl_periodo_id c)
    by (intros c [<-|[<-|[]]]; cbn; lia).
  split; [exact H|].
  destruct (X9_timetable_cells_hold_their_classes_in_order
              [aula 1; aula 0] 15 H) as (T & Hrun & Hcells).
  exists T. split; [exact Hrun|].
  rewrite (Hcells 14%nat 4%nat "Sexta-feira"%string); [reflexivity | | ].
  - vm_compute. lia.
  - reflexivity.
Defined.

(** X10 on a class of period -75 with 15 periods a day. *)
Lemma X10_witness :
  (exists c, In c [aula 1; aula (-75)] /\ cl_periodo_id c <= - 5 * 15)
  /\ create_timetable [aula 1; aula (-75)] 15 = Raise IndexError.
Proof.
  assert (H : exists c, In c [aula 1; aula (-75)]
                        /\ cl_periodo_id c <= - 5 * 15).
  { exists (aula (-75)). split; [right; now left | cbn; lia]. }
  split; [exact H|].
  exact (X10_timetable_raises_on_a_period_far_below_one _ 15 H).
Defined.

(** X12 on the class of period 0 among two classes, with 15 periods a
    day. *)
Lemma X12_witness :
  exists timetable dia l,
    create_timetable [aula 1; aula 0] 15 = Ok timetable
    /\ nth_error days 4 = Some dia
    /\ dict_get timetable (horario 14, dia)
       = Some (join "<br>" (map allocation l))
    /\ In (aula 0) l.
Proof.
  apply (X12_class_is_shown_in_the_cell_of_its_period
           [aula 1; aula 0] 15 (aula 0)).
  - intros c [<-|[<-|[]]]; cbn; lia.
  - right. now left.
  - cbn. lia.
Defined.

(** ** The preparation of the tables *)

(** X13. [verificar_colunas] returns normally exactly when every required
    table is present with all its required columns.  When it raises, the
    exception names the first required table, in the order of
    [required_columns], that is missing or incomplete, and for an
    incomplete table a required column it does not have; the tables before
    it are complete. *)
Theorem X13_verificar_colunas_accepts_complete_tables_only
  (dados : dict string (list string)) :
  (verificar_colunas dados = Normal tt <->
   forall tabela colunas,
     In (tabela, colunas) required_columns ->
     exists columns, dict_get dados tabela = Some columns
                     /\ forall c, In c colunas -> In c columns)
  /\ forall e,
      verificar_colunas dados = Exception e ->
      exists antes tabela colunas depois,
        required_columns = antes ++ (tabela, colunas) :: depois
        /\ (forall tabela' colunas',
              In (tabela', colunas') antes ->
              exists columns, dict_get dados tabela' = Some columns
                              /\ forall c, In c colunas' -> In c columns)
        /\ ((e = TabelaNaoEncontrada tabela /\ dict_get dados tabela = None)
            \/ exists columns c,
                e = ColunaNaoEncontrada c tabela
                /\ dict_get dados tabela = Some columns
                /\ In c colunas /\ ~ In c columns).
Proof.
  unfold verificar_colunas. split.
  - apply verificar_tabelas_normal.
  - intros e He. apply verificar_tabelas_excecao in He.
    destruct He as (antes & tabela & colunas & depois & Hreq & Hantes & Hc).
    exists antes, tabela, colunas, depois.
    split; [exact Hreq|]. split; [|exact Hc].
    now apply verificar_tabelas_normal.
Qed.


(** X15. The result of [preparar_dados] does not depend on the tables
    [uc_turma_label], [uc_duracao] and [uc_docente]: the three joins with
    them only repeat rows, which [drop_duplicates] removes again. *)
Theorem X15_preparar_dados_does_not_depend_on_the_joined_tables
  (t : tabelas) (uc_turma_label : list (Z * string))
  (uc_duracao uc_docente : list (Z * Z)) :
  preparar_dados t
  = preparar_dados
      {| t_turmas := t_turmas t;
         t_uc_turma_label := uc_turma_label;
         t_uc_duracao := uc_duracao;
         t_uc_docente := uc_docente;
         t_unidades_curriculares := t_unidades_curriculares t;
         t_periodos := t_periodos t;
         t_salas := t_salas t;
         t_uc_sala := t_uc_sala t;
         t_indisponibilidade_docente := t_indisponibilidade_docente t |}.
Proof.
  rewrite !preparar_dados_distintas.
  unfold turmas_do_semestre, turmas_distintas, preparar_turma,
    semestre_da_uc, dados_preparados.
  cbn [t_turmas t_unidades_curriculares t_periodos t_salas t_uc_sala
       t_indisponibilidade_docente].
  reflexivity.
Qed.


(** X17. No prepared section is in both results, and none is invented:
    a prepared section has the id, unit, teacher, class type and duration
    of an imported section, and its label id, from 1 to 5, is the id of
    the label of that section. *)
Theorem X17_prepared_sections_are_disjoint_and_come_from_the_import
  (t : tabelas) (impares pares : dados) :
  preparar_dados t = Normal (impares, pares) ->
  (forall r, In r (turmas impares) -> ~ In r (turmas pares))
  /\ forall r,
      In r (turmas impares) \/ In r (turmas pares) ->
      1 <= turma_label_id r <= 5
      /\ exists a,
          In a (t_turmas t)
          /\ id r = ti_id a
          /\ unidade_curricular_id r = ti_unidade_curricular_id a
          /\ docente_id r = ti_docente_id a
          /\ tipo_aula_id r = ti_tipo_aula_id a
          /\ duracao r = ti_duracao a
          /\ dict_get turma_label_to_id (ti_turma_label a)
             = Some (turma_label_id r).
Proof.
  rewrite preparar_dados_distintas.
  destruct (filter _ _); [|discriminate].
  intros [= <- <-]. cbn [dados_preparados turmas]. split.
  - intros r Hi Hp. apply turmas_do_semestre_In in Hi, Hp.
    destruct Hi as (a & s & i & _ & Hs & _ & Hm & ->).
    destruct Hp as (a' & s' & i' & _ & Hs' & _ & Hm' & Heq).
    assert (Huc : ti_unidade_curricular_id a = ti_unidade_curricular_id a')
      by (unfold preparada in Heq; congruence).
    rewrite Huc in Hs. rewrite Hs in Hs'. injection Hs' as <-. lia.
  - intros r Hr.
    assert (H : exists resto, In r (turmas_do_semestre t resto))
      by (destruct Hr; eauto).
    destruct H as (resto & H). apply turmas_do_semestre_In in H.
    destruct H as (a & s & i & Ha & _ & Hi & _ & ->).
    apply drop_duplicates_In in Ha. destruct Ha as [Ha _].
    cbn [preparada turma_label_id id unidade_curricular_id docente_id
         tipo_aula_id duracao].
    split; [|exists a; repeat split; assumption].
    apply dict_get_In in Hi. unfold turma_label_to_id in Hi.
    cbn [In] in Hi. decompose [or] Hi; try contradiction;
      match goal with H : (_, _) = (_, _) |- _ => injection H as _ <- end;
      lia.
Qed.

(** X18. The prepared data always carry the table of the units, so that
    [generate_lp_file] does not return early on them, and the unit of
    every prepared section has a semester in the dictionary the builder
    makes of that table: the builder skips no prepared section for want of
    a semester. *)
Theorem X18_builder_finds_a_semester_for_every_prepared_section
  (t : tabelas) (impares pares : dados) :
  preparar_dados t = Normal (impares, pares) ->
  forall d, d = impares \/ d = pares ->
    unidades_curriculares d = Some (t_unidades_curriculares t)
    /\ (forall list_of_set,
          exists chunks, generate_lp_file list_of_set d = Ok (Some chunks))
    /\ forall r, In r (turmas d) ->
         exists sem,
           dict_get (uc_semestre (t_unidades_curriculares t))
                    (unidade_curricular_id r) = Some sem.
Proof.
  rewrite preparar_dados_distintas.
  destruct (filter _ _); [|discriminate].
  intros [= <- <-] d Hd.
  assert (Hu : unidades_curriculares d = Some (t_unidades_curriculares t))
    by (destruct Hd as [-> | ->]; reflexivity).
  split; [exact Hu|]. split.
  - intros list_of_set. unfold generate_lp_file. rewrite Hu.
    destruct (gerar_ok list_of_set d (t_unidades_curriculares t))
      as (tsala & idt & groups & st & _ & _ & _ & _ & _ & _ & _ & _ & _ & _
          & ->).
    cbn [bind snd]. eauto.
  - intros r Hr.
    assert (H : exists resto, In r (turmas_do_semestre t resto))
      by (destruct Hd as [-> | ->]; cbn [dados_preparados turmas] in Hr;
          eauto).
    destruct H as (resto & H). apply turmas_do_semestre_In in H.
    destruct H as (a & s & i & _ & Hs & _ & _ & ->).
    cbn [preparada unidade_curricular_id].
    unfold semestre_da_uc in Hs.
    destruct (find _ (t_unidades_curriculares t)) as [[uc s']|] eqn:Hf;
      [|discriminate].
    apply find_some in Hf. destruct Hf as [Hin Huc].
    cbn [fst] in Huc. apply Z.eqb_eq in Huc. subst uc.
    unfold uc_semestre. apply dict_zip_bound.
    apply in_map_iff. now exists (ti_unidade_curricular_id a, s').
Qed.

(** Two imported sections of the units 4 (first semester) and 5 (second
    semester); unit 4 has two rows in [uc_turma_label]. *)
Definition tabelas_exemplo : tabelas :=
  {| t_turmas :=
       [ {| ti_id := 1; ti_unidade_curricular_id := 4; ti_docente_id := 9;
            ti_tipo_aula_id := 1; ti_duracao := 2%nat;
            ti_turma_label := "TT" |};
         {| ti_id := 2; ti_unidade_curricular_id := 5; ti_docente_id := 9;
            ti_tipo_aula_id := 2; ti_duracao := 1%nat;
            ti_turma_label := "A" |} ];
     t_uc_turma_label := [(4, "TT"%string); (4, "A"%string)];
     t_uc_duracao := [(4, 2)];
     t_uc_docente := [];
     t_unidades_curriculares := [(4, 1); (5, 2)];
     t_periodos :=
       [ {| pi_id := 1; pi_dia_semana := "Segunda";
            pi_hora_inicio := {| hour := 8; minute := 30; second := 0;
                                 microsecond := 0 |};
            pi_hora_fim := {| hour := 9; minute := 30; second := 0;
                              microsecond := 0 |} |};
         {| pi_id := 2; pi_dia_semana := "Domingo";
            pi_hora_inicio := {| hour := 8; minute := 30; second := 0;
                                 microsecond := 0 |};
            pi_hora_fim := {| hour := 9; minute := 30; second := 0;
                              microsecond := 0 |} |} ];
     t_salas := [1];
     t_uc_sala := [(4, 1); (5, 1)];
     t_indisponibilidade_docente := [] |}.


Lemma preparar_exemplo :
  preparar_dados tabelas_exemplo
  = Normal (dados_preparados tabelas_exemplo [mk_turma 1 4 9 1 2%nat 1]
              (filter periodo_valido (t_periodos tabelas_exemplo)),
            dados_preparados tabelas_exemplo [mk_turma 2 5 9 2 1%nat 2]
              (filter periodo_valido (t_periodos tabelas_exemplo))).
Proof. reflexivity. Qed.

(** X17 on [tabelas_exemplo]. *)
Lemma X17_witness :
  preparar_dados tabelas_exemplo
  = Normal (dados_preparados tabelas_exemplo [mk_turma 1 4 9 1 2%nat 1]
              (filter periodo_valido (t_periodos tabelas_exemplo)),
            dados_preparados tabelas_exemplo [mk_turma 2 5 9 2 1%nat 2]
              (filter periodo_valido (t_periodos tabelas_exemplo)))
  /\ ~ In (mk_turma 1 4 9 1 2%nat 1) [mk_turma 2 5 9 2 1%nat 2].
Proof.
  split; [exact preparar_exemplo|].
  destruct (X17_prepared_sections_are_disjoint_and_come_from_the_import
              tabelas_exemplo _ _ preparar_exemplo) as [Hd _].
  apply (Hd (mk_turma 1 4 9 1 2%nat 1)). now left.
Defined.

(** X18 on [tabelas_exemplo]: the builder has a semester for unit 4. *)
Lemma X18_witness :
  preparar_dados tabelas_exemplo
  = Normal (dados_preparados tabelas_exemplo [mk_turma 1 4 9 1 2%nat 1]
              (filter periodo_valido (t_periodos tabelas_exemplo)),
            dados_preparados tabelas_exemplo [mk_turma 2 5 9 2 1%nat 2]
              (filter periodo_valido (t_periodos tabelas_exemplo)))
  /\ exists sem,
      dict_get (uc_semestre (t_unidades_curriculares tabelas_exemplo)) 4
      = Some sem.
Proof.
  split; [exact preparar_exemplo|].
  destruct (X18_builder_finds_a_semester_for_every_prepared_section
              tabelas_exemplo _ _ preparar_exemplo _ (or_introl eq_refl))
    as (_ & _ & Hs).
  apply (Hs (mk_turma 1 4 9 1 2%nat 1)). now left.
Defined.

(** ** Sections with several rows *)

Lemma dict_zip_acc_ultimo {V : Type} (kvs : list (Z * V)) (acc : dict Z V)
  (k : Z) :
  dict_get (fold_left (fun a kv => dict_set a (fst kv) (snd kv)) kvs acc) k
  = match find (fun kv => fst kv =? k) (rev kvs) with
    | Some kv => Some (snd kv)
    | None => dict_get acc k
    end.
Proof.
  revert acc. induction kvs as [|[k0 v0] kvs IH]; intros acc; [reflexivity|].
  cbn [fold_left rev fst snd]. rewrite IH, find_app.
  destruct (find (fun kv => fst kv =? k) (rev kvs)); [reflexivity|].
  cbn [find fst snd]. rewrite dict_get_set.
  change (keqb k0 k) with (k0 =? k). now destruct (k0 =? k).
Qed.

Lemma find_map_chave {A B : Type} (g : A -> Z * B) (f : A -> Z) k l :
  (forall a, fst (g a) = f a) ->
  find (fun kv => fst kv =? k) (map g l)
  = option_map g (find (fun a => f a =? k) l).
Proof.
  intros Hg. induction l as [|a l IH]; [reflexivity|].
  cbn [map find]. rewrite Hg. destruct (f a =? k); [reflexivity | exact IH].
Qed.

(** [dict(zip(turmas['id'], turmas[column]))] holds, for a section, the
    value of its last row. *)
Lemma coluna_ultima {B : Type} (d : dados) (f : turma_row -> B) t :
  dict_get (dict_zip (map (fun r => (id r, f r)) (turmas d))) t
  = option_map f (find (fun r => id r =? t) (rev (turmas d))).
Proof.
  unfold dict_zip. rewrite dict_zip_acc_ultimo, <- map_rev.
  rewrite (find_map_chave (fun r => (id r, f r)) id) by reflexivity.
  now destruct (find _ (rev (turmas d))).
Qed.

(** X19. When [turmas] has several rows with the same id, the builder
    reads the teacher, duration, class type, unit and label of the section
    from the last of them ([dict(zip(...))] keeps the last value of a key),
    whereas [parse_solution] reports unit, class type and label of the
    first of them. *)
Theorem X19_builder_reads_the_last_row_of_a_section_and_the_reader_the_first
  (d : dados) (t : Z) :
  dict_get (turma_docente d) t
  = option_map docente_id (find (fun r => id r =? t) (rev (turmas d)))
  /\ dict_get (turma_duracao d) t
     = option_map duracao (find (fun r => id r =? t) (rev (turmas d)))
  /\ dict_get (turma_tipo d) t
     = option_map tipo_aula_id (find (fun r => id r =? t) (rev (turmas d)))
  /\ dict_get (turma_uc d) t
     = option_map unidade_curricular_id
                  (find (fun r => id r =? t) (rev (turmas d)))
  /\ dict_get (turma_label d) t
     = option_map turma_label_id
                  (find (fun r => id r =? t) (rev (turmas d)))
  /\ forall s p,
      parse_solution (Some [{| name := var_name t s p; value := 1 |}])
                     (Some (turmas d))
      = Ok (match find (fun r => id r =? t) (turmas d) with
            | Some turma_info =>
                [{| cl_turma_id := str t;
                    cl_unidade_curricular_id :=
                      unidade_curricular_id turma_info;
                    cl_tipo_aula_id := tipo_aula_id turma_info;
                    cl_turma_label_id := turma_label_id turma_info;
                    cl_sala_id := str s;
                    cl_periodo_id := p |}]
            | None => []
            end, []).
Proof.
  unfold turma_docente, turma_duracao, turma_tipo, turma_uc, turma_label.
  rewrite !coluna_ultima. repeat (split; [reflexivity|]).
  intros s p. unfold parse_solution. cbn [fold_m].
  rewrite (ler_variavel_x (turmas d) [] [] t s p 1 eq_refl). cbn [bind app].
  unfold classe_de. now destruct (find _ (turmas d)).
Qed.
